(** * Database provider clients, factory and HTTP response wrapper

    A shallow embedding of the TypeScript sources
      - [src/db/types.ts], [src/db/database-factory.ts],
      - [src/db/providers/{postgres,mysql,mssql,sqlite}.ts],
      - [src/api/api-client.ts] (class [ApiResponse]),
    together with the properties their specification states about them.

    Conventions.  A JavaScript string is a [string], the run of bytes of its
    UTF-8 encoding; the characters the code inspects are [?] and what
    [parseInt] reads: white space, a sign and the ASCII digits.  An optional
    field ([x?: T]) or a nullable one ([T | null]) is an [option].  A method
    of a class is a computation in the monad [M Σ], where [Σ] pairs the
    instance's fields with the history of calls made to the vendor driver; a
    JavaScript exception is the result [Throw e], and the state reached when
    it was thrown is kept, as in JavaScript.  [await] is sequencing. *)

From Stdlib Require Import ZArith String Ascii List Lia DecimalString DecimalNat.
From Stdlib Require Import QArith_base Qround.
From Stdlib Require HexadecimalString.
From stdpp Require Import base option list strings gmap.

Set Warnings "-register-all".

Local Open Scope Z_scope.
Local Open Scope nat_scope.
Local Open Scope list_scope.

(** ** JavaScript values, truthiness and strings *)

(** Values passed as query parameters ([unknown[]]) and found in rows. *)
Inductive value :=
  | VUndefined
  | VNull
  | VBool (b : bool)
  | VNum (z : Z)
  | VStr (s : string).

(** A JavaScript [number] as far as this code needs it: what [parseInt],
    [length] and the drivers' counts yield, that is an integer, [NaN], or an
    infinity (what [parseInt] yields on a run of digits past the largest
    double).  The two zeros are one [Int 0]: both are falsy, and this code
    does nothing with a zero but test it with [||]. *)
Inductive number :=
  | NaN
  | Int (z : Z)
  | Infinity (negative : bool).

(** [a || b] on an optional string: the empty string and [undefined] are falsy. *)
Definition or_string (a : option string) (b : string) : string :=
  match a with
  | Some s => if String.eqb s "" then b else s
  | None => b
  end.

(** [a || b] on an optional number: [0], [NaN] and [undefined] are falsy. *)
Definition or_number (a : option number) (b : number) : number :=
  match a with
  | Some (Int z) => if Z.eqb z 0 then b else Int z
  | Some NaN => b
  | Some (Infinity negative) => Infinity negative
  | None => b
  end.

(** The Number value of a mathematical integer: the nearest double, a tie
    going to the even significand, and an infinity from [2^1024 - 2^970] on.
    [round_to_53 m] keeps the 53 leading bits of [m >= 0]. *)
Definition round_to_53 (m : Z) : Z :=
  let e := (Z.log2 m - 52)%Z in
  if (e <=? 0)%Z then m
  else
    let q := (m / 2 ^ e)%Z in
    let r := (m mod 2 ^ e)%Z in
    let half := (2 ^ (e - 1))%Z in
    let up := if (r <? half)%Z then false else if (half <? r)%Z then true else Z.odd q in
    ((if up then q + 1 else q) * 2 ^ e)%Z.

Definition number_of_integer (z : Z) : number :=
  let m := round_to_53 (Z.abs z) in
  if (2 ^ 1024 <=? m)%Z then Infinity (z <? 0)%Z else Int (Z.sgn z * m)%Z.

(** Decimal rendering of an array index, as [`${index}`] does. *)
Definition dec (n : nat) : string := NilEmpty.string_of_uint (Nat.to_uint n).

(** [strip_prefix pat s] is [Some rest] when [s = pat ++ rest]. *)
Fixpoint strip_prefix (pat s : string) : option string :=
  match pat with
  | EmptyString => Some s
  | String p pat' =>
      match s with
      | EmptyString => None
      | String c s' => if Ascii.eqb p c then strip_prefix pat' s' else None
      end
  end.

(** [s.replace(pat, rep)] with a string pattern: only the first occurrence
    of [pat] is replaced.  The replacement is inserted literally, which is
    what JavaScript does for a replacement without a [$] character (see
    [named_token_literal] below for the replacements used here). *)
Fixpoint replace (pat rep s : string) : string :=
  match strip_prefix pat s with
  | Some rest => rep +:+ rest
  | None =>
      match s with
      | EmptyString => EmptyString
      | String c s' => String c (replace pat rep s')
      end
  end.

(** [l.forEach((x, index) => ...)] as a left-to-right fold that threads the
    state [S] the callback mutates. *)
Fixpoint forEach_from {A S : Type} (index : nat) (l : list A)
    (f : A -> nat -> S -> S) (s : S) : S :=
  match l with
  | [] => s
  | x :: l' => forEach_from (Datatypes.S index) l' f (f x index s)
  end.

Definition forEach {A S : Type} (l : list A) (f : A -> nat -> S -> S) (s : S) : S :=
  forEach_from 0 l f s.

(** ** Exceptions and the method monad *)

(** What a [throw] carries.  [Error msg] is [new Error(msg)]; [TypeError]
    is the engine's error on a property access through [null]; [DriverError]
    is whatever a vendor driver rejects with; [UserError] is any value thrown
    by caller-supplied code. *)
Inductive exn :=
  | Error (msg : string)
  | TypeError (msg : string)
  | DriverError (code : nat)
  | UserError (v : value).

Inductive Res (A : Type) :=
  | Ret (a : A)
  | Throw (e : exn).
Arguments Ret {A} a.
Arguments Throw {A} e.

Definition M (Σ A : Type) : Type := Σ -> Res A * Σ.

Definition ret {Σ A} (a : A) : M Σ A := fun s => (Ret a, s).
Definition throw {Σ A} (e : exn) : M Σ A := fun s => (Throw e, s).

Definition bind {Σ A B} (m : M Σ A) (k : A -> M Σ B) : M Σ B :=
  fun s =>
    match m s with
    | (Ret a, s') => k a s'
    | (Throw e, s') => (Throw e, s')
    end.

(** [try { t } catch (error) { c error }] *)
Definition try_catch {Σ A} (t : M Σ A) (c : exn -> M Σ A) : M Σ A :=
  fun s =>
    match t s with
    | (Ret a, s') => (Ret a, s')
    | (Throw e, s') => c e s'
    end.

(** [try { t } finally { f }]: [f] runs on both exits; when [f] itself
    throws, its exception replaces the outcome of [t]. *)
Definition try_finally {Σ A} (t : M Σ A) (f : M Σ unit) : M Σ A :=
  fun s =>
    match t s with
    | (r, s') =>
        match f s' with
        | (Ret _, s'') => (r, s'')
        | (Throw e, s'') => (Throw e, s'')
        end
    end.

Declare Scope js_scope.
Delimit Scope js_scope with js.
Notation "x <- m ;; k" := (bind m (fun x => k))
  (at level 100, m at next level, right associativity) : js_scope.
Notation "m ;;; k" := (bind m (fun _ => k))
  (at level 100, right associativity) : js_scope.
Local Open Scope js_scope.

(** State of a method call: the instance's fields and the driver history. *)
Record Self (F C : Type) := mkSelf { this : F; history : list C }.
Arguments mkSelf {F C} this history.
Arguments this {F C} s.
Arguments history {F C} s.

Definition get_this {F C} : M (Self F C) F := fun s => (Ret (this s), s).
Definition set_this {F C} (f : F -> F) : M (Self F C) unit :=
  fun s => (Ret tt, mkSelf (f (this s)) (history s)).

(** A vendor driver, seen from this code: the outcome of a call may depend
    on everything that was asked of the driver before. *)
Definition Driver (C : Type) (R : C -> Type) : Type :=
  forall (past : list C) (c : C), Res (R c).

(** Calling the driver records the call and yields (or throws) its outcome. *)
Definition call {F C} {R : C -> Type} (drv : Driver C R) (c : C) : M (Self F C) (R c) :=
  fun s => (drv (history s) c, mkSelf (this s) (history s ++ [c])).

(** The message of the guard every method starts with. *)
Definition not_connected : exn := Error "Database not connected. Call connect() first.".

(** [x!.m(...)] on a slot that holds [null]. *)
Definition null_deref (prop : string) : exn :=
  TypeError ("Cannot read properties of null (reading '" +:+ prop +:+ "')").

(** ** [src/db/types.ts] *)

Inductive Ssl :=
  | SslFlag (b : bool)
  | SslObject.

Definition truthy_ssl (s : option Ssl) : bool :=
  match s with
  | Some (SslFlag b) => b
  | Some SslObject => true
  | None => false
  end.

Record PoolSize := { min : option number; max : option number }.

Record DatabaseConfig := {
  provider : string;
  host : option string;
  port : option number;
  database : string;
  user : option string;
  password : option string;
  filePath : option string;
  connectionString : option string;
  pool : option PoolSize;
  ssl : option Ssl
}.

Definition Row : Type := list (string * value).

Record QueryResult := {
  rows : option (list Row);
  rowCount : number;
  fields : option (list string)
}.

(** [this.config.pool?.min] and [this.config.pool?.max] *)
Definition pool_min (c : DatabaseConfig) : option number :=
  match pool c with Some p => min p | None => None end.
Definition pool_max (c : DatabaseConfig) : option number :=
  match pool c with Some p => max p | None => None end.

(** A column descriptor of a driver result; the code reads only [name]. *)
Record FieldDef := { name : string }.

(** Object identities handed out by the drivers. *)
Definition Handle : Type := nat.

(** ** [src/db/providers/postgres.ts] *)

Module PostgresClient.

(** [pg.PoolConfig] as this class builds it. *)
Inductive PoolConfig :=
  | ByConnectionString (connectionString : string)
  | ByFields (host : option string) (port : number) (database : string)
      (user password : option string) (ssl : option Ssl) (min max : number).

(** What [pg] resolves a query with. *)
Record NativeResult := {
  n_rows : list Row;
  n_rowCount : option number;
  n_fields : option (list FieldDef)
}.

Inductive Call :=
  | NewPool (poolConfig : PoolConfig)
  | PoolEnd (p : Handle)
  | PoolConnect (p : Handle)
  | PoolQuery (p : Handle) (sql : string) (params : option (list value))
  | ClientQuery (c : Handle) (sql : string) (params : option (list value))
  | ClientRelease (c : Handle).

Definition Reply (c : Call) : Type :=
  match c with
  | NewPool _ => Handle
  | PoolEnd _ => unit
  | PoolConnect _ => Handle
  | PoolQuery _ _ _ => NativeResult
  | ClientQuery _ _ _ => NativeResult
  | ClientRelease _ => unit
  end.

Record Fields := {
  pool : option Handle;
  client : option Handle;
  config : DatabaseConfig;
  isTransaction : bool
}.

Definition new (config : DatabaseConfig) : Fields :=
  {| pool := None; client := None; config := config; isTransaction := false |}.

Definition set_pool (v : option Handle) (f : Fields) : Fields :=
  {| pool := v; client := client f; config := config f; isTransaction := isTransaction f |}.
Definition set_client (v : option Handle) (f : Fields) : Fields :=
  {| pool := pool f; client := v; config := config f; isTransaction := isTransaction f |}.
Definition set_isTransaction (v : bool) (f : Fields) : Fields :=
  {| pool := pool f; client := client f; config := config f; isTransaction := v |}.

Definition St : Type := Self Fields Call.

Definition discrete (cfg : DatabaseConfig) : PoolConfig :=
  ByFields (host cfg) (or_number (port cfg) (Int 5432)) (database cfg)
    (user cfg) (password cfg) (ssl cfg)
    (or_number (pool_min cfg) (Int 1)) (or_number (pool_max cfg) (Int 10)).

Definition poolConfig_of (cfg : DatabaseConfig) : PoolConfig :=
  match connectionString cfg with
  | Some s => if String.eqb s "" then discrete cfg else ByConnectionString s
  | None => discrete cfg
  end.

Section Methods.
Context (drv : Driver Call Reply).

Definition connect : M St unit :=
  self <- get_this ;;
  match pool self with
  | Some _ => ret tt
  | None =>
      p <- call drv (NewPool (poolConfig_of (config self))) ;;
      set_this (set_pool (Some p))
  end.

Definition disconnect : M St unit :=
  self <- get_this ;;
  match client self with
  | Some c => call drv (ClientRelease c) ;;; set_this (set_client None)
  | None => ret tt
  end ;;;
  self <- get_this ;;
  match pool self with
  | Some p => call drv (PoolEnd p) ;;; set_this (set_pool None)
  | None => ret tt
  end.

Definition query (sql : string) (params : option (list value)) : M St QueryResult :=
  self <- get_this ;;
  match pool self with
  | None => throw not_connected
  | Some p =>
      result <-
        (if isTransaction self
         then match client self with
              | Some c => call drv (ClientQuery c sql params)
              | None => throw (null_deref "query")
              end
         else call drv (PoolQuery p sql params)) ;;
      ret {| rows := Some (n_rows result);
             rowCount := or_number (n_rowCount result) (Int 0);
             fields := option_map (map name) (n_fields result) |}
  end.

Definition execute (sql : string) (params : option (list value)) : M St number :=
  result <- query sql params ;;
  ret (rowCount result).

(** [this.client.query(text)] inside [transaction]: the slot is read
    when the statement runs. *)
Definition client_query (text : string) : M St NativeResult :=
  self <- get_this ;;
  match client self with
  | Some c => call drv (ClientQuery c text None)
  | None => throw (null_deref "query")
  end.

Definition client_release : M St unit :=
  self <- get_this ;;
  match client self with
  | Some c => call drv (ClientRelease c)
  | None => throw (null_deref "release")
  end.

(** [fn] is the caller's body applied to [this]: it runs on the same
    instance and the same driver. *)
Definition transaction {T : Type} (fn : M St T) : M St T :=
  self <- get_this ;;
  match pool self with
  | None => throw not_connected
  | Some p =>
      c <- call drv (PoolConnect p) ;;
      set_this (set_client (Some c)) ;;;
      set_this (set_isTransaction true) ;;;
      try_finally
        (try_catch
           (client_query "BEGIN" ;;;
            result <- fn ;;
            client_query "COMMIT" ;;;
            ret result)
           (fun error =>
              client_query "ROLLBACK" ;;;
              throw error))
        (client_release ;;;
         set_this (set_client None) ;;;
         set_this (set_isTransaction false))
  end.
End Methods.

End PostgresClient.

(** ** [src/db/providers/mysql.ts] *)

Module MySqlClient.

(** The options object given to [mysql.createPool]; [ssl] is [{}] or
    [undefined]. *)
Record PoolOptions := {
  o_host : option string;
  o_port : number;
  o_database : string;
  o_user : option string;
  o_password : option string;
  o_connectionLimit : number;
  o_ssl : option unit
}.

(** First component of what [execute] resolves with: an array of rows or
    a [ResultSetHeader]. *)
Inductive ExecRows :=
  | RowsArray (rows : list Row)
  | ResultSetHeader (affectedRows : number).

Inductive Call :=
  | CreatePool (options : PoolOptions)
  | PoolEnd (p : Handle)
  | GetConnection (p : Handle)
  | PoolExecute (p : Handle) (sql : string) (params : option (list value))
  | ConnExecute (c : Handle) (sql : string) (params : option (list value))
  | BeginTransaction (c : Handle)
  | Commit (c : Handle)
  | Rollback (c : Handle)
  | Release (c : Handle).

Definition Reply (c : Call) : Type :=
  match c with
  | CreatePool _ => Handle
  | GetConnection _ => Handle
  | PoolExecute _ _ _ => ExecRows * option (list FieldDef)
  | ConnExecute _ _ _ => ExecRows * option (list FieldDef)
  | _ => unit
  end.

Record Fields := {
  pool : option Handle;
  connection : option Handle;
  config : DatabaseConfig;
  isTransaction : bool
}.

Definition new (config : DatabaseConfig) : Fields :=
  {| pool := None; connection := None; config := config; isTransaction := false |}.

Definition set_pool (v : option Handle) (f : Fields) : Fields :=
  {| pool := v; connection := connection f; config := config f;
     isTransaction := isTransaction f |}.
Definition set_connection (v : option Handle) (f : Fields) : Fields :=
  {| pool := pool f; connection := v; config := config f;
     isTransaction := isTransaction f |}.
Definition set_isTransaction (v : bool) (f : Fields) : Fields :=
  {| pool := pool f; connection := connection f; config := config f;
     isTransaction := v |}.

Definition St : Type := Self Fields Call.

Definition poolOptions_of (cfg : DatabaseConfig) : PoolOptions :=
  {| o_host := host cfg;
     o_port := or_number (port cfg) (Int 3306);
     o_database := database cfg;
     o_user := user cfg;
     o_password := password cfg;
     o_connectionLimit := or_number (pool_max cfg) (Int 10);
     o_ssl := if truthy_ssl (ssl cfg) then Some tt else None |}.

Section Methods.
Context (drv : Driver Call Reply).

Definition connect : M St unit :=
  self <- get_this ;;
  match pool self with
  | Some _ => ret tt
  | None =>
      p <- call drv (CreatePool (poolOptions_of (config self))) ;;
      set_this (set_pool (Some p))
  end.

Definition disconnect : M St unit :=
  self <- get_this ;;
  match connection self with
  | Some c => call drv (Release c) ;;; set_this (set_connection None)
  | None => ret tt
  end ;;;
  self <- get_this ;;
  match pool self with
  | Some p => call drv (PoolEnd p) ;;; set_this (set_pool None)
  | None => ret tt
  end.

(** [conn.execute(sql, params)] with
    [conn = this.isTransaction ? this.connection! : this.pool]. *)
Definition conn_execute (p : Handle) (sql : string) (params : option (list value))
  : M St (ExecRows * option (list FieldDef)) :=
  self <- get_this ;;
  if isTransaction self
  then match connection self with
       | Some c => call drv (ConnExecute c sql params)
       | None => throw (null_deref "execute")
       end
  else call drv (PoolExecute p sql params).

Definition query (sql : string) (params : option (list value)) : M St QueryResult :=
  self <- get_this ;;
  match pool self with
  | None => throw not_connected
  | Some p =>
      reply <- conn_execute p sql params ;;
      let '(rows, fields) := reply in
      let resultRows := match rows with RowsArray rs => rs | ResultSetHeader _ => [] end in
      ret {| rows := Some resultRows;
             rowCount := match rows with
                         | RowsArray rs => Int (Z.of_nat (length rs))
                         | ResultSetHeader affectedRows =>
                             or_number (Some affectedRows) (Int 0)
                         end;
             fields := option_map (map name) fields |}
  end.

Definition execute (sql : string) (params : option (list value)) : M St number :=
  self <- get_this ;;
  match pool self with
  | None => throw not_connected
  | Some p =>
      reply <- conn_execute p sql params ;;
      let '(result, _) := reply in
      ret (match result with
           | ResultSetHeader affectedRows => or_number (Some affectedRows) (Int 0)
           | RowsArray _ => Int 0
           end)
  end.

(** [this.connection.m()] inside [transaction]: the slot is read when
    the statement runs. *)
Definition connection_beginTransaction : M St unit :=
  self <- get_this ;;
  match connection self with
  | Some c => call drv (BeginTransaction c)
  | None => throw (null_deref "beginTransaction")
  end.

Definition connection_commit : M St unit :=
  self <- get_this ;;
  match connection self with
  | Some c => call drv (Commit c)
  | None => throw (null_deref "commit")
  end.

Definition connection_rollback : M St unit :=
  self <- get_this ;;
  match connection self with
  | Some c => call drv (Rollback c)
  | None => throw (null_deref "rollback")
  end.

Definition connection_release : M St unit :=
  self <- get_this ;;
  match connection self with
  | Some c => call drv (Release c)
  | None => throw (null_deref "release")
  end.

Definition transaction {T : Type} (fn : M St T) : M St T :=
  self <- get_this ;;
  match pool self with
  | None => throw not_connected
  | Some p =>
      c <- call drv (GetConnection p) ;;
      set_this (set_connection (Some c)) ;;;
      set_this (set_isTransaction true) ;;;
      try_finally
        (try_catch
           (connection_beginTransaction ;;;
            result <- fn ;;
            connection_commit ;;;
            ret result)
           (fun error =>
              connection_rollback ;;;
              throw error))
        (connection_release ;;;
         set_this (set_connection None) ;;;
         set_this (set_isTransaction false))
  end.
End Methods.

End MySqlClient.

(** ** [src/db/providers/mssql.ts] *)

Module MsSqlClient.

(** The [sql.config] object built from the discrete fields. *)
Record SqlConfig := {
  c_server : string;
  c_port : number;
  c_database : string;
  c_user : option string;
  c_password : option string;
  c_pool_min : number;
  c_pool_max : number;
  c_encrypt : bool;
  c_trustServerCertificate : bool
}.

(** Argument of [sql.connect]. *)
Inductive ConnectArg :=
  | ByConnectionString (connectionString : string)
  | ByConfig (sqlConfig : SqlConfig).

(** What a [sql.Request] was constructed on: [this.currentTransaction]
    (which may hold [null]) or [this.pool]. *)
Inductive Parent :=
  | OnTransaction (t : option Handle)
  | OnPool (p : Handle).

(** A [sql.Request]: its parent and the inputs declared on it by name. *)
Record Request := {
  parent : Parent;
  parameters : gmap string value
}.

Definition new_Request (parent : Parent) : Request :=
  {| parent := parent; parameters := ∅ |}.

(** [request.input(name, value)] *)
Definition input (name : string) (v : value) (request : Request) : Request :=
  {| parent := parent request; parameters := <[name := v]> (parameters request) |}.

Record Recordset := {
  records : list Row;
  columns : option (list string)
}.

Record NativeResult := {
  recordset : option Recordset;
  rowsAffected : list number
}.

(** [NewTransaction p] is [new sql.Transaction(pool)]: the driver gives the
    transaction object its identity. *)
Inductive Call :=
  | Connect (arg : ConnectArg)
  | PoolClose (p : Handle)
  | NewTransaction (p : Handle)
  | Begin (t : Handle)
  | Commit (t : Handle)
  | Rollback (t : Handle)
  | RequestQuery (request : Request) (command : string).

Definition Reply (c : Call) : Type :=
  match c with
  | Connect _ => Handle
  | NewTransaction _ => Handle
  | RequestQuery _ _ => NativeResult
  | _ => unit
  end.

Record Fields := {
  pool : option Handle;
  currentTransaction : option Handle;
  config : DatabaseConfig;
  isTransaction : bool
}.

Definition new (config : DatabaseConfig) : Fields :=
  {| pool := None; currentTransaction := None; config := config;
     isTransaction := false |}.

Definition set_pool (v : option Handle) (f : Fields) : Fields :=
  {| pool := v; currentTransaction := currentTransaction f; config := config f;
     isTransaction := isTransaction f |}.
Definition set_currentTransaction (v : option Handle) (f : Fields) : Fields :=
  {| pool := pool f; currentTransaction := v; config := config f;
     isTransaction := isTransaction f |}.
Definition set_isTransaction (v : bool) (f : Fields) : Fields :=
  {| pool := pool f; currentTransaction := currentTransaction f; config := config f;
     isTransaction := v |}.

Definition St : Type := Self Fields Call.

Definition sqlConfig_of (cfg : DatabaseConfig) : SqlConfig :=
  {| c_server := or_string (host cfg) "localhost";
     c_port := or_number (port cfg) (Int 1433);
     c_database := database cfg;
     c_user := user cfg;
     c_password := password cfg;
     c_pool_min := or_number (pool_min cfg) (Int 1);
     c_pool_max := or_number (pool_max cfg) (Int 10);
     c_encrypt := truthy_ssl (ssl cfg);
     c_trustServerCertificate := true |}.

Definition connectArg_of (cfg : DatabaseConfig) : ConnectArg :=
  match connectionString cfg with
  | Some s => if String.eqb s "" then ByConfig (sqlConfig_of cfg) else ByConnectionString s
  | None => ByConfig (sqlConfig_of cfg)
  end.

Definition convertParams (request : Request) (params : option (list value)) : Request :=
  match params with
  | None => request
  | Some params =>
      forEach params (fun param index request => input ("p" +:+ dec index) param request)
        request
  end.

Definition convertSql (sqlQuery : string) (params : option (list value)) : string :=
  match params with
  | None => sqlQuery
  | Some params =>
      forEach params
        (fun _ index convertedSql => replace "?" ("@p" +:+ dec index) convertedSql)
        sqlQuery
  end.

(** [result.rowsAffected[0] || result.recordset?.length || 0] *)
Definition rowCount_of (result : NativeResult) : number :=
  or_number (head (rowsAffected result))
    (or_number
       (option_map (fun rs => Int (Z.of_nat (length (records rs)))) (recordset result))
       (Int 0)).

(** [result.recordset?.columns ? Object.keys(result.recordset.columns) : undefined] *)
Definition fields_of (result : NativeResult) : option (list string) :=
  match recordset result with
  | Some rs => columns rs
  | None => None
  end.

Section Methods.
Context (drv : Driver Call Reply).

Definition connect : M St unit :=
  self <- get_this ;;
  match pool self with
  | Some _ => ret tt
  | None =>
      p <- call drv (Connect (connectArg_of (config self))) ;;
      set_this (set_pool (Some p))
  end.

Definition disconnect : M St unit :=
  self <- get_this ;;
  match currentTransaction self with
  | Some _ => set_this (set_currentTransaction None)
  | None => ret tt
  end ;;;
  self <- get_this ;;
  match pool self with
  | Some p => call drv (PoolClose p) ;;; set_this (set_pool None)
  | None => ret tt
  end.

Definition query (sqlQuery : string) (params : option (list value)) : M St QueryResult :=
  self <- get_this ;;
  match pool self with
  | None => throw not_connected
  | Some p =>
      let request :=
        if isTransaction self
        then new_Request (OnTransaction (currentTransaction self))
        else new_Request (OnPool p) in
      let request := convertParams request params in
      let convertedSql := convertSql sqlQuery params in
      result <- call drv (RequestQuery request convertedSql) ;;
      ret {| rows := option_map records (recordset result);
             rowCount := rowCount_of result;
             fields := fields_of result |}
  end.

Definition execute (sqlQuery : string) (params : option (list value)) : M St number :=
  result <- query sqlQuery params ;;
  ret (rowCount result).

(** [this.currentTransaction.m()] inside [transaction]: the slot is read
    when the statement runs. *)
Definition currentTransaction_begin : M St unit :=
  self <- get_this ;;
  match currentTransaction self with
  | Some t => call drv (Begin t)
  | None => throw (null_deref "begin")
  end.

Definition currentTransaction_commit : M St unit :=
  self <- get_this ;;
  match currentTransaction self with
  | Some t => call drv (Commit t)
  | None => throw (null_deref "commit")
  end.

Definition currentTransaction_rollback : M St unit :=
  self <- get_this ;;
  match currentTransaction self with
  | Some t => call drv (Rollback t)
  | None => throw (null_deref "rollback")
  end.

Definition transaction {T : Type} (fn : M St T) : M St T :=
  self <- get_this ;;
  match pool self with
  | None => throw not_connected
  | Some p =>
      t <- call drv (NewTransaction p) ;;
      set_this (set_currentTransaction (Some t)) ;;;
      set_this (set_isTransaction true) ;;;
      try_finally
        (try_catch
           (currentTransaction_begin ;;;
            result <- fn ;;
            currentTransaction_commit ;;;
            ret result)
           (fun error =>
              currentTransaction_rollback ;;;
              throw error))
        (set_this (set_currentTransaction None) ;;;
         set_this (set_isTransaction false))
  end.
End Methods.

End MsSqlClient.

(** ** [src/db/providers/sqlite.ts] *)

Module SqliteClient.

(** What [stmt.run] returns; the code reads only [changes]. *)
Record RunResult := { changes : number }.

Inductive Call :=
  | Open (filePath : string)
  | Close (db : Handle)
  | Prepare (db : Handle) (sql : string)
  | All (stmt : Handle) (params : list value)
  | Run (stmt : Handle) (params : list value).

Definition Reply (c : Call) : Type :=
  match c with
  | Open _ => Handle
  | Close _ => unit
  | Prepare _ _ => Handle
  | All _ _ => list Row
  | Run _ _ => RunResult
  end.

Record Fields := {
  db : option Handle;
  config : DatabaseConfig
}.

Definition new (config : DatabaseConfig) : Fields :=
  {| db := None; config := config |}.

Definition set_db (v : option Handle) (f : Fields) : Fields :=
  {| db := v; config := config f |}.

Definition St : Type := Self Fields Call.

(** [this.config.filePath || this.config.database || ":memory:"] *)
Definition filePath_of (cfg : DatabaseConfig) : string :=
  or_string (filePath cfg) (or_string (Some (database cfg)) ":memory:").

(** [params || []] *)
Definition or_empty (params : option (list value)) : list value :=
  match params with
  | Some ps => ps
  | None => []
  end.

Section Methods.
Context (drv : Driver Call Reply).

Definition connect : M St unit :=
  self <- get_this ;;
  match db self with
  | Some _ => ret tt
  | None =>
      d <- call drv (Open (filePath_of (config self))) ;;
      set_this (set_db (Some d))
  end.

Definition disconnect : M St unit :=
  self <- get_this ;;
  match db self with
  | Some d => call drv (Close d) ;;; set_this (set_db None)
  | None => ret tt
  end.

Definition query (sql : string) (params : option (list value)) : M St QueryResult :=
  self <- get_this ;;
  match db self with
  | None => throw not_connected
  | Some d =>
      stmt <- call drv (Prepare d sql) ;;
      rows <- call drv (All stmt (or_empty params)) ;;
      ret {| rows := Some rows;
             rowCount := Int (Z.of_nat (length rows));
             fields := match rows with
                       | row :: _ => Some (map fst row)
                       | [] => None
                       end |}
  end.

Definition execute (sql : string) (params : option (list value)) : M St number :=
  self <- get_this ;;
  match db self with
  | None => throw not_connected
  | Some d =>
      stmt <- call drv (Prepare d sql) ;;
      result <- call drv (Run stmt (or_empty params)) ;;
      ret (changes result)
  end.

(* [transaction] passes an asynchronous wrapper of the body to the
   driver's own [db.transaction] primitive and returns what that
   yields: begin, commit and rollback are the driver's, not this
   class's, and are not part of this embedding. *)
End Methods.

End SqliteClient.

(** ** [src/db/database-factory.ts] *)

Module DatabaseFactory.

(** A [DatabaseClient] as the factory returns it: one of the four classes,
    freshly constructed. *)
Inductive DatabaseClient :=
  | Postgres (c : PostgresClient.Fields)
  | MySql (c : MySqlClient.Fields)
  | MsSql (c : MsSqlClient.Fields)
  | Sqlite (c : SqliteClient.Fields).

Definition create (config : DatabaseConfig) : Res DatabaseClient :=
  if String.eqb (provider config) "postgres" then Ret (Postgres (PostgresClient.new config))
  else if String.eqb (provider config) "mysql" then Ret (MySql (MySqlClient.new config))
  else if String.eqb (provider config) "mssql" then Ret (MsSql (MsSqlClient.new config))
  else if String.eqb (provider config) "sqlite" then Ret (Sqlite (SqliteClient.new config))
  else Throw (Error ("Unsupported database provider: " +:+ provider config)).

(** The white space [parseInt] skips is [StrWhiteSpaceChar]: the six ASCII
    blanks of [Ascii.is_space] (TAB, LF, VT, FF, CR, SP) and, beyond ASCII,
    U+00A0, U+1680, U+2000 to U+200A, U+2028, U+2029, U+202F, U+205F, U+3000
    and U+FEFF.  A variable of the environment is a run of bytes that Node
    reads as UTF-8, so the wide blanks are recognised by their encodings, of
    two bytes ([wide_space2]) or three ([wide_space3]). *)
Definition wide_space2 (a b : ascii) : bool :=
  (N.eqb (N_of_ascii a) 194 && N.eqb (N_of_ascii b) 160)%N.

Definition wide_space3 (a b c : ascii) : bool :=
  let '(a, b, c) := (N_of_ascii a, N_of_ascii b, N_of_ascii c) in
  ((a =? 225) && (b =? 154) && (c =? 128)
   || (a =? 226) && (b =? 128)
      && ((128 <=? c) && (c <=? 138) || (c =? 168) || (c =? 169) || (c =? 175))
   || (a =? 226) && (b =? 129) && (c =? 159)
   || (a =? 227) && (b =? 128) && (c =? 128)
   || (a =? 239) && (b =? 187) && (c =? 191))%N.

Fixpoint skip_space (s : string) : string :=
  match s with
  | String a s1 =>
      if Ascii.is_space a then skip_space s1
      else
        match s1 with
        | String b s2 =>
            if wide_space2 a b then skip_space s2
            else
              match s2 with
              | String c s3 => if wide_space3 a b c then skip_space s3 else s
              | EmptyString => s
              end
        | EmptyString => s
        end
  | EmptyString => s
  end.

Fixpoint leading_digits (s : string) (acc : option Z) : option Z :=
  match s with
  | String c s' =>
      match Ascii.is_nat c with
      | Some d => leading_digits s' (Some (10 * default 0 acc + Z.of_nat d))%Z
      | None => acc
      end
  | EmptyString => acc
  end.

(** [parseInt(s, 10)]: leading white space and one sign are skipped, the
    longest run of ASCII digits is read as an integer and turned into the
    nearest double (Node rounds the whole run of digits, not a prefix of
    it), and a text with no digit there gives [NaN]. *)
Definition parseInt (s : string) : number :=
  let s := skip_space s in
  let '(negative, s) :=
    match s with
    | String "-" s' => (true, s')
    | String "+" s' => (false, s')
    | _ => (false, s)
    end in
  match leading_digits s None with
  | Some z => number_of_integer (if negative then - z else z)%Z
  | None => NaN
  end.

(** [process.env.K ? parseInt(process.env.K, 10) : undefined] *)
Definition env_number (env : gmap string string) (key : string) : option number :=
  match env !! key with
  | Some s => if String.eqb s "" then None else Some (parseInt s)
  | None => None
  end.

Definition fromEnv (env : gmap string string) : Res DatabaseClient :=
  match env !! "DB_PROVIDER" with
  | None => Throw (Error "DB_PROVIDER environment variable is required")
  | Some provider =>
      if String.eqb provider ""
      then Throw (Error "DB_PROVIDER environment variable is required")
      else
        let config :=
          {| provider := provider;
             host := env !! "DB_HOST";
             port := env_number env "DB_PORT";
             database := or_string (env !! "DB_NAME") (or_string (env !! "DB_DATABASE") "");
             user := env !! "DB_USER";
             password := env !! "DB_PASSWORD";
             filePath := env !! "DB_FILE_PATH";
             connectionString := env !! "DB_CONNECTION_STRING";
             ssl := Some (SslFlag (bool_decide (env !! "DB_SSL" = Some "true")));
             pool := Some {| min := env_number env "DB_POOL_MIN";
                             max := env_number env "DB_POOL_MAX" |} |} in
        create config
  end.

End DatabaseFactory.

(** ** [src/api/api-client.ts]: class [ApiResponse] *)

Module ApiResponse.

(** A parsed JSON document. *)
Inductive JsonValue :=
  | JNull
  | JBool (b : bool)
  | JNum (z : Z)
  | JStr (s : string)
  | JArr (items : list JsonValue)
  | JObj (members : list (string * JsonValue)).

(** The one call this embedding needs of the wrapped [APIResponse]. *)
Inductive Call :=
  | ResponseJson (response : Handle).

Definition Reply (c : Call) : Type := JsonValue.

(** [_body : T | null] starts as [null]; a parsed document [null] is that
    same JavaScript value, so both are [JNull] here. *)
Record Fields := {
  response : Handle;
  _body : JsonValue
}.

Definition new (response : Handle) : Fields :=
  {| response := response; _body := JNull |}.

Definition set_body (v : JsonValue) (f : Fields) : Fields :=
  {| response := response f; _body := v |}.

Definition St : Type := Self Fields Call.

Section Methods.
Context (drv : Driver Call Reply).

Definition json : M St JsonValue :=
  self <- get_this ;;
  match _body self with
  | JNull =>
      parsed <- call drv (ResponseJson (response self)) ;;
      set_this (set_body parsed)
  | _ => ret tt
  end ;;;
  self <- get_this ;;
  ret (_body self).
End Methods.

(** How often the body was parsed in a history. *)
Definition parses (h : list Call) : nat := length h.

End ApiResponse.

(** ** [src/api/api-client.ts]: class [ApiClient] *)

Module ApiClient.

Module ApiClientConfig.
Record t := {
  baseURL : option string;
  headers : option (gmap string string);
  timeout : option number
}.
End ApiClientConfig.

(** [params] is kept in the order [Object.entries] yields it. *)
Module RequestOptions.
Record t := {
  headers : option (gmap string string);
  params : option (list (string * string));
  timeout : option number
}.
End RequestOptions.

Inductive Method := GET | POST | PUT | PATCH | DELETE.

(** The options object given to the request context; [data] is absent
    for [GET] and [DELETE], and [undefined] when the caller passes none. *)
Record FetchOptions := {
  data : option ApiResponse.JsonValue;
  headers : gmap string string;
  timeout : number
}.

(** [this.request.<method>(url, options)] *)
Inductive Call :=
  | Fetch (method : Method) (request : Handle) (url : string) (options : FetchOptions).

Definition Reply (c : Call) : Type := Handle.

Record Fields := {
  request : Handle;
  baseURL : string;
  defaultHeaders : gmap string string;
  defaultTimeout : number
}.

Definition St : Type := Self Fields Call.

(** The constructor; [env] is [process.env]. *)
Definition new (env : gmap string string) (request : Handle) (config : ApiClientConfig.t)
  : Fields :=
  {| request := request;
     baseURL := or_string (ApiClientConfig.baseURL config) (or_string (env !! "BASE_URL") "");
     defaultHeaders := default ∅ (ApiClientConfig.headers config);
     defaultTimeout := or_number (ApiClientConfig.timeout config) (Int 30000) |}.

(** [options?.headers], [options?.params], [options?.timeout] *)
Definition options_headers (options : option RequestOptions.t) : option (gmap string string) :=
  match options with Some o => RequestOptions.headers o | None => None end.
Definition options_params (options : option RequestOptions.t) : option (list (string * string)) :=
  match options with Some o => RequestOptions.params o | None => None end.
Definition options_timeout (options : option RequestOptions.t) : option number :=
  match options with Some o => RequestOptions.timeout o | None => None end.

(** [{ ...this.defaultHeaders, ...options?.headers }]: a later spread
    overwrites the keys of an earlier one. *)
Definition mergeHeaders (self : Fields) (options : option RequestOptions.t)
  : gmap string string :=
  default ∅ (options_headers options) ∪ defaultHeaders self.

Section Methods.
(** The platform's [URL] class: the constructor resolves [endpoint]
    against a base and throws on what it cannot parse; appending a query
    parameter and printing are total. *)
Context {URL : Type}.
Context (new_URL : string -> string -> Res URL).
Context (searchParams_append : URL -> string -> string -> URL).
Context (toString : URL -> string).
Context (drv : Driver Call Reply).

Definition buildUrl (self : Fields) (endpoint : string)
    (params : option (list (string * string))) : M St string :=
  match new_URL endpoint (baseURL self) with
  | Throw e => throw e
  | Ret url =>
      let url :=
        match params with
        | Some params =>
            forEach params (fun entry _ url => searchParams_append url (fst entry) (snd entry))
              url
        | None => url
        end in
      ret (toString url)
  end.

Definition get (endpoint : string) (options : option RequestOptions.t)
  : M St ApiResponse.Fields :=
  self <- get_this ;;
  url <- buildUrl self endpoint (options_params options) ;;
  response <- call drv (Fetch GET (request self) url
                          {| data := None;
                             headers := mergeHeaders self options;
                             timeout := or_number (options_timeout options)
                                          (defaultTimeout self) |}) ;;
  ret (ApiResponse.new response).

Definition post (endpoint : string) (data : option ApiResponse.JsonValue)
    (options : option RequestOptions.t) : M St ApiResponse.Fields :=
  self <- get_this ;;
  url <- buildUrl self endpoint (options_params options) ;;
  response <- call drv (Fetch POST (request self) url
                          {| data := data;
                             headers := mergeHeaders self options;
                             timeout := or_number (options_timeout options)
                                          (defaultTimeout self) |}) ;;
  ret (ApiResponse.new response).

Definition put (endpoint : string) (data : option ApiResponse.JsonValue)
    (options : option RequestOptions.t) : M St ApiResponse.Fields :=
  self <- get_this ;;
  url <- buildUrl self endpoint (options_params options) ;;
  response <- call drv (Fetch PUT (request self) url
                          {| data := data;
                             headers := mergeHeaders self options;
                             timeout := or_number (options_timeout options)
                                          (defaultTimeout self) |}) ;;
  ret (ApiResponse.new response).

Definition patch (endpoint : string) (data : option ApiResponse.JsonValue)
    (options : option RequestOptions.t) : M St ApiResponse.Fields :=
  self <- get_this ;;
  url <- buildUrl self endpoint (options_params options) ;;
  response <- call drv (Fetch PATCH (request self) url
                          {| data := data;
                             headers := mergeHeaders self options;
                             timeout := or_number (options_timeout options)
                                          (defaultTimeout self) |}) ;;
  ret (ApiResponse.new response).

Definition delete (endpoint : string) (options : option RequestOptions.t)
  : M St ApiResponse.Fields :=
  self <- get_this ;;
  url <- buildUrl self endpoint (options_params options) ;;
  response <- call drv (Fetch DELETE (request self) url
                          {| data := None;
                             headers := mergeHeaders self options;
                             timeout := or_number (options_timeout options)
                                          (defaultTimeout self) |}) ;;
  ret (ApiResponse.new response).

(** The five verbs under one name, for statements about all of them. *)
Definition invoke (method : Method) (endpoint : string)
    (data : option ApiResponse.JsonValue) (options : option RequestOptions.t)
  : M St ApiResponse.Fields :=
  match method with
  | GET => get endpoint options
  | POST => post endpoint data options
  | PUT => put endpoint data options
  | PATCH => patch endpoint data options
  | DELETE => delete endpoint options
  end.
End Methods.

(** The body a verb sends: [POST], [PUT] and [PATCH] pass [data] on. *)
Definition body_of (method : Method) (data : option ApiResponse.JsonValue)
  : option ApiResponse.JsonValue :=
  match method with
  | POST | PUT | PATCH => data
  | GET | DELETE => None
  end.

End ApiClient.

(** ** [src/utils/test-data.ts]: [generateUUID] *)

Module TestData.

(** A value of [Math.random()] is a double in the interval from 0
    (included) to 1 (excluded), hence a rational; multiplying a double of that
    interval by 16 is exact, so the product is the rational product. *)

(** [x | 0]: truncate toward zero, then wrap to a signed 32-bit integer. *)
Definition to_int32 (x : Q) : Z :=
  let z := Z.quot (Qnum x) (Z.pos (Qden x)) in
  ((z + 2 ^ 31) mod 2 ^ 32 - 2 ^ 31)%Z.

(** [v.toString(16)] on an integer. *)
Definition toString16 (v : Z) : string :=
  if (v <? 0)%Z
  then "-" +:+ HexadecimalString.NilEmpty.string_of_uint (N.to_hex_uint (Z.to_N (- v)))
  else HexadecimalString.NilEmpty.string_of_uint (N.to_hex_uint (Z.to_N v)).

(** [s.replace(/[xy]/g, f)]: every [x] and [y] is replaced, from left to
    right, by what the callback returns for it; [calls] counts the calls made
    so far. *)
Fixpoint replace_xy (f : ascii -> nat -> string) (calls : nat) (s : string) : string :=
  match s with
  | EmptyString => EmptyString
  | String c s' =>
      if Ascii.eqb c "x" || Ascii.eqb c "y"
      then f c calls +:+ replace_xy f (S calls) s'
      else String c (replace_xy f calls s')
  end.

(** [random n] is what the [n]-th call of [Math.random()] returns. *)
Definition generateUUID (random : nat -> Q) : string :=
  replace_xy
    (fun c n =>
       let r := to_int32 (random n * 16) in
       let v := if Ascii.eqb c "x" then r else Z.lor (Z.land r 3) 8 in
       toString16 v)
    0 "xxxxxxxx-xxxx-4xxx-yxxx-xxxxxxxxxxxx".

End TestData.

(** ** The [DatabaseClient] interface and its four implementations *)

(** What [src/db/types.ts] asks of a provider class, together with the
    driver it talks to and three observations of an instance: the pool (or
    embedded-file handle) it holds, its configuration, and whether no
    transaction is in progress on it.  [transaction] is kept out of the
    interface record because the embedded-file class delegates it to its
    driver. *)
Record ClientClass := {
  Fields : Type;
  Call : Type;
  Reply : Call -> Type;
  new : DatabaseConfig -> Fields;
  connect : Driver Call Reply -> M (Self Fields Call) unit;
  disconnect : Driver Call Reply -> M (Self Fields Call) unit;
  query : Driver Call Reply -> string -> option (list value) -> M (Self Fields Call) QueryResult;
  execute : Driver Call Reply -> string -> option (list value) -> M (Self Fields Call) number;
  link : Fields -> option Handle;
  config_of : Fields -> DatabaseConfig;
  idle : Fields -> bool
}.

Inductive Variant := postgres | mysql | mssql | sqlite.

Definition class_of (v : Variant) : ClientClass :=
  match v with
  | postgres =>
      {| new := PostgresClient.new;
         connect := PostgresClient.connect;
         disconnect := PostgresClient.disconnect;
         query := PostgresClient.query;
         execute := PostgresClient.execute;
         link := PostgresClient.pool;
         config_of := PostgresClient.config;
         idle := fun f => negb (PostgresClient.isTransaction f) |}
  | mysql =>
      {| new := MySqlClient.new;
         connect := MySqlClient.connect;
         disconnect := MySqlClient.disconnect;
         query := MySqlClient.query;
         execute := MySqlClient.execute;
         link := MySqlClient.pool;
         config_of := MySqlClient.config;
         idle := fun f => negb (MySqlClient.isTransaction f) |}
  | mssql =>
      {| new := MsSqlClient.new;
         connect := MsSqlClient.connect;
         disconnect := MsSqlClient.disconnect;
         query := MsSqlClient.query;
         execute := MsSqlClient.execute;
         link := MsSqlClient.pool;
         config_of := MsSqlClient.config;
         idle := fun f => negb (MsSqlClient.isTransaction f) |}
  | sqlite =>
      {| new := SqliteClient.new;
         connect := SqliteClient.connect;
         disconnect := SqliteClient.disconnect;
         query := SqliteClient.query;
         execute := SqliteClient.execute;
         link := SqliteClient.db;
         config_of := SqliteClient.config;
         idle := fun _ => true |}
  end.

(** A call that raises the not-connected error and does nothing else. *)
Definition refuses {F C A : Type} (m : M (Self F C) A) (s : Self F C) : Prop :=
  m s = (Throw not_connected, s).

(** A call that completes and changes neither the instance nor the history. *)
Definition no_op {F C : Type} (m : M (Self F C) unit) (s : Self F C) : Prop :=
  m s = (Ret tt, s).

(** The provider tag of each implementation and the instance the factory
    builds for it. *)
Definition tag_of (v : Variant) : string :=
  match v with
  | postgres => "postgres"
  | mysql => "mysql"
  | mssql => "mssql"
  | sqlite => "sqlite"
  end.

Definition instance_of (v : Variant) (cfg : DatabaseConfig) : DatabaseFactory.DatabaseClient :=
  match v with
  | postgres => DatabaseFactory.Postgres (PostgresClient.new cfg)
  | mysql => DatabaseFactory.MySql (MySqlClient.new cfg)
  | mssql => DatabaseFactory.MsSql (MsSqlClient.new cfg)
  | sqlite => DatabaseFactory.Sqlite (SqliteClient.new cfg)
  end.

(** ** [src/fixtures/base.fixture.ts] *)

Module Fixtures.

(** The [api] fixture: builds the client from the environment and hands
    it to the test. *)
Definition api {A : Type} (env : gmap string string) (request : Handle)
    (use : ApiClient.Fields -> A) : A :=
  let apiClient :=
    ApiClient.new env request
      {| ApiClient.ApiClientConfig.baseURL := env !! "BASE_URL";
         ApiClient.ApiClientConfig.headers :=
           Some {[ "Authorization" :=
                     match env !! "API_TOKEN" with
                     | Some token =>
                         if String.eqb token "" then "" else "Bearer " +:+ token
                     | None => ""
                     end ]};
         ApiClient.ApiClientConfig.timeout := None |} in
  use apiClient.

(** The [db] fixture hands the test whichever client the factory built,
    behind the [DatabaseClient] interface.  [class_instance] opens that
    interface: the class of the client and its fields. *)
Definition class_instance (client : DatabaseFactory.DatabaseClient)
  : { v : Variant & Fields (class_of v) } :=
  match client with
  | DatabaseFactory.Postgres f => existT postgres f
  | DatabaseFactory.MySql f => existT mysql f
  | DatabaseFactory.MsSql f => existT mssql f
  | DatabaseFactory.Sqlite f => existT sqlite f
  end.

(** An instance of some class, with the history of its driver. *)
Definition Instance : Type :=
  { v : Variant & Self (Fields (class_of v)) (Call (class_of v)) }.

(** One driver per class, and a test body written against the interface. *)
Definition Drivers : Type := forall v, Driver (Call (class_of v)) (Reply (class_of v)).
Definition Test : Type := forall v, M (Self (Fields (class_of v)) (Call (class_of v))) unit.

(** The [use] that the test runner hands to a fixture.  It gives the value
    to the test body and resolves once the test has finished, whether the
    test passed or failed: a failure of the test is the runner's to report
    and is not raised into the fixture, whose remaining lines run in both
    cases.  The verdict of the test is returned for the record. *)
Definition use {F C : Type} (test : M (Self F C) unit) : M (Self F C) (Res unit) :=
  fun s => let (verdict, s') := test s in (Ret verdict, s').

(** The [db] fixture: [fromEnv], [connect], [use], [disconnect].  The
    outcome is the fixture's own, an error of the factory, of [connect] or of
    [disconnect], and otherwise the verdict of the test; it comes with the
    instance as the fixture leaves it, when one was built. *)
Definition db (drivers : Drivers) (env : gmap string string) (test : Test)
  : Res (Res unit) * option Instance :=
  match DatabaseFactory.fromEnv env with
  | Throw e => (Throw e, None)
  | Ret db =>
      let (v, f) := class_instance db in
      let (r, s) :=
        (connect (class_of v) (drivers v) ;;;
         verdict <- use (test v) ;;
         disconnect (class_of v) (drivers v) ;;;
         ret verdict) (mkSelf f []) in
      (r, Some (existT v s))
  end.

End Fixtures.

(** The database variables [fromEnv] reads besides [DB_PROVIDER]. *)
Definition other_variables : list string :=
  ["DB_HOST"; "DB_PORT"; "DB_NAME"; "DB_DATABASE"; "DB_USER"; "DB_PASSWORD";
   "DB_FILE_PATH"; "DB_CONNECTION_STRING"; "DB_SSL"; "DB_POOL_MIN"; "DB_POOL_MAX"].

(** The configuration [fromEnv] builds when only the provider is set. *)
Definition provider_only (tag : string) : DatabaseConfig :=
  {| provider := tag; host := None; port := None; database := "";
     user := None; password := None; filePath := None; connectionString := None;
     pool := Some {| min := None; max := None |};
     ssl := Some (SslFlag false) |}.

(** What [connect] asks of the driver on a fresh instance configured by
    [cfg]. *)
Definition connect_calls (v : Variant)
    (drv : Driver (Call (class_of v)) (Reply (class_of v)))
    (cfg : DatabaseConfig) : list (Call (class_of v)) :=
  history (snd (connect (class_of v) drv (mkSelf (new (class_of v) cfg) []))).

Definition set_connectionString (s : option string) (cfg : DatabaseConfig) : DatabaseConfig :=
  {| provider := provider cfg; host := host cfg; port := port cfg;
     database := database cfg; user := user cfg; password := password cfg;
     filePath := filePath cfg; connectionString := s;
     pool := pool cfg; ssl := ssl cfg |}.

(** Two configurations that differ at most in host, port, user and
    password. *)
Definition same_but_discrete (a b : DatabaseConfig) : Prop :=
  provider a = provider b /\ database a = database b /\ filePath a = filePath b
  /\ connectionString a = connectionString b /\ pool a = pool b /\ ssl a = ssl b.

(** "The connection string overrides the discrete fields when present":
    with a connection string in the configuration, what [connect] asks of the
    driver does not depend on host, port, user and password, and does depend
    on the connection string. *)
Definition honours_connection_string (v : Variant) : Prop :=
  forall (drv : Driver (Call (class_of v)) (Reply (class_of v)))
         (a : DatabaseConfig) (s : string),
    connectionString a = Some s -> s <> "" ->
    (forall b, same_but_discrete a b -> connect_calls v drv b = connect_calls v drv a)
    /\ (forall s', s' <> "" -> s' <> s ->
          connect_calls v drv (set_connectionString (Some s') a) <> connect_calls v drv a).

(** A call that hands something to the driver. *)
Definition asks {F C A : Type} (m : M (Self F C) A) (s : Self F C) : Prop :=
  exists c rest, history (snd (m s)) = history s ++ c :: rest.

(** ** Vocabulary of the statements *)

(** Does the character [c] occur in [s]? *)
Fixpoint occurs (c : ascii) (s : string) : bool :=
  match s with
  | EmptyString => false
  | String c' s' => if Ascii.eqb c c' then true else occurs c s'
  end.

(** A SQL text, cut at its [?] characters: [holes [s1; ...; sn]] is
    [?s1?s2...?sn], so that [s0 +:+ holes [s1; ...; sn]] is a text with
    exactly [n] placeholders when no [si] contains a [?]. *)
Fixpoint holes (segments : list string) : string :=
  match segments with
  | [] => ""
  | s :: rest => "?" +:+ s +:+ holes rest
  end.

(** The same text with the [i]-th hole (counting from [index]) filled by the
    named token [@p<i>]. *)
Fixpoint named_from (index : nat) (segments : list string) : string :=
  match segments with
  | [] => ""
  | s :: rest => "@p" +:+ dec index +:+ s +:+ named_from (S index) rest
  end.

(** One left-to-right pass that names the first [budget] occurrences of [?],
    starting at [index], and leaves the rest of the text as it is. *)
Fixpoint number_from (index budget : nat) (s : string) : string :=
  match s with
  | EmptyString => EmptyString
  | String c s' =>
      if Ascii.eqb "?" c
      then match budget with
           | 0 => s
           | S budget' => "@p" +:+ dec index +:+ number_from (S index) budget' s'
           end
      else String c (number_from index budget s')
  end.

(** The contract of [transaction] on a connected instance whose driver
    has handed out the dedicated handle [c]: (1) on every exit the slot is
    cleared and the last thing asked of the driver is the release of [c];
    (2) when [BEGIN] is accepted, the body returns [v] and [COMMIT] is
    accepted, the outcome is [v], after the commit and the release; (3) when
    [BEGIN] is accepted, the body throws [e] and [ROLLBACK] is accepted, the
    outcome is the exception [e], after the rollback and the release. *)
Definition pg_contract (drv : Driver PostgresClient.Call PostgresClient.Reply) {T : Type}
    (fn : M PostgresClient.St T) (self : PostgresClient.Fields)
    (past : list PostgresClient.Call) (p c : Handle) : Prop :=
  let statement text := PostgresClient.ClientQuery c text None in
  let cleared :=
    PostgresClient.set_isTransaction false (PostgresClient.set_client None self) in
  let begun :=
    mkSelf (PostgresClient.set_isTransaction true (PostgresClient.set_client (Some c) self))
      ((past ++ [PostgresClient.PoolConnect p]) ++ [statement "BEGIN"]) in
  let out := PostgresClient.transaction drv fn (mkSelf self past) in
  (this (snd out) = cleared
   /\ exists h, history (snd out) = h ++ [PostgresClient.ClientRelease c])
  /\ (forall r0 v sb r1,
        drv (past ++ [PostgresClient.PoolConnect p]) (statement "BEGIN") = Ret r0 ->
        fn begun = (Ret v, sb) ->
        drv (history sb) (statement "COMMIT") = Ret r1 ->
        out = (Ret v,
               mkSelf cleared
                 (history sb ++ [statement "COMMIT"; PostgresClient.ClientRelease c])))
  /\ (forall r0 e sb r1,
        drv (past ++ [PostgresClient.PoolConnect p]) (statement "BEGIN") = Ret r0 ->
        fn begun = (Throw e, sb) ->
        drv (history sb) (statement "ROLLBACK") = Ret r1 ->
        out = (Throw e,
               mkSelf cleared
                 (history sb ++ [statement "ROLLBACK"; PostgresClient.ClientRelease c]))).

Definition mysql_contract (drv : Driver MySqlClient.Call MySqlClient.Reply) {T : Type}
    (fn : M MySqlClient.St T) (self : MySqlClient.Fields)
    (past : list MySqlClient.Call) (p c : Handle) : Prop :=
  let cleared :=
    MySqlClient.set_isTransaction false (MySqlClient.set_connection None self) in
  let begun :=
    mkSelf (MySqlClient.set_isTransaction true (MySqlClient.set_connection (Some c) self))
      ((past ++ [MySqlClient.GetConnection p]) ++ [MySqlClient.BeginTransaction c]) in
  let out := MySqlClient.transaction drv fn (mkSelf self past) in
  (this (snd out) = cleared
   /\ exists h, history (snd out) = h ++ [MySqlClient.Release c])
  /\ (forall v sb,
        drv (past ++ [MySqlClient.GetConnection p]) (MySqlClient.BeginTransaction c) = Ret tt ->
        fn begun = (Ret v, sb) ->
        drv (history sb) (MySqlClient.Commit c) = Ret tt ->
        out = (Ret v,
               mkSelf cleared (history sb ++ [MySqlClient.Commit c; MySqlClient.Release c])))
  /\ (forall e sb,
        drv (past ++ [MySqlClient.GetConnection p]) (MySqlClient.BeginTransaction c) = Ret tt ->
        fn begun = (Throw e, sb) ->
        drv (history sb) (MySqlClient.Rollback c) = Ret tt ->
        out = (Throw e,
               mkSelf cleared (history sb ++ [MySqlClient.Rollback c; MySqlClient.Release c]))).

(** The SQL-Server class holds a [sql.Transaction] object [t] in its slot
    and has nothing to release: clearing the slot is all its cleanup does. *)
Definition mssql_contract (drv : Driver MsSqlClient.Call MsSqlClient.Reply) {T : Type}
    (fn : M MsSqlClient.St T) (self : MsSqlClient.Fields)
    (past : list MsSqlClient.Call) (p t : Handle) : Prop :=
  let cleared :=
    MsSqlClient.set_isTransaction false (MsSqlClient.set_currentTransaction None self) in
  let begun :=
    mkSelf (MsSqlClient.set_isTransaction true
              (MsSqlClient.set_currentTransaction (Some t) self))
      ((past ++ [MsSqlClient.NewTransaction p]) ++ [MsSqlClient.Begin t]) in
  let out := MsSqlClient.transaction drv fn (mkSelf self past) in
  this (snd out) = cleared
  /\ (forall v sb,
        drv (past ++ [MsSqlClient.NewTransaction p]) (MsSqlClient.Begin t) = Ret tt ->
        fn begun = (Ret v, sb) ->
        drv (history sb) (MsSqlClient.Commit t) = Ret tt ->
        out = (Ret v, mkSelf cleared (history sb ++ [MsSqlClient.Commit t])))
  /\ (forall e sb,
        drv (past ++ [MsSqlClient.NewTransaction p]) (MsSqlClient.Begin t) = Ret tt ->
        fn begun = (Throw e, sb) ->
        drv (history sb) (MsSqlClient.Rollback t) = Ret tt ->
        out = (Throw e, mkSelf cleared (history sb ++ [MsSqlClient.Rollback t]))).

(** ** Drivers and inputs of the worked examples *)

(** A database that accepts everything: objects are numbered by the length
    of the history at their creation and every statement yields an empty
    result. *)
Definition pg_empty : PostgresClient.NativeResult :=
  {| PostgresClient.n_rows := [];
     PostgresClient.n_rowCount := Some (Int 0);
     PostgresClient.n_fields := Some [] |}.

Definition pg_reliable : Driver PostgresClient.Call PostgresClient.Reply :=
  fun past c =>
    match c return Res (PostgresClient.Reply c) with
    | PostgresClient.NewPool _ => Ret (length past)
    | PostgresClient.PoolEnd _ => Ret tt
    | PostgresClient.PoolConnect _ => Ret (length past)
    | PostgresClient.PoolQuery _ _ _ => Ret pg_empty
    | PostgresClient.ClientQuery _ _ _ => Ret pg_empty
    | PostgresClient.ClientRelease _ => Ret tt
    end.

Definition mysql_reliable : Driver MySqlClient.Call MySqlClient.Reply :=
  fun past c =>
    match c return Res (MySqlClient.Reply c) with
    | MySqlClient.CreatePool _ => Ret (length past)
    | MySqlClient.PoolEnd _ => Ret tt
    | MySqlClient.GetConnection _ => Ret (length past)
    | MySqlClient.PoolExecute _ _ _ => Ret (MySqlClient.RowsArray [], Some [])
    | MySqlClient.ConnExecute _ _ _ => Ret (MySqlClient.RowsArray [], Some [])
    | MySqlClient.BeginTransaction _ => Ret tt
    | MySqlClient.Commit _ => Ret tt
    | MySqlClient.Rollback _ => Ret tt
    | MySqlClient.Release _ => Ret tt
    end.

Definition mssql_empty : MsSqlClient.NativeResult :=
  {| MsSqlClient.recordset := Some {| MsSqlClient.records := []; MsSqlClient.columns := Some [] |};
     MsSqlClient.rowsAffected := [Int 0] |}.

Definition mssql_reliable : Driver MsSqlClient.Call MsSqlClient.Reply :=
  fun past c =>
    match c return Res (MsSqlClient.Reply c) with
    | MsSqlClient.Connect _ => Ret (length past)
    | MsSqlClient.PoolClose _ => Ret tt
    | MsSqlClient.NewTransaction _ => Ret (length past)
    | MsSqlClient.Begin _ => Ret tt
    | MsSqlClient.Commit _ => Ret tt
    | MsSqlClient.Rollback _ => Ret tt
    | MsSqlClient.RequestQuery _ _ => Ret mssql_empty
    end.

Definition sqlite_reliable : Driver SqliteClient.Call SqliteClient.Reply :=
  fun past c =>
    match c return Res (SqliteClient.Reply c) with
    | SqliteClient.Open _ => Ret (length past)
    | SqliteClient.Close _ => Ret tt
    | SqliteClient.Prepare _ _ => Ret (length past)
    | SqliteClient.All _ _ => Ret []
    | SqliteClient.Run _ _ => Ret {| SqliteClient.changes := Int 0 |}
    end.

(** [failing_on bad e drv] rejects the calls selected by [bad] with [e] and
    otherwise answers as [drv]. *)
Definition failing_on {C : Type} {R : C -> Type} (bad : C -> bool) (e : exn)
    (drv : Driver C R) : Driver C R :=
  fun past c => if bad c then Throw e else drv past c.

Definition pg_is_NewPool (c : PostgresClient.Call) : bool :=
  match c with PostgresClient.NewPool _ => true | _ => false end.

Definition pg_is_statement (text : string) (c : PostgresClient.Call) : bool :=
  match c with
  | PostgresClient.ClientQuery _ sql _ => String.eqb sql text
  | _ => false
  end.

(** A response whose body always parses to [j]. *)
Definition parses_to (j : ApiResponse.JsonValue) : Driver ApiResponse.Call ApiResponse.Reply :=
  fun _ _ => Ret j.

(** A configuration with discrete fields and a connection string. *)
Definition both_config (provider connectionString : string) : DatabaseConfig :=
  {| provider := provider; host := Some "db.internal"; port := Some (Int 6000);
     database := "test_db"; user := Some "tester"; password := Some "secret";
     filePath := None; connectionString := Some connectionString;
     pool := None; ssl := None |}.

Definition pg_is_PoolConnect (c : PostgresClient.Call) : bool :=
  match c with PostgresClient.PoolConnect _ => true | _ => false end.

Definition pg_is_ClientRelease (c : PostgresClient.Call) : bool :=
  match c with PostgresClient.ClientRelease _ => true | _ => false end.

(** A configuration with nothing but the provider tag and a database name. *)
Definition bare_config (provider database : string) : DatabaseConfig :=
  {| provider := provider; host := None; port := None; database := database;
     user := None; password := None; filePath := None; connectionString := None;
     pool := None; ssl := None |}.

(** A configuration of the embedded-file client with a file path, a database
    name and a connection string. *)
Definition file_config : DatabaseConfig :=
  {| provider := "sqlite"; host := None; port := None; database := "test_db";
     user := None; password := None; filePath := Some "data/app.db";
     connectionString := Some "file:other.db"; pool := None; ssl := None |}.

(** Connected instances, as [connect] leaves them with the reliable
    drivers. *)
Definition pg_connected : PostgresClient.St :=
  snd (PostgresClient.connect pg_reliable
         (mkSelf (PostgresClient.new (bare_config "postgres" "test_db")) [])).

Definition mysql_connected : MySqlClient.St :=
  snd (MySqlClient.connect mysql_reliable
         (mkSelf (MySqlClient.new (bare_config "mysql" "test_db")) [])).

Definition mssql_connected : MsSqlClient.St :=
  snd (MsSqlClient.connect mssql_reliable
         (mkSelf (MsSqlClient.new (bare_config "mssql" "test_db")) [])).

(** The error a transaction body of the examples throws. *)
Definition boom : exn := UserError (VStr "boom").

(** Is position [i] of [s] inside a single-quoted SQL string constant?
    ([inside] tells whether the scan starts inside one.) *)
Fixpoint in_literal_from (inside : bool) (s : string) (i : nat) : bool :=
  match s with
  | EmptyString => false
  | String c s' =>
      let quote := Ascii.eqb c "'" in
      match i with
      | 0 => inside && negb quote
      | S i' => in_literal_from (if quote then negb inside else inside) s' i'
      end
  end.

Definition in_literal (s : string) (i : nat) : bool := in_literal_from false s i.

(** A statement with a question mark inside a string constant, followed by
    one placeholder. *)
Definition quoted_sql : string :=
  "SELECT id FROM notes WHERE body = 'why?' AND id = ?".

(** ** The three pooled classes and their transaction handle *)

(** The Postgres, MySQL and SQL-Server classes share one shape: a pool, a
    slot for the handle of the transaction in progress, and a flag.  The
    definitions below name, class by class, the driver calls that shape is
    made of, so that one statement can speak of all three. *)
Inductive Pooled := pooled_postgres | pooled_mysql | pooled_mssql.

Definition variant_of (k : Pooled) : Variant :=
  match k with
  | pooled_postgres => postgres
  | pooled_mysql => mysql
  | pooled_mssql => mssql
  end.

Definition PooledFields (k : Pooled) : Type := Fields (class_of (variant_of k)).
Definition PooledCall (k : Pooled) : Type := Call (class_of (variant_of k)).
Definition PooledSt (k : Pooled) : Type := Self (PooledFields k) (PooledCall k).
Definition PooledDriver (k : Pooled) : Type :=
  Driver (Call (class_of (variant_of k))) (Reply (class_of (variant_of k))).

Definition transaction_of (k : Pooled) {T : Type}
  : PooledDriver k -> M (PooledSt k) T -> M (PooledSt k) T :=
  match k return PooledDriver k -> M (PooledSt k) T -> M (PooledSt k) T with
  | pooled_postgres => fun drv fn => PostgresClient.transaction drv fn
  | pooled_mysql => fun drv fn => MySqlClient.transaction drv fn
  | pooled_mssql => fun drv fn => MsSqlClient.transaction drv fn
  end.

(** The handle slot and its setter. *)
Definition slot_of (k : Pooled) : PooledFields k -> option Handle :=
  match k with
  | pooled_postgres => PostgresClient.client
  | pooled_mysql => MySqlClient.connection
  | pooled_mssql => MsSqlClient.currentTransaction
  end.

(** The fields [disconnect] leaves: no pool, no handle, the rest as it was. *)
Definition disconnected (k : Pooled) : PooledFields k -> PooledFields k :=
  match k with
  | pooled_postgres => fun f => PostgresClient.set_pool None (PostgresClient.set_client None f)
  | pooled_mysql => fun f => MySqlClient.set_pool None (MySqlClient.set_connection None f)
  | pooled_mssql =>
      fun f => MsSqlClient.set_pool None (MsSqlClient.set_currentTransaction None f)
  end.

(** Asking the pool [p] for a dedicated handle. *)
Definition acquire_call (k : Pooled) (p : Handle) : PooledCall k :=
  match k with
  | pooled_postgres => PostgresClient.PoolConnect p
  | pooled_mysql => MySqlClient.GetConnection p
  | pooled_mssql => MsSqlClient.NewTransaction p
  end.

(** The driver answers that request with the handle [c]. *)
Definition acquired (k : Pooled) : PooledDriver k -> list (PooledCall k) -> Handle -> Handle -> Prop :=
  match k with
  | pooled_postgres => fun drv past p c => drv past (PostgresClient.PoolConnect p) = Ret c
  | pooled_mysql => fun drv past p c => drv past (MySqlClient.GetConnection p) = Ret c
  | pooled_mssql => fun drv past p c => drv past (MsSqlClient.NewTransaction p) = Ret c
  end.

Definition begin_call (k : Pooled) (c : Handle) : PooledCall k :=
  match k with
  | pooled_postgres => PostgresClient.ClientQuery c "BEGIN" None
  | pooled_mysql => MySqlClient.BeginTransaction c
  | pooled_mssql => MsSqlClient.Begin c
  end.

(** What [disconnect] and the cleanup of [transaction] ask of the driver
    for the handle [c]: its release, or nothing at all for SQL Server. *)
Definition release_calls (k : Pooled) (c : Handle) : list (PooledCall k) :=
  match k with
  | pooled_postgres => [PostgresClient.ClientRelease c]
  | pooled_mysql => [MySqlClient.Release c]
  | pooled_mssql => []
  end.

Definition close_call (k : Pooled) (p : Handle) : PooledCall k :=
  match k with
  | pooled_postgres => PostgresClient.PoolEnd p
  | pooled_mysql => MySqlClient.PoolEnd p
  | pooled_mssql => MsSqlClient.PoolClose p
  end.

(** A statement sent on the pool, and the same statement sent on the
    handle of the transaction in progress. *)
Definition on_pool (k : Pooled) (p : Handle) (sql : string) (params : option (list value))
  : PooledCall k :=
  match k with
  | pooled_postgres => PostgresClient.PoolQuery p sql params
  | pooled_mysql => MySqlClient.PoolExecute p sql params
  | pooled_mssql =>
      MsSqlClient.RequestQuery
        (MsSqlClient.convertParams (MsSqlClient.new_Request (MsSqlClient.OnPool p)) params)
        (MsSqlClient.convertSql sql params)
  end.

Definition on_handle (k : Pooled) (c : Handle) (sql : string) (params : option (list value))
  : PooledCall k :=
  match k with
  | pooled_postgres => PostgresClient.ClientQuery c sql params
  | pooled_mysql => MySqlClient.ConnExecute c sql params
  | pooled_mssql =>
      MsSqlClient.RequestQuery
        (MsSqlClient.convertParams
           (MsSqlClient.new_Request (MsSqlClient.OnTransaction (Some c))) params)
        (MsSqlClient.convertSql sql params)
  end.

(** The driver accepts each of [calls], asked one after the other. *)
Fixpoint accepts {C : Type} {R : C -> Type} (drv : Driver C R) (past : list C)
    (calls : list C) : Prop :=
  match calls with
  | [] => True
  | c :: rest => (exists r, drv past c = Ret r) /\ accepts drv (past ++ [c]) rest
  end.

(** A number that is neither [NaN] nor [0]. *)
Definition nonzero (n : number) : Prop := n <> NaN /\ n <> Int 0.

(** How many times the character [c] occurs in [s]. *)
Fixpoint count_char (c : ascii) (s : string) : nat :=
  match s with
  | EmptyString => 0
  | String c' s' => (if Ascii.eqb c c' then 1 else 0) + count_char c s'
  end.

(** The configuration a client built by the factory holds. *)
Definition client_config (client : DatabaseFactory.DatabaseClient) : DatabaseConfig :=
  match client with
  | DatabaseFactory.Postgres f => PostgresClient.config f
  | DatabaseFactory.MySql f => MySqlClient.config f
  | DatabaseFactory.MsSql f => MsSqlClient.config f
  | DatabaseFactory.Sqlite f => SqliteClient.config f
  end.

(** [n] calls of the same method, one after the other, with their
    outcomes. *)
Fixpoint repeat_call {Σ A : Type} (n : nat) (m : M Σ A) (s : Σ) : list (Res A) * Σ :=
  match n with
  | 0 => ([], s)
  | S n' =>
      let (r, s') := m s in
      let (rs, s'') := repeat_call n' m s' in
      (r :: rs, s'')
  end.

(** Further drivers of the worked examples. *)
Definition sqlite_is_Prepare (c : SqliteClient.Call) : bool :=
  match c with SqliteClient.Prepare _ _ => true | _ => false end.

Definition ada : Row := [("id", VNum 1); ("name", VStr "Ada")].

Definition sqlite_one_row : Driver SqliteClient.Call SqliteClient.Reply :=
  fun past c =>
    match c return Res (SqliteClient.Reply c) with
    | SqliteClient.All _ _ => Ret [ada]
    | c => sqlite_reliable past c
    end.

Definition sqlite_connected : SqliteClient.St :=
  snd (SqliteClient.connect sqlite_reliable
         (mkSelf (SqliteClient.new (bare_config "sqlite" "test.db")) [])).

(** A SQL-Server statement that yields no recordset, only a count. *)
Definition mssql_no_recordset : Driver MsSqlClient.Call MsSqlClient.Reply :=
  fun past c =>
    match c return Res (MsSqlClient.Reply c) with
    | MsSqlClient.RequestQuery _ _ =>
        Ret {| MsSqlClient.recordset := None; MsSqlClient.rowsAffected := [Int 3] |}
    | c => mssql_reliable past c
    end.

(** The layout of a version-4 UUID: [x] stands for a lowercase
    hexadecimal digit, [y] for one of [8], [9], [a], [b], and every other
    character for itself. *)
Definition is_hex (c : ascii) : bool := occurs c "0123456789abcdef".
Definition is_variant (c : ascii) : bool := occurs c "89ab".

Fixpoint laid_out (layout s : string) : bool :=
  match layout, s with
  | EmptyString, EmptyString => true
  | String l layout', String c s' =>
      (if Ascii.eqb l "x" then is_hex c
       else if Ascii.eqb l "y" then is_variant c
       else Ascii.eqb l c)
      && laid_out layout' s'
  | _, _ => false
  end.

Definition is_uuid_v4 (s : string) : bool :=
  laid_out "xxxxxxxx-xxxx-4xxx-yxxx-xxxxxxxxxxxx" s.

(** A stand-in for the platform's [URL] class in the worked examples:
    a relative endpoint needs a base, and query parameters are appended as
    text. *)
Definition toy_new_URL (endpoint base : string) : Res string :=
  if String.eqb base "" then Throw (TypeError "Invalid URL") else Ret (base +:+ endpoint).
Definition toy_append (url key v : string) : string := url +:+ "&" +:+ key +:+ "=" +:+ v.
Definition toy_toString (url : string) : string := url.

(** A server that answers every request; responses are numbered by the
    length of the history. *)
Definition http_reliable : Driver ApiClient.Call ApiClient.Reply :=
  fun past _ => Ret (length past).

Definition no_config : ApiClient.ApiClientConfig.t :=
  {| ApiClient.ApiClientConfig.baseURL := None;
     ApiClient.ApiClientConfig.headers := None;
     ApiClient.ApiClientConfig.timeout := None |}.

(** The reliable drivers as one family, and a test that runs one
    statement and then fails. *)
Definition reliable_drivers : Fixtures.Drivers :=
  fun v =>
    match v with
    | postgres => pg_reliable
    | mysql => mysql_reliable
    | mssql => mssql_reliable
    | sqlite => sqlite_reliable
    end.

Definition select_then_fail : Fixtures.Test :=
  fun v => query (class_of v) (reliable_drivers v) "SELECT 1" None ;;; throw boom.

(** A source of random numbers that cycles through the sixteenths. *)
Definition sixteenths (n : nat) : Q := Z.of_nat (n mod 16) # 16.

Definition legacy_config : DatabaseConfig :=
  {| provider := "postgres"; host := None; port := None; database := "legacy";
     user := None; password := None; filePath := None; connectionString := None;
     pool := Some {| min := None; max := None |}; ssl := Some (SslFlag false) |}.

Definition upper_case_ssl : DatabaseConfig :=
  {| provider := "mysql"; host := None; port := None; database := "";
     user := None; password := None; filePath := None; connectionString := None;
     pool := Some {| min := None; max := None |}; ssl := Some (SslFlag false) |}.

Definition port_3307 : DatabaseConfig :=
  {| provider := "postgres"; host := None; port := Some (Int 3307); database := "test_db";
     user := None; password := None; filePath := None; connectionString := None;
     pool := Some {| min := None; max := None |}; ssl := Some (SslFlag false) |}.

(** ** Proof tactics *)

(** [String.append] computes on literals in the proofs below. *)
#[local] Arguments String.append !_ _ / : simpl nomatch.

(** Unfold the monad on the goal, or in a hypothesis. *)
Ltac run :=
  unfold bind, get_this, set_this, call, ret, throw; cbn [this history fst snd].

Ltac run_in H :=
  unfold bind, get_this, set_this, call, ret, throw in H; cbn [this history fst snd] in H.

(** Case analysis on the driver's answer to the next call. *)
Ltac ask_driver drv H :=
  match type of H with
  | context [drv ?h ?c] => destruct (drv h c) eqn:?; cbn in H
  end.

(** Run the transaction body and use its frame condition. *)
Ltac body_frame fn frame :=
  match goal with
  | |- context [fn ?s] =>
      let Hfn := fresh "Hfn" in
      let Fr := fresh "Fr" in
      pose proof (frame s) as Fr;
      destruct (fn s) as [? [? ?]] eqn:Hfn;
      cbn in Fr; subst
  end.

Ltac body_result fn frame Hfn :=
  match type of Hfn with
  | fn ?s = _ =>
      let Fr := fresh "Fr" in
      pose proof (frame s) as Fr; rewrite Hfn in Fr; cbn in Fr; subst; cbn in *
  end.

(** Follow every outcome of the driver calls left in the goal. *)
Ltac outcomes drv tac :=
  repeat (cbn; tac;
          match goal with
          | |- context [match ?r with Ret _ => _ | Throw _ => _ end] =>
              first [ is_var r; destruct r
                    | match r with drv ?h ?c => destruct (drv h c) eqn:? end ]
          end);
  cbn; tac; cbn.

(** ** Properties *)

(** *** Strings *)

Lemma occurs_uint (d : Decimal.uint) : occurs "?" (NilEmpty.string_of_uint d) = false.
Proof. induction d; simpl; auto. Qed.

Lemma occurs_dec (n : nat) : occurs "?" (dec n) = false.
Proof. apply occurs_uint. Qed.

Example replace_first_only : replace "?" "@p0" "a = ? AND b = ?" = "a = @p0 AND b = ?".
Proof. reflexivity. Qed.

Example replace_absent : replace "?" "@p0" "SELECT 1" = "SELECT 1".
Proof. reflexivity. Qed.

Example dec_12 : dec 12 = "12".
Proof. reflexivity. Qed.

Example parseInt_port : DatabaseFactory.parseInt " 5432" = Int 5432.
Proof. reflexivity. Qed.

Example parseInt_prefix : DatabaseFactory.parseInt "-12px" = Int (-12).
Proof. reflexivity. Qed.

Example parseInt_NaN : DatabaseFactory.parseInt "five" = NaN.
Proof. reflexivity. Qed.

(** Past [2^53] the digits are read as the nearest double, a tie going to the
    even neighbour; a run of 310 digits is past every double. *)
Example parseInt_rounds_down :
  DatabaseFactory.parseInt "9007199254740993" = Int 9007199254740992.
Proof. vm_compute. reflexivity. Qed.

Example parseInt_rounds_up :
  DatabaseFactory.parseInt "9007199254740995" = Int 9007199254740996.
Proof. vm_compute. reflexivity. Qed.

Example parseInt_Infinity :
  DatabaseFactory.parseInt ("-" +:+ NilEmpty.string_of_uint (N.to_uint (10 ^ 309)))
  = Infinity true.
Proof. vm_compute. reflexivity. Qed.

Example parseInt_minus_zero : DatabaseFactory.parseInt "-0" = Int 0.
Proof. reflexivity. Qed.

(** A no-break space (U+00A0) and an em space (U+2003) before the digits are
    skipped like a blank; a zero-width space (U+200B) is not white space. *)
Example parseInt_wide_space :
  DatabaseFactory.parseInt
    (String "194" (String "160" (String "226" (String "128" (String "131" "5432")))))
  = Int 5432.
Proof. vm_compute. reflexivity. Qed.

Example parseInt_zero_width_space :
  DatabaseFactory.parseInt (String "226" (String "128" (String "139" "5432"))) = NaN.
Proof. vm_compute. reflexivity. Qed.

Example or_number_zero : or_number (Some (Int 0)) (Int 5432) = Int 5432.
Proof. reflexivity. Qed.

Example sqlite_path_fallback :
  SqliteClient.filePath_of (bare_config "sqlite" "") = ":memory:"
  /\ SqliteClient.filePath_of (bare_config "sqlite" "test.db") = "test.db".
Proof. split; reflexivity. Qed.

(** The replacement tokens contain neither [?] nor the [$] that
    [String.prototype.replace] would interpret. *)
Lemma named_token_literal (n : nat) :
  occurs "?" ("@p" +:+ dec n) = false /\ occurs "$" ("@p" +:+ dec n) = false.
Proof.
  split; simpl.
  - apply occurs_dec.
  - unfold dec. induction (Nat.to_uint n); simpl; auto.
Qed.

Lemma dec_inj (n m : nat) : dec n = dec m -> n = m.
Proof.
  unfold dec. intros H. apply Unsigned.to_uint_inj.
  assert (E : Some (Nat.to_uint n) = Some (Nat.to_uint m)).
  { rewrite <- !NilEmpty.usu. now rewrite H. }
  now inversion E.
Qed.

Lemma number_from_0 (index : nat) (s : string) : number_from index 0 s = s.
Proof.
  induction s as [|c s IH]; cbn [number_from]; [reflexivity |].
  destruct (Ascii.eqb "?" c); [reflexivity | now rewrite IH].
Qed.

Lemma number_from_app (index budget : nat) (pre s : string) :
  occurs "?" pre = false ->
  number_from index budget (pre +:+ s) = pre +:+ number_from index budget s.
Proof.
  induction pre as [|c pre IH]; cbn [String.append occurs number_from]; [reflexivity |].
  destruct (Ascii.eqb "?" c); [discriminate |].
  intros H. now rewrite IH.
Qed.

(** Replacing the first [?] and then naming [budget] more from [S index]
    is naming [S budget] from [index]. *)
Lemma number_from_replace (index budget : nat) (s : string) :
  number_from (S index) budget (replace "?" ("@p" +:+ dec index) s)
  = number_from index (S budget) s.
Proof.
  induction s as [|c s IH]; [reflexivity |].
  cbn [replace strip_prefix number_from].
  destruct (Ascii.eqb "?" c) eqn:E.
  - rewrite number_from_app; [reflexivity | apply named_token_literal].
  - cbn [number_from]. rewrite E. now rewrite IH.
Qed.

Lemma forEach_from_number {A : Type} (params : list A) (index : nat) (s : string) :
  forEach_from index params
    (fun _ index convertedSql => replace "?" ("@p" +:+ dec index) convertedSql) s
  = number_from index (length params) s.
Proof.
  revert index s. induction params as [|x params IH]; intros index s.
  - simpl. now rewrite number_from_0.
  - cbn [forEach_from length]. rewrite IH. apply number_from_replace.
Qed.

(** [convertSql] is the single left-to-right pass, for every text and every
    parameter list. *)
Lemma convertSql_number (sqlQuery : string) (params : list value) :
  MsSqlClient.convertSql sqlQuery (Some params)
  = number_from 0 (length params) sqlQuery.
Proof. apply forEach_from_number. Qed.

Lemma number_from_holes (segments : list string) (index : nat) :
  Forall (fun s => occurs "?" s = false) segments ->
  number_from index (length segments) (holes segments) = named_from index segments.
Proof.
  intros H. revert index. induction H as [|s rest Hs _ IH]; intros index.
  - reflexivity.
  - cbn [holes named_from length]. cbn [String.append number_from Ascii.eqb Bool.eqb].
    cbn. f_equal. f_equal. rewrite number_from_app by exact Hs. now rewrite IH.
Qed.

(** *** Placeholder translation of the SQL-Server client *)

Lemma token_name_inj (n m : nat) : "p" +:+ dec n = "p" +:+ dec m -> n = m.
Proof. cbn [String.append]. intros H. apply dec_inj. congruence. Qed.

Lemma convertParams_from (params : list value) (index : nat)
    (request : MsSqlClient.Request) (i : nat) :
  MsSqlClient.parameters
    (forEach_from index params
       (fun param index request => MsSqlClient.input ("p" +:+ dec index) param request)
       request) !! ("p" +:+ dec i)
  = if decide (index <= i)
    then match params !! (i - index) with
         | Some v => Some v
         | None => MsSqlClient.parameters request !! ("p" +:+ dec i)
         end
    else MsSqlClient.parameters request !! ("p" +:+ dec i).
Proof.
  revert index request. induction params as [|x params IH]; intros index request.
  - cbn [forEach_from]. destruct (decide (index <= i)); reflexivity.
  - cbn [forEach_from]. rewrite IH. cbn [MsSqlClient.input MsSqlClient.parameters].
    destruct (decide (S index <= i)) as [Hlt|Hge].
    + destruct (decide (index <= i)) as [_|]; [|lia].
      replace (i - index) with (S (i - S index)) by lia. cbn [lookup list_lookup].
      destruct (params !! (i - S index)); [reflexivity |].
      rewrite lookup_insert_ne; [reflexivity |].
      intros E. apply token_name_inj in E. lia.
    + destruct (decide (index <= i)) as [Hle|Hgt].
      * assert (i = index) by lia. subst i. rewrite Nat.sub_diag. cbn [lookup list_lookup].
        now rewrite lookup_insert_eq.
      * rewrite lookup_insert_ne; [reflexivity |].
        intros E. apply token_name_inj in E. lia.
Qed.

(** On a fresh request, [convertParams] declares exactly the inputs
    [p0 .. p(n-1)], the [i]-th holding the [i]-th argument. *)
Lemma convertParams_binds (parent : MsSqlClient.Parent) (params : list value) (i : nat) :
  MsSqlClient.parameters
    (MsSqlClient.convertParams (MsSqlClient.new_Request parent) (Some params))
    !! ("p" +:+ dec i)
  = params !! i.
Proof.
  unfold MsSqlClient.convertParams, forEach. rewrite convertParams_from.
  destruct (decide (0 <= i)); [|lia]. rewrite Nat.sub_0_r.
  destruct (params !! i); [reflexivity |]. apply lookup_empty.
Qed.

Lemma convertSql_holes (seg0 : string) (segments : list string) (params : list value) :
  occurs "?" seg0 = false ->
  Forall (fun s => occurs "?" s = false) segments ->
  length params = length segments ->
  MsSqlClient.convertSql (seg0 +:+ holes segments) (Some params)
  = seg0 +:+ named_from 0 segments.
Proof.
  intros H0 Hs Hn. rewrite convertSql_number, Hn.
  rewrite number_from_app by exact H0. now rewrite number_from_holes.
Qed.

(** What [query] asks of the driver on a connected instance. *)
Lemma mssql_query_request (drv : Driver MsSqlClient.Call MsSqlClient.Reply)
    (self : MsSqlClient.Fields) (past : list MsSqlClient.Call) (p : Handle)
    (sqlQuery : string) (params : option (list value)) :
  MsSqlClient.pool self = Some p ->
  history (snd (MsSqlClient.query drv sqlQuery params (mkSelf self past)))
  = past ++
    [MsSqlClient.RequestQuery
       (MsSqlClient.convertParams
          (MsSqlClient.new_Request
             (if MsSqlClient.isTransaction self
              then MsSqlClient.OnTransaction (MsSqlClient.currentTransaction self)
              else MsSqlClient.OnPool p))
          params)
       (MsSqlClient.convertSql sqlQuery params)].
Proof.
  intros Hp. unfold MsSqlClient.query, bind, get_this, call, ret. cbn [this history].
  rewrite Hp. cbn [this history].
  destruct (MsSqlClient.isTransaction self);
    match goal with |- context [drv ?h ?c] => destruct (drv h c) end; reflexivity.
Qed.

(** C1.  For the SQL-Server client, a text with [n] placeholders and [n]
    parameters has its placeholders rewritten, from left to right, into
    [@p0], ..., [@p(n-1)]; the [i]-th argument is declared as the input named
    [p<i>]; and this rewritten text and these inputs are what [query] sends
    to the driver. *)
Theorem C1_placeholders_named_in_order
    (drv : Driver MsSqlClient.Call MsSqlClient.Reply)
    (self : MsSqlClient.Fields) (past : list MsSqlClient.Call) (p : Handle)
    (seg0 : string) (segments : list string) (params : list value) :
  occurs "?" seg0 = false ->
  Forall (fun s => occurs "?" s = false) segments ->
  length params = length segments ->
  MsSqlClient.pool self = Some p ->
  MsSqlClient.convertSql (seg0 +:+ holes segments) (Some params)
    = seg0 +:+ named_from 0 segments
  /\ (forall parent i,
        MsSqlClient.parameters
          (MsSqlClient.convertParams (MsSqlClient.new_Request parent) (Some params))
          !! ("p" +:+ dec i)
        = params !! i)
  /\ exists request,
       history (snd (MsSqlClient.query drv (seg0 +:+ holes segments) (Some params)
                       (mkSelf self past)))
         = past ++ [MsSqlClient.RequestQuery request (seg0 +:+ named_from 0 segments)]
       /\ forall i, MsSqlClient.parameters request !! ("p" +:+ dec i) = params !! i.
Proof.
  intros H0 Hs Hn Hp. split; [|split].
  - now apply convertSql_holes.
  - intros parent i. apply convertParams_binds.
  - eexists. split.
    + rewrite (mssql_query_request drv self past p) by exact Hp.
      rewrite convertSql_holes by assumption. reflexivity.
    + intros i. apply convertParams_binds.
Qed.

(** The three-placeholder query of the specification. *)
Lemma C1_three_placeholders :
  MsSqlClient.convertSql ("SELECT " +:+ holes [" AS a, "; " AS b, "; " AS c"])
      (Some [VNum 1; VStr "two"; VNull])
    = "SELECT @p0 AS a, @p1 AS b, @p2 AS c"
  /\ (forall parent i,
        MsSqlClient.parameters
          (MsSqlClient.convertParams (MsSqlClient.new_Request parent)
             (Some [VNum 1; VStr "two"; VNull]))
          !! ("p" +:+ dec i)
        = [VNum 1; VStr "two"; VNull] !! i)
  /\ exists request,
       history (snd (MsSqlClient.query mssql_reliable
                       ("SELECT " +:+ holes [" AS a, "; " AS b, "; " AS c"])
                       (Some [VNum 1; VStr "two"; VNull])
                       (mkSelf (MsSqlClient.set_pool (Some 0)
                                  (MsSqlClient.new (bare_config "mssql" "test_db"))) [])))
         = [] ++ [MsSqlClient.RequestQuery request "SELECT @p0 AS a, @p1 AS b, @p2 AS c"]
       /\ forall i, MsSqlClient.parameters request !! ("p" +:+ dec i)
                    = [VNum 1; VStr "two"; VNull] !! i.
Proof.
  apply (C1_placeholders_named_in_order mssql_reliable
           (MsSqlClient.set_pool (Some 0) (MsSqlClient.new (bare_config "mssql" "test_db")))
           [] 0 "SELECT " [" AS a, "; " AS b, "; " AS c"] [VNum 1; VStr "two"; VNull]).
  - reflexivity.
  - repeat constructor.
  - reflexivity.
  - reflexivity.
Defined.

(** C2.  The rewrite does not look at quoting: in [quoted_sql] the character
    at position 38 is a [?] inside a string constant, and [convertSql] turns it
    into the token meant for the parameter, leaving the real placeholder
    untouched. *)
Theorem C2_question_mark_in_literal_is_rewritten :
  String.get 38 quoted_sql = Some "?"%char
  /\ in_literal quoted_sql 38 = true
  /\ MsSqlClient.convertSql quoted_sql (Some [VNum 7])
     = "SELECT id FROM notes WHERE body = 'why@p0' AND id = ?".
Proof. repeat split; reflexivity. Qed.

(** *** The guard of [query] and [execute] *)

Lemma pg_guard (drv : Driver PostgresClient.Call PostgresClient.Reply)
    (s : PostgresClient.St) (sql : string) (params : option (list value)) :
  PostgresClient.pool (this s) = None ->
  refuses (PostgresClient.query drv sql params) s
  /\ refuses (PostgresClient.execute drv sql params) s.
Proof.
  intros H. unfold refuses, PostgresClient.execute, PostgresClient.query.
  run. rewrite H. destruct s. split; reflexivity.
Qed.

Lemma mysql_guard (drv : Driver MySqlClient.Call MySqlClient.Reply)
    (s : MySqlClient.St) (sql : string) (params : option (list value)) :
  MySqlClient.pool (this s) = None ->
  refuses (MySqlClient.query drv sql params) s
  /\ refuses (MySqlClient.execute drv sql params) s.
Proof.
  intros H. unfold refuses, MySqlClient.execute, MySqlClient.query.
  run. rewrite H. destruct s. split; reflexivity.
Qed.

Lemma mssql_guard (drv : Driver MsSqlClient.Call MsSqlClient.Reply)
    (s : MsSqlClient.St) (sql : string) (params : option (list value)) :
  MsSqlClient.pool (this s) = None ->
  refuses (MsSqlClient.query drv sql params) s
  /\ refuses (MsSqlClient.execute drv sql params) s.
Proof.
  intros H. unfold refuses, MsSqlClient.execute, MsSqlClient.query.
  run. rewrite H. destruct s. split; reflexivity.
Qed.

Lemma sqlite_guard (drv : Driver SqliteClient.Call SqliteClient.Reply)
    (s : SqliteClient.St) (sql : string) (params : option (list value)) :
  SqliteClient.db (this s) = None ->
  refuses (SqliteClient.query drv sql params) s
  /\ refuses (SqliteClient.execute drv sql params) s.
Proof.
  intros H. unfold refuses, SqliteClient.execute, SqliteClient.query.
  run. rewrite H. destruct s. split; reflexivity.
Qed.

(** Without a pool (or handle), [query] and [execute] refuse, whatever the
    provider. *)
Lemma guard (v : Variant) (drv : Driver (Call (class_of v)) (Reply (class_of v)))
    (s : Self (Fields (class_of v)) (Call (class_of v)))
    (sql : string) (params : option (list value)) :
  link (class_of v) (this s) = None ->
  refuses (query (class_of v) drv sql params) s
  /\ refuses (execute (class_of v) drv sql params) s.
Proof.
  destruct v; cbn; intros H.
  - now apply pg_guard.
  - now apply mysql_guard.
  - now apply mssql_guard.
  - now apply sqlite_guard.
Qed.

(** A [connect] that throws leaves the instance without a pool; one that
    returns leaves it with one. *)
Lemma connect_outcome (v : Variant) (drv : Driver (Call (class_of v)) (Reply (class_of v)))
    (s : Self (Fields (class_of v)) (Call (class_of v))) :
  match connect (class_of v) drv s with
  | (Ret _, s') => link (class_of v) (this s') <> None
  | (Throw _, s') => link (class_of v) (this s') = None
  end.
Proof.
  destruct s as [f h].
  destruct v; cbn in *;
    [ unfold PostgresClient.connect | unfold MySqlClient.connect
    | unfold MsSqlClient.connect | unfold SqliteClient.connect ];
    run;
    match goal with |- context [match ?l f with _ => _ end] =>
      destruct (l f) eqn:E end;
    cbn;
    try (rewrite E; discriminate);
    match goal with |- context [drv ?h ?c] => destruct (drv h c) end;
    cbn; try discriminate; exact E.
Qed.

(** C4.  For each of the four providers, [query] and [execute] on an
    instance on which [connect] was never called, or on which it was called
    and failed, raise the not-connected error and hand nothing to the
    driver. *)
Theorem C4_query_before_connect_refused (v : Variant)
    (drv : Driver (Call (class_of v)) (Reply (class_of v)))
    (cfg : DatabaseConfig) (past : list (Call (class_of v)))
    (sql : string) (params : option (list value)) :
  let fresh := mkSelf (new (class_of v) cfg) past in
  (refuses (query (class_of v) drv sql params) fresh
   /\ refuses (execute (class_of v) drv sql params) fresh)
  /\ forall e s',
       connect (class_of v) drv fresh = (Throw e, s') ->
       refuses (query (class_of v) drv sql params) s'
       /\ refuses (execute (class_of v) drv sql params) s'.
Proof.
  intros fresh. split.
  - apply guard. destruct v; reflexivity.
  - intros e s' H. apply guard.
    pose proof (connect_outcome v drv fresh) as O. now rewrite H in O.
Qed.

Lemma C4_witness :
  let drv := failing_on pg_is_NewPool (DriverError 111) pg_reliable in
  let fresh := mkSelf (PostgresClient.new (bare_config "postgres" "test_db")) [] in
  let failed := snd (PostgresClient.connect drv fresh) in
  PostgresClient.connect drv fresh = (Throw (DriverError 111), failed)
  /\ refuses (PostgresClient.query drv "SELECT 1" None) failed
  /\ refuses (PostgresClient.execute drv "DELETE FROM t" None) failed.
Proof.
  intros drv fresh failed. split; [reflexivity |].
  split.
  - apply (proj2 (C4_query_before_connect_refused postgres drv
                    (bare_config "postgres" "test_db") [] "SELECT 1" None)
             (DriverError 111) failed).
    reflexivity.
  - apply (proj2 (C4_query_before_connect_refused postgres drv
                    (bare_config "postgres" "test_db") [] "DELETE FROM t" None)
             (DriverError 111) failed).
    reflexivity.
Defined.

(** *** Idempotence of [connect] *)

Lemma connect_connected (v : Variant) (drv : Driver (Call (class_of v)) (Reply (class_of v)))
    (s : Self (Fields (class_of v)) (Call (class_of v))) :
  link (class_of v) (this s) <> None ->
  no_op (connect (class_of v) drv) s.
Proof.
  unfold no_op. destruct s as [f h].
  destruct v; cbn in *;
    [ unfold PostgresClient.connect | unfold MySqlClient.connect
    | unfold MsSqlClient.connect | unfold SqliteClient.connect ];
    run; intros H;
    match goal with |- context [match ?l f with _ => _ end] =>
      destruct (l f) end;
    try contradiction; reflexivity.
Qed.

(** C5.  For each of the four providers, once [connect] has completed, a
    second [connect] returns without throwing, asks nothing of the driver
    and leaves the instance, hence its pool, as the first call made it. *)
Theorem C5_connect_idempotent (v : Variant)
    (drv : Driver (Call (class_of v)) (Reply (class_of v)))
    (s s1 : Self (Fields (class_of v)) (Call (class_of v))) :
  connect (class_of v) drv s = (Ret tt, s1) ->
  link (class_of v) (this s1) <> None
  /\ connect (class_of v) drv s1 = (Ret tt, s1).
Proof.
  intros H. pose proof (connect_outcome v drv s) as O. rewrite H in O.
  split; [exact O |]. now apply connect_connected.
Qed.

Lemma C5_witness :
  let fresh := mkSelf (MySqlClient.new (bare_config "mysql" "test_db")) [] in
  let once := snd (MySqlClient.connect mysql_reliable fresh) in
  MySqlClient.connect mysql_reliable fresh = (Ret tt, once)
  /\ MySqlClient.pool (this once) <> None
  /\ MySqlClient.connect mysql_reliable once = (Ret tt, once).
Proof.
  intros fresh once. split; [reflexivity |].
  apply (C5_connect_idempotent mysql mysql_reliable fresh once). reflexivity.
Defined.

(** *** The factory *)

(** C6.  [create] on a provider tag other than the four supported ones
    throws an error whose message ends with that tag, and [fromEnv] without
    [DB_PROVIDER] throws the missing-variable error; in both cases the
    outcome is the exception, no client. *)
Theorem C6_factory_rejections :
  (forall cfg : DatabaseConfig,
     (forall v, provider cfg <> tag_of v) ->
     DatabaseFactory.create cfg
     = Throw (Error ("Unsupported database provider: " +:+ provider cfg)))
  /\ (forall env : gmap string string,
        env !! "DB_PROVIDER" = None ->
        DatabaseFactory.fromEnv env
        = Throw (Error "DB_PROVIDER environment variable is required")).
Proof.
  split.
  - intros cfg H. unfold DatabaseFactory.create.
    destruct (String.eqb_spec (provider cfg) "postgres") as [E|_];
      [exfalso; exact (H postgres E) |].
    destruct (String.eqb_spec (provider cfg) "mysql") as [E|_];
      [exfalso; exact (H mysql E) |].
    destruct (String.eqb_spec (provider cfg) "mssql") as [E|_];
      [exfalso; exact (H mssql E) |].
    destruct (String.eqb_spec (provider cfg) "sqlite") as [E|_];
      [exfalso; exact (H sqlite E) |].
    reflexivity.
  - intros env H. unfold DatabaseFactory.fromEnv. now rewrite H.
Qed.

Lemma C6_witness :
  DatabaseFactory.create (bare_config "oracle" "test_db")
  = Throw (Error "Unsupported database provider: oracle")
  /\ DatabaseFactory.fromEnv (<["DB_HOST" := "localhost"]> ∅)
     = Throw (Error "DB_PROVIDER environment variable is required").
Proof.
  split.
  - apply (proj1 C6_factory_rejections (bare_config "oracle" "test_db")).
    intros v; destruct v; discriminate.
  - apply (proj2 C6_factory_rejections (<["DB_HOST" := "localhost"]> ∅)).
    reflexivity.
Defined.

Lemma env_number_unset (env : gmap string string) (key : string) :
  env !! key = None -> DatabaseFactory.env_number env key = None.
Proof. intros H. unfold DatabaseFactory.env_number. now rewrite H. Qed.

Lemma create_supported (v : Variant) (cfg : DatabaseConfig) :
  provider cfg = tag_of v -> DatabaseFactory.create cfg = Ret (instance_of v cfg).
Proof. intros H. unfold DatabaseFactory.create. rewrite H. now destruct v. Qed.

(** C9.  When [DB_PROVIDER] holds a supported tag and no other database
    variable is set, [fromEnv] returns a fresh client of that provider whose
    configuration has the empty database name; for [sqlite], [connect] on
    that client then opens [":memory:"]. *)
Theorem C9_provider_only_environment (env : gmap string string) (v : Variant) :
  env !! "DB_PROVIDER" = Some (tag_of v) ->
  (forall key, In key other_variables -> env !! key = None) ->
  DatabaseFactory.fromEnv env = Ret (instance_of v (provider_only (tag_of v)))
  /\ database (provider_only (tag_of v)) = ""
  /\ (v = sqlite ->
      forall (drv : Driver SqliteClient.Call SqliteClient.Reply) past,
        history (snd (SqliteClient.connect drv
                        (mkSelf (SqliteClient.new (provider_only (tag_of v))) past)))
        = past ++ [SqliteClient.Open ":memory:"]).
Proof.
  intros Hp Hu. split; [|split].
  - unfold DatabaseFactory.fromEnv. rewrite Hp.
    replace (String.eqb (tag_of v) "") with false by now destruct v.
    rewrite !env_number_unset by (apply Hu; cbn; tauto).
    rewrite !Hu by (cbn; tauto).
    cbn [or_string]. rewrite bool_decide_eq_false_2 by discriminate.
    now apply create_supported.
  - reflexivity.
  - intros -> drv past. unfold SqliteClient.connect. run. cbn.
    match goal with |- context [drv ?h ?c] => destruct (drv h c) end; reflexivity.
Qed.

Lemma C9_witness :
  DatabaseFactory.fromEnv (<["DB_PROVIDER" := "sqlite"]> (<["PATH" := "/usr/bin"]> ∅))
  = Ret (DatabaseFactory.Sqlite (SqliteClient.new (provider_only "sqlite")))
  /\ history (snd (SqliteClient.connect sqlite_reliable
                     (mkSelf (SqliteClient.new (provider_only "sqlite")) [])))
     = [SqliteClient.Open ":memory:"].
Proof.
  assert (H := C9_provider_only_environment
                 (<["DB_PROVIDER" := "sqlite"]> (<["PATH" := "/usr/bin"]> ∅)) sqlite).
  destruct H as (H1 & _ & H3).
  - reflexivity.
  - intros key Hk. cbn in Hk.
    repeat (destruct Hk as [<- | Hk]; [reflexivity |]). contradiction.
  - split; [exact H1 | exact (H3 eq_refl sqlite_reliable [])].
Defined.

(** *** The memoised body of an HTTP response *)

(** Once a body other than [null] is cached, [json] returns it and asks
    nothing of the response. *)
Lemma json_cached (drv : Driver ApiResponse.Call ApiResponse.Reply) (s : ApiResponse.St) :
  ApiResponse._body (this s) <> ApiResponse.JNull ->
  ApiResponse.json drv s = (Ret (ApiResponse._body (this s)), s).
Proof.
  intros H. unfold ApiResponse.json. run. destruct s as [f h]. cbn in *.
  destruct (ApiResponse._body f) eqn:E; cbn; rewrite ?E; try reflexivity; congruence.
Qed.

(** A first call whose parse yields a body other than [null] caches it. *)
Lemma json_first (drv : Driver ApiResponse.Call ApiResponse.Reply)
    (response : Handle) (past : list ApiResponse.Call) (parsed : ApiResponse.JsonValue) :
  drv past (ApiResponse.ResponseJson response) = Ret parsed ->
  ApiResponse.json drv (mkSelf (ApiResponse.new response) past)
  = (Ret parsed,
     mkSelf (ApiResponse.set_body parsed (ApiResponse.new response))
       (past ++ [ApiResponse.ResponseJson response])).
Proof. intros H. unfold ApiResponse.json. run. cbn. now rewrite H. Qed.

(** C8.  A response whose body is the JSON document [null] is parsed again
    by every call of [json]: after two calls the driver has been asked to
    parse twice. *)
Theorem C8_null_body_parsed_on_every_call :
  let s0 := mkSelf (ApiResponse.new 0) [] in
  let s1 := snd (ApiResponse.json (parses_to ApiResponse.JNull) s0) in
  let s2 := snd (ApiResponse.json (parses_to ApiResponse.JNull) s1) in
  fst (ApiResponse.json (parses_to ApiResponse.JNull) s0) = Ret ApiResponse.JNull
  /\ fst (ApiResponse.json (parses_to ApiResponse.JNull) s1) = Ret ApiResponse.JNull
  /\ ApiResponse.parses (history s1) = 1
  /\ ApiResponse.parses (history s2) = 2.
Proof. repeat split; reflexivity. Qed.

(** *** What [connect] hands to the driver *)

Lemma pg_connect_calls (drv : Driver PostgresClient.Call PostgresClient.Reply)
    (cfg : DatabaseConfig) :
  connect_calls postgres drv cfg = [PostgresClient.NewPool (PostgresClient.poolConfig_of cfg)].
Proof.
  unfold connect_calls. cbn. unfold PostgresClient.connect. run. cbn.
  match goal with |- context [drv ?h ?c] => destruct (drv h c) end; reflexivity.
Qed.

Lemma mysql_connect_calls (drv : Driver MySqlClient.Call MySqlClient.Reply)
    (cfg : DatabaseConfig) :
  connect_calls mysql drv cfg = [MySqlClient.CreatePool (MySqlClient.poolOptions_of cfg)].
Proof.
  unfold connect_calls. cbn. unfold MySqlClient.connect. run. cbn.
  match goal with |- context [drv ?h ?c] => destruct (drv h c) end; reflexivity.
Qed.

Lemma mssql_connect_calls (drv : Driver MsSqlClient.Call MsSqlClient.Reply)
    (cfg : DatabaseConfig) :
  connect_calls mssql drv cfg = [MsSqlClient.Connect (MsSqlClient.connectArg_of cfg)].
Proof.
  unfold connect_calls. cbn. unfold MsSqlClient.connect. run. cbn.
  match goal with |- context [drv ?h ?c] => destruct (drv h c) end; reflexivity.
Qed.

Lemma sqlite_connect_calls (drv : Driver SqliteClient.Call SqliteClient.Reply)
    (cfg : DatabaseConfig) :
  connect_calls sqlite drv cfg = [SqliteClient.Open (SqliteClient.filePath_of cfg)].
Proof.
  unfold connect_calls. cbn. unfold SqliteClient.connect. run. cbn.
  match goal with |- context [drv ?h ?c] => destruct (drv h c) end; reflexivity.
Qed.

Lemma pg_poolConfig_string (cfg : DatabaseConfig) (s : string) :
  connectionString cfg = Some s -> s <> "" ->
  PostgresClient.poolConfig_of cfg = PostgresClient.ByConnectionString s.
Proof.
  intros H Hs. unfold PostgresClient.poolConfig_of. rewrite H.
  destruct (String.eqb_spec s ""); [contradiction | reflexivity].
Qed.

Lemma mssql_connectArg_string (cfg : DatabaseConfig) (s : string) :
  connectionString cfg = Some s -> s <> "" ->
  MsSqlClient.connectArg_of cfg = MsSqlClient.ByConnectionString s.
Proof.
  intros H Hs. unfold MsSqlClient.connectArg_of. rewrite H.
  destruct (String.eqb_spec s ""); [contradiction | reflexivity].
Qed.

(** C7.  For the Postgres and SQL-Server clients a non-empty connection
    string is all that [connect] gives the driver: host, port, user and
    password play no part.  The embedded-file client opens a path computed
    from [filePath] and [database] alone: the file path when there is one,
    else the database name when it is not empty, else [:memory:]. *)
Theorem C7_connection_string_overrides :
  (forall v, v = postgres \/ v = mssql -> honours_connection_string v)
  /\ (forall drv cfg s,
        connectionString cfg = Some s -> s <> "" ->
        connect_calls postgres drv cfg
          = [PostgresClient.NewPool (PostgresClient.ByConnectionString s)])
  /\ (forall drv cfg s,
        connectionString cfg = Some s -> s <> "" ->
        connect_calls mssql drv cfg
          = [MsSqlClient.Connect (MsSqlClient.ByConnectionString s)])
  /\ (forall drv a b,
        filePath a = filePath b -> database a = database b ->
        connect_calls sqlite drv a = connect_calls sqlite drv b)
  /\ (forall drv cfg path,
        filePath cfg = Some path -> path <> "" ->
        connect_calls sqlite drv cfg = [SqliteClient.Open path])
  /\ (forall drv cfg,
        filePath cfg = None \/ filePath cfg = Some "" -> database cfg <> "" ->
        connect_calls sqlite drv cfg = [SqliteClient.Open (database cfg)])
  /\ (forall drv cfg,
        filePath cfg = None \/ filePath cfg = Some "" -> database cfg = "" ->
        connect_calls sqlite drv cfg = [SqliteClient.Open ":memory:"]).
Proof.
  assert (P : forall drv cfg s,
             connectionString cfg = Some s -> s <> "" ->
             connect_calls postgres drv cfg
             = [PostgresClient.NewPool (PostgresClient.ByConnectionString s)]).
  { intros drv cfg s H Hs. rewrite pg_connect_calls.
    now rewrite (pg_poolConfig_string cfg s). }
  assert (Q : forall drv cfg s,
             connectionString cfg = Some s -> s <> "" ->
             connect_calls mssql drv cfg
             = [MsSqlClient.Connect (MsSqlClient.ByConnectionString s)]).
  { intros drv cfg s H Hs. rewrite mssql_connect_calls.
    now rewrite (mssql_connectArg_string cfg s). }
  split; [|split; [exact P | split; [exact Q | split; [|split; [|split]]]]].
  - intros v [-> | ->] drv a s Ha Hs; split.
    + intros b (_ & _ & _ & Hc & _). rewrite Ha in Hc.
      rewrite (P drv a s), (P drv b s); auto.
    + intros s' Hs' Hne. rewrite (P drv a s), (P drv _ s'); auto. congruence.
    + intros b (_ & _ & _ & Hc & _). rewrite Ha in Hc.
      rewrite (Q drv a s), (Q drv b s); auto.
    + intros s' Hs' Hne. rewrite (Q drv a s), (Q drv _ s'); auto. congruence.
  - intros drv a b Hf Hd. rewrite !sqlite_connect_calls.
    unfold SqliteClient.filePath_of. now rewrite Hf, Hd.
  - intros drv cfg path Hf Hp. rewrite sqlite_connect_calls.
    unfold SqliteClient.filePath_of. rewrite Hf. cbn [or_string].
    destruct (String.eqb_spec path ""); [contradiction | reflexivity].
  - intros drv cfg Hf Hd. rewrite sqlite_connect_calls.
    unfold SqliteClient.filePath_of.
    destruct Hf as [-> | ->]; cbn [or_string String.eqb];
      destruct (String.eqb_spec (database cfg) ""); try contradiction; reflexivity.
  - intros drv cfg Hf Hd. rewrite sqlite_connect_calls.
    unfold SqliteClient.filePath_of. rewrite Hd.
    destruct Hf as [-> | ->]; reflexivity.
Qed.

Lemma C7_witness :
  connect_calls postgres pg_reliable (both_config "postgres" "postgres://u:p@h:1/d")
    = [PostgresClient.NewPool (PostgresClient.ByConnectionString "postgres://u:p@h:1/d")]
  /\ connect_calls mssql mssql_reliable (both_config "mssql" "Server=h;Database=d")
    = [MsSqlClient.Connect (MsSqlClient.ByConnectionString "Server=h;Database=d")]
  /\ connect_calls sqlite sqlite_reliable (both_config "sqlite" "file:a.db")
    = connect_calls sqlite sqlite_reliable (bare_config "sqlite" "test_db")
  /\ connect_calls postgres pg_reliable
       (set_connectionString (Some "postgres://other") (both_config "postgres" "postgres://u:p@h:1/d"))
     <> connect_calls postgres pg_reliable (both_config "postgres" "postgres://u:p@h:1/d")
  /\ connect_calls sqlite sqlite_reliable file_config = [SqliteClient.Open "data/app.db"]
  /\ connect_calls sqlite sqlite_reliable (both_config "sqlite" "file:a.db")
     = [SqliteClient.Open "test_db"]
  /\ connect_calls sqlite sqlite_reliable (bare_config "sqlite" "")
     = [SqliteClient.Open ":memory:"].
Proof.
  destruct C7_connection_string_overrides as (H & P & Q & S & F & D & M).
  split; [|split; [|split; [|split; [|split; [|split]]]]].
  - apply P; [reflexivity | discriminate].
  - apply Q; [reflexivity | discriminate].
  - apply S; reflexivity.
  - apply (H postgres (or_introl eq_refl) pg_reliable
             (both_config "postgres" "postgres://u:p@h:1/d") "postgres://u:p@h:1/d");
      [reflexivity | discriminate | discriminate | discriminate].
  - apply (F sqlite_reliable file_config "data/app.db"); [reflexivity | discriminate].
  - apply (D sqlite_reliable (both_config "sqlite" "file:a.db"));
      [left; reflexivity | discriminate].
  - apply (M sqlite_reliable (bare_config "sqlite" "")); [left; reflexivity | reflexivity].
Defined.

(** The embedded-file client never looks at the connection string, and the
    MySQL client builds its pool from the discrete fields even when a
    connection string is configured. *)
Lemma C7_counterexample :
  ~ honours_connection_string sqlite /\ ~ honours_connection_string mysql.
Proof.
  split.
  - intros H.
    destruct (H sqlite_reliable (both_config "sqlite" "file:a.db") "file:a.db")
      as [_ H2]; [reflexivity | discriminate |].
    apply (H2 "file:b.db"); [discriminate | discriminate | reflexivity].
  - intros H.
    destruct (H mysql_reliable (both_config "mysql" "mysql://u:p@h:1/d") "mysql://u:p@h:1/d")
      as [_ H2]; [reflexivity | discriminate |].
    apply (H2 "mysql://elsewhere"); [discriminate | discriminate | reflexivity].
Qed.

(** With a connection string configured, the MySQL client still connects to
    the configured host with the configured credentials. *)
Lemma mysql_connect_uses_discrete_fields :
  connect_calls mysql mysql_reliable (both_config "mysql" "mysql://u:p@h:1/d")
  = [MySqlClient.CreatePool
       {| MySqlClient.o_host := Some "db.internal";
          MySqlClient.o_port := Int 6000;
          MySqlClient.o_database := "test_db";
          MySqlClient.o_user := Some "tester";
          MySqlClient.o_password := Some "secret";
          MySqlClient.o_connectionLimit := Int 10;
          MySqlClient.o_ssl := None |}].
Proof. reflexivity. Qed.

(** *** [disconnect] *)

(** A [disconnect] that returns, on an instance with no transaction in
    progress, leaves the fields a fresh instance has. *)
Lemma disconnect_idle (v : Variant) (drv : Driver (Call (class_of v)) (Reply (class_of v)))
    (s s1 : Self (Fields (class_of v)) (Call (class_of v))) :
  idle (class_of v) (this s) = true ->
  disconnect (class_of v) drv s = (Ret tt, s1) ->
  this s1 = new (class_of v) (config_of (class_of v) (this s)).
Proof.
  intros Hidle H. destruct s as [f h].
  destruct v; cbn in *.
  - destruct f as [p c cfg t]. cbn in Hidle. destruct t; [discriminate |].
    unfold PostgresClient.disconnect in H. run_in H. cbn in H.
    destruct c, p; cbn in H; repeat ask_driver drv H; inversion H; reflexivity.
  - destruct f as [p c cfg t]. cbn in Hidle. destruct t; [discriminate |].
    unfold MySqlClient.disconnect in H. run_in H. cbn in H.
    destruct c, p; cbn in H; repeat ask_driver drv H; inversion H; reflexivity.
  - destruct f as [p c cfg t]. cbn in Hidle. destruct t; [discriminate |].
    unfold MsSqlClient.disconnect in H. run_in H. cbn in H.
    destruct c, p; cbn in H; repeat ask_driver drv H; inversion H; reflexivity.
  - destruct f as [d cfg].
    unfold SqliteClient.disconnect in H. run_in H. cbn in H.
    destruct d; cbn in H; repeat ask_driver drv H; inversion H; reflexivity.
Qed.

(** On an instance in its initial state, [disconnect] does nothing. *)
Lemma disconnect_fresh (v : Variant) (drv : Driver (Call (class_of v)) (Reply (class_of v)))
    (cfg : DatabaseConfig) (h : list (Call (class_of v))) :
  no_op (disconnect (class_of v) drv) (mkSelf (new (class_of v) cfg) h).
Proof. destruct v; reflexivity. Qed.

(** [connect] does not touch the transaction flag. *)
Lemma connect_idle (v : Variant) (drv : Driver (Call (class_of v)) (Reply (class_of v)))
    (s : Self (Fields (class_of v)) (Call (class_of v))) :
  idle (class_of v) (this (snd (connect (class_of v) drv s))) = idle (class_of v) (this s).
Proof.
  destruct s as [f h].
  destruct v; cbn in *; try reflexivity;
    try unfold PostgresClient.connect; try unfold MySqlClient.connect;
    try unfold MsSqlClient.connect;
    run;
    match goal with |- context [match ?l f with _ => _ end] => destruct (l f) end;
    cbn; try reflexivity;
    match goal with |- context [drv ?h ?c] => destruct (drv h c) end; reflexivity.
Qed.

(** On a connected instance with no transaction in progress, [query] and
    [execute] go to the driver. *)
Lemma query_asks (v : Variant) (drv : Driver (Call (class_of v)) (Reply (class_of v)))
    (s : Self (Fields (class_of v)) (Call (class_of v)))
    (sql : string) (params : option (list value)) :
  link (class_of v) (this s) <> None ->
  idle (class_of v) (this s) = true ->
  asks (query (class_of v) drv sql params) s
  /\ asks (execute (class_of v) drv sql params) s.
Proof.
  intros Hl Hi. destruct s as [f h]. unfold asks.
  destruct v; cbn in *.
  - destruct f as [[p|] c cfg t]; [|contradiction]. cbn in Hi. destruct t; [discriminate |].
    unfold PostgresClient.execute, PostgresClient.query. run. cbn.
    match goal with |- context [drv ?h ?c] => destruct (drv h c) end;
      cbn; split; eexists _, []; reflexivity.
  - destruct f as [[p|] c cfg t]; [|contradiction]. cbn in Hi. destruct t; [discriminate |].
    unfold MySqlClient.execute, MySqlClient.query, MySqlClient.conn_execute. run. cbn.
    match goal with |- context [drv ?h ?c] => destruct (drv h c) as [[? ?]|] end;
      cbn; split; eexists _, []; reflexivity.
  - destruct f as [[p|] c cfg t]; [|contradiction]. cbn in Hi. destruct t; [discriminate |].
    unfold MsSqlClient.execute, MsSqlClient.query. run. cbn.
    match goal with |- context [drv ?h ?c] => destruct (drv h c) end;
      cbn; split; eexists _, []; reflexivity.
  - destruct f as [[d|] cfg]; [|contradiction].
    unfold SqliteClient.execute, SqliteClient.query. run. cbn.
    match goal with |- context [drv ?h ?c] => destruct (drv h c) end; cbn.
    + split;
        match goal with |- context [drv ?h ?c] => destruct (drv h c) end;
        cbn; eexists _, [_]; rewrite <- app_assoc; reflexivity.
    + split; eexists _, []; reflexivity.
Qed.

(** For each of the four providers, on an instance with no transaction
    in progress, a [disconnect] that returns leaves the instance in the state
    of a freshly constructed one: a further [disconnect] does nothing,
    [query] and [execute] raise the not-connected error, and a [connect]
    that succeeds yields an instance with a pool whose [query] and [execute]
    reach the driver. *)
Theorem disconnect_restores_initial_state_when_idle (v : Variant)
    (drv : Driver (Call (class_of v)) (Reply (class_of v)))
    (s s1 : Self (Fields (class_of v)) (Call (class_of v))) :
  idle (class_of v) (this s) = true ->
  disconnect (class_of v) drv s = (Ret tt, s1) ->
  this s1 = new (class_of v) (config_of (class_of v) (this s))
  /\ no_op (disconnect (class_of v) drv) s1
  /\ (forall sql params,
        refuses (query (class_of v) drv sql params) s1
        /\ refuses (execute (class_of v) drv sql params) s1)
  /\ (forall s2,
        connect (class_of v) drv s1 = (Ret tt, s2) ->
        link (class_of v) (this s2) <> None
        /\ forall sql params,
             asks (query (class_of v) drv sql params) s2
             /\ asks (execute (class_of v) drv sql params) s2).
Proof.
  intros Hidle H. pose proof (disconnect_idle v drv s s1 Hidle H) as E.
  destruct s1 as [f1 h1]. cbn [this] in E. subst f1.
  split; [reflexivity | split; [apply disconnect_fresh | split]].
  - intros sql params. apply guard. destruct v; reflexivity.
  - intros s2 Hc.
    pose proof (connect_outcome v drv (mkSelf (new (class_of v) (config_of (class_of v) (this s))) h1)) as O.
    pose proof (connect_idle v drv (mkSelf (new (class_of v) (config_of (class_of v) (this s))) h1)) as I.
    rewrite Hc in O, I. cbn [snd this] in I.
    split; [exact O |]. intros sql params. apply query_asks; [exact O |].
    rewrite I. destruct v; reflexivity.
Qed.

Lemma disconnect_restores_initial_state_when_idle_witness :
  let fresh := mkSelf (PostgresClient.new (bare_config "postgres" "test_db")) [] in
  let connected := snd (PostgresClient.connect pg_reliable fresh) in
  let closed := snd (PostgresClient.disconnect pg_reliable connected) in
  this closed = PostgresClient.new (bare_config "postgres" "test_db")
  /\ no_op (PostgresClient.disconnect pg_reliable) closed
  /\ (forall sql params,
        refuses (PostgresClient.query pg_reliable sql params) closed
        /\ refuses (PostgresClient.execute pg_reliable sql params) closed)
  /\ (forall s2,
        PostgresClient.connect pg_reliable closed = (Ret tt, s2) ->
        PostgresClient.pool (this s2) <> None
        /\ forall sql params,
             asks (PostgresClient.query pg_reliable sql params) s2
             /\ asks (PostgresClient.execute pg_reliable sql params) s2).
Proof.
  intros fresh connected closed.
  apply (disconnect_restores_initial_state_when_idle postgres pg_reliable connected closed);
    reflexivity.
Defined.

(** *** [transaction] *)

Lemma pg_transaction_contract (drv : Driver PostgresClient.Call PostgresClient.Reply)
    {T : Type} (fn : M PostgresClient.St T) (self : PostgresClient.Fields)
    (past : list PostgresClient.Call) (p c : Handle) :
  PostgresClient.pool self = Some p ->
  drv past (PostgresClient.PoolConnect p) = Ret c ->
  (forall h c', drv h (PostgresClient.ClientRelease c') = Ret tt) ->
  (forall s, this (snd (fn s)) = this s) ->
  pg_contract drv fn self past p c.
Proof.
  intros connected acquired release_ok frame. unfold pg_contract.
  unfold PostgresClient.transaction. run. rewrite connected. cbn. rewrite acquired. cbn.
  unfold try_finally, try_catch, PostgresClient.client_query, PostgresClient.client_release.
  run. cbn.
  split; [|split].
  - destruct (drv _ (PostgresClient.ClientQuery c "BEGIN" None)) eqn:B; cbn.
    + body_frame fn frame.
      outcomes drv ltac:(rewrite ?release_ok); (split; [reflexivity | eexists; reflexivity]).
    + outcomes drv ltac:(rewrite ?release_ok); (split; [reflexivity | eexists; reflexivity]).
  - intros r0 v [fb hb] r1 B Hfn Cm. rewrite B. cbn. rewrite Hfn. cbn.
    body_result fn frame Hfn.
    rewrite Cm. cbn. rewrite release_ok. cbn. rewrite <- app_assoc. reflexivity.
  - intros r0 e [fb hb] r1 B Hfn Rb. rewrite B. cbn. rewrite Hfn. cbn.
    body_result fn frame Hfn.
    rewrite Rb. cbn. rewrite release_ok. cbn. rewrite <- app_assoc. reflexivity.
Qed.

Lemma mysql_transaction_contract (drv : Driver MySqlClient.Call MySqlClient.Reply)
    {T : Type} (fn : M MySqlClient.St T) (self : MySqlClient.Fields)
    (past : list MySqlClient.Call) (p c : Handle) :
  MySqlClient.pool self = Some p ->
  drv past (MySqlClient.GetConnection p) = Ret c ->
  (forall h c', drv h (MySqlClient.Release c') = Ret tt) ->
  (forall s, this (snd (fn s)) = this s) ->
  mysql_contract drv fn self past p c.
Proof.
  intros connected acquired release_ok frame. unfold mysql_contract.
  unfold MySqlClient.transaction. run. rewrite connected. cbn. rewrite acquired. cbn.
  unfold try_finally, try_catch, MySqlClient.connection_beginTransaction,
    MySqlClient.connection_commit, MySqlClient.connection_rollback,
    MySqlClient.connection_release.
  run. cbn.
  split; [|split].
  - destruct (drv _ (MySqlClient.BeginTransaction c)) eqn:B; cbn.
    + body_frame fn frame.
      outcomes drv ltac:(rewrite ?release_ok); (split; [reflexivity | eexists; reflexivity]).
    + outcomes drv ltac:(rewrite ?release_ok); (split; [reflexivity | eexists; reflexivity]).
  - intros v [fb hb] B Hfn Cm. rewrite B. cbn. rewrite Hfn. cbn.
    body_result fn frame Hfn.
    rewrite Cm. cbn. rewrite release_ok. cbn. rewrite <- app_assoc. reflexivity.
  - intros e [fb hb] B Hfn Rb. rewrite B. cbn. rewrite Hfn. cbn.
    body_result fn frame Hfn.
    rewrite Rb. cbn. rewrite release_ok. cbn. rewrite <- app_assoc. reflexivity.
Qed.

Lemma mssql_transaction_contract (drv : Driver MsSqlClient.Call MsSqlClient.Reply)
    {T : Type} (fn : M MsSqlClient.St T) (self : MsSqlClient.Fields)
    (past : list MsSqlClient.Call) (p t : Handle) :
  MsSqlClient.pool self = Some p ->
  drv past (MsSqlClient.NewTransaction p) = Ret t ->
  (forall s, this (snd (fn s)) = this s) ->
  mssql_contract drv fn self past p t.
Proof.
  intros connected acquired frame. unfold mssql_contract.
  unfold MsSqlClient.transaction. run. rewrite connected. cbn. rewrite acquired. cbn.
  unfold try_finally, try_catch, MsSqlClient.currentTransaction_begin,
    MsSqlClient.currentTransaction_commit, MsSqlClient.currentTransaction_rollback.
  run. cbn.
  split; [|split].
  - destruct (drv _ (MsSqlClient.Begin t)) eqn:B; cbn.
    + body_frame fn frame. outcomes drv idtac; reflexivity.
    + outcomes drv idtac; reflexivity.
  - intros v [fb hb] B Hfn Cm. rewrite B. cbn. rewrite Hfn. cbn.
    body_result fn frame Hfn.
    rewrite Cm. reflexivity.
  - intros e [fb hb] B Hfn Rb. rewrite B. cbn. rewrite Hfn. cbn.
    body_result fn frame Hfn.
    rewrite Rb. reflexivity.
Qed.

(** [query] and [execute] leave the fields of the instance alone, so a body
    made of them satisfies the frame condition of the contracts. *)
Lemma pg_query_frame (drv : Driver PostgresClient.Call PostgresClient.Reply)
    (sql : string) (params : option (list value)) (s : PostgresClient.St) :
  this (snd (PostgresClient.query drv sql params s)) = this s
  /\ this (snd (PostgresClient.execute drv sql params s)) = this s.
Proof.
  destruct s as [[p c cfg t] h].
  unfold PostgresClient.execute, PostgresClient.query. run. cbn.
  destruct p, t, c; cbn; try (split; reflexivity);
    match goal with |- context [drv ?h ?c] => destruct (drv h c) end; split; reflexivity.
Qed.

Lemma mysql_query_frame (drv : Driver MySqlClient.Call MySqlClient.Reply)
    (sql : string) (params : option (list value)) (s : MySqlClient.St) :
  this (snd (MySqlClient.query drv sql params s)) = this s
  /\ this (snd (MySqlClient.execute drv sql params s)) = this s.
Proof.
  destruct s as [[p c cfg t] h].
  unfold MySqlClient.execute, MySqlClient.query, MySqlClient.conn_execute. run. cbn.
  destruct p, t, c; cbn; try (split; reflexivity);
    match goal with |- context [drv ?h ?c] => destruct (drv h c) as [[? ?]|] end;
    split; reflexivity.
Qed.

Lemma mssql_query_frame (drv : Driver MsSqlClient.Call MsSqlClient.Reply)
    (sql : string) (params : option (list value)) (s : MsSqlClient.St) :
  this (snd (MsSqlClient.query drv sql params s)) = this s
  /\ this (snd (MsSqlClient.execute drv sql params s)) = this s.
Proof.
  destruct s as [[p c cfg t] h].
  unfold MsSqlClient.execute, MsSqlClient.query. run. cbn.
  destruct p, t; cbn; try (split; reflexivity);
    match goal with |- context [drv ?h ?c] => destruct (drv h c) end; split; reflexivity.
Qed.

(** C3.  For the Postgres, MySQL and SQL-Server clients, on a connected
    instance to which the driver hands a dedicated handle, and for every body
    that leaves the fields of the instance as it found them: [transaction]
    clears the slot on every exit, releasing the handle last (Postgres,
    MySQL; release being a call that does not fail); it returns the body's
    result after committing when begin, body and commit succeed; and it
    re-raises the body's own exception after rolling back when the body throws
    and the rollback succeeds. *)
Theorem C3_transaction_scoped :
  (forall (drv : Driver PostgresClient.Call PostgresClient.Reply) (T : Type)
          (fn : M PostgresClient.St T) self past p c,
     PostgresClient.pool self = Some p ->
     drv past (PostgresClient.PoolConnect p) = Ret c ->
     (forall h c', drv h (PostgresClient.ClientRelease c') = Ret tt) ->
     (forall s, this (snd (fn s)) = this s) ->
     pg_contract drv fn self past p c)
  /\ (forall (drv : Driver MySqlClient.Call MySqlClient.Reply) (T : Type)
             (fn : M MySqlClient.St T) self past p c,
        MySqlClient.pool self = Some p ->
        drv past (MySqlClient.GetConnection p) = Ret c ->
        (forall h c', drv h (MySqlClient.Release c') = Ret tt) ->
        (forall s, this (snd (fn s)) = this s) ->
        mysql_contract drv fn self past p c)
  /\ (forall (drv : Driver MsSqlClient.Call MsSqlClient.Reply) (T : Type)
             (fn : M MsSqlClient.St T) self past p t,
        MsSqlClient.pool self = Some p ->
        drv past (MsSqlClient.NewTransaction p) = Ret t ->
        (forall s, this (snd (fn s)) = this s) ->
        mssql_contract drv fn self past p t).
Proof.
  split; [|split]; intros.
  - now apply pg_transaction_contract.
  - now apply mysql_transaction_contract.
  - now apply mssql_transaction_contract.
Qed.

(** The contract at work: an insert committed on Postgres, a body that
    throws rolled back on MySQL, a plain value returned on SQL Server. *)
Lemma C3_witness :
  PostgresClient.transaction pg_reliable
      (PostgresClient.execute pg_reliable "INSERT INTO users (name) VALUES (?)"
         (Some [VStr "Ada"]))
      pg_connected
    = (Ret (Int 0),
       mkSelf (this pg_connected)
         (history pg_connected ++
          [PostgresClient.PoolConnect 0;
           PostgresClient.ClientQuery 1 "BEGIN" None;
           PostgresClient.ClientQuery 1 "INSERT INTO users (name) VALUES (?)"
             (Some [VStr "Ada"]);
           PostgresClient.ClientQuery 1 "COMMIT" None;
           PostgresClient.ClientRelease 1]))
  /\ MySqlClient.transaction mysql_reliable
       (MySqlClient.execute mysql_reliable "DELETE FROM users" None ;;; throw boom)
       mysql_connected
     = (Throw boom : Res number,
        mkSelf (this mysql_connected)
          (history mysql_connected ++
           [MySqlClient.GetConnection 0;
            MySqlClient.BeginTransaction 1;
            MySqlClient.ConnExecute 1 "DELETE FROM users" None;
            MySqlClient.Rollback 1;
            MySqlClient.Release 1]))
  /\ MsSqlClient.transaction mssql_reliable (ret (VNum 1)) mssql_connected
     = (Ret (VNum 1),
        mkSelf (this mssql_connected)
          (history mssql_connected ++
           [MsSqlClient.NewTransaction 0; MsSqlClient.Begin 1; MsSqlClient.Commit 1])).
Proof.
  destruct C3_transaction_scoped as (PG & MY & MS).
  split; [|split].
  - destruct (PG pg_reliable number
                (PostgresClient.execute pg_reliable "INSERT INTO users (name) VALUES (?)"
                   (Some [VStr "Ada"]))
                (this pg_connected) (history pg_connected) 0 1) as (_ & Normal & _).
    + reflexivity.
    + reflexivity.
    + reflexivity.
    + intros s. apply pg_query_frame.
    + exact (Normal pg_empty (Int 0) _ pg_empty eq_refl eq_refl eq_refl).
  - destruct (MY mysql_reliable number
                (MySqlClient.execute mysql_reliable "DELETE FROM users" None ;;; throw boom)
                (this mysql_connected) (history mysql_connected) 0 1) as (_ & _ & Failing).
    + reflexivity.
    + reflexivity.
    + reflexivity.
    + intros s. unfold bind, throw.
      pose proof (proj2 (mysql_query_frame mysql_reliable "DELETE FROM users" None s)) as F.
      destruct (MySqlClient.execute mysql_reliable "DELETE FROM users" None s) as [[|] ?];
        exact F.
    + exact (Failing boom _ eq_refl eq_refl eq_refl).
  - destruct (MS mssql_reliable value (ret (VNum 1))
                (this mssql_connected) (history mssql_connected) 0 1) as (_ & Normal & _).
    + reflexivity.
    + reflexivity.
    + reflexivity.
    + exact (Normal (VNum 1) _ eq_refl eq_refl eq_refl).
Defined.

(** Two runs on Postgres that break the unrestricted reading.  First, a
    body that itself runs a transaction on the same instance and returns
    normally: the inner cleanup empties the slot, so the outer [COMMIT] is
    never sent, the outer handle [1] is never released, and the caller gets a
    [TypeError] instead of the body's result.  Second, a body that throws
    [boom] while the driver rejects [ROLLBACK]: the caller gets the driver's
    error, not [boom]. *)
Lemma C3_counterexample :
  PostgresClient.transaction pg_reliable
      (PostgresClient.transaction pg_reliable (ret (VNum 1)))
      pg_connected
    = (Throw (null_deref "release"),
       mkSelf (this pg_connected)
         (history pg_connected ++
          [PostgresClient.PoolConnect 0;
           PostgresClient.ClientQuery 1 "BEGIN" None;
           PostgresClient.PoolConnect 0;
           PostgresClient.ClientQuery 3 "BEGIN" None;
           PostgresClient.ClientQuery 3 "COMMIT" None;
           PostgresClient.ClientRelease 3]))
  /\ PostgresClient.transaction
       (failing_on (pg_is_statement "ROLLBACK") (DriverError 7) pg_reliable)
       (throw boom)
       pg_connected
     = (Throw (DriverError 7) : Res value,
        mkSelf (this pg_connected)
          (history pg_connected ++
           [PostgresClient.PoolConnect 0;
            PostgresClient.ClientQuery 1 "BEGIN" None;
            PostgresClient.ClientQuery 1 "ROLLBACK" None;
            PostgresClient.ClientRelease 1])).
Proof. split; reflexivity. Qed.

(** C10.  [disconnect] called while the instance holds a transaction
    handle, as a transaction body does when it disconnects: it releases the
    handle, empties the slot and closes the pool, and returns, but it leaves
    the transaction flag set.  The instance is not in its initial state
    ([closed]); [transaction] ends with the same fields ([after]), its own
    clean-up stopping at the empty slot; and after a [connect] that succeeds
    ([again]) [query] dereferences the empty slot instead of reaching the
    driver. *)
Theorem C10_disconnect_keeps_the_transaction_flag :
  let inside :=
    mkSelf (PostgresClient.set_isTransaction true
              (PostgresClient.set_client (Some 1) (this pg_connected)))
      (history pg_connected ++
       [PostgresClient.PoolConnect 0; PostgresClient.ClientQuery 1 "BEGIN" None]) in
  let closed := snd (PostgresClient.disconnect pg_reliable inside) in
  let after :=
    snd (PostgresClient.transaction pg_reliable
           (PostgresClient.disconnect pg_reliable) pg_connected) in
  let again := snd (PostgresClient.connect pg_reliable after) in
  PostgresClient.disconnect pg_reliable inside = (Ret tt, closed)
  /\ this closed
     = PostgresClient.set_isTransaction true
         (PostgresClient.new (bare_config "postgres" "test_db"))
  /\ this closed <> PostgresClient.new (bare_config "postgres" "test_db")
  /\ this after = this closed
  /\ PostgresClient.connect pg_reliable after = (Ret tt, again)
  /\ PostgresClient.pool (this again) = Some 5
  /\ PostgresClient.query pg_reliable "SELECT 1" None again
     = (Throw (null_deref "query"), again).
Proof. repeat split; try reflexivity. discriminate. Qed.

(** *** Further properties of [transaction] *)

(** On an instance without a pool, [transaction] raises the not-connected
    error: nothing is asked of the driver and the body does not run. *)
Theorem transaction_before_connect (k : Pooled) (drv : PooledDriver k) (T : Type)
    (fn : M (PooledSt k) T) (s : PooledSt k) :
  link (class_of (variant_of k)) (this s) = None ->
  transaction_of k drv fn s = (Throw not_connected, s).
Proof.
  destruct s as [f h]. destruct k; cbn in *; intros H;
    [ unfold PostgresClient.transaction | unfold MySqlClient.transaction
    | unfold MsSqlClient.transaction ];
    run; rewrite H; reflexivity.
Qed.

Lemma transaction_before_connect_witness :
  PostgresClient.transaction pg_reliable
    (PostgresClient.execute pg_reliable "DELETE FROM users" None)
    (mkSelf (PostgresClient.new (bare_config "postgres" "test_db")) [])
  = (Throw not_connected, mkSelf (PostgresClient.new (bare_config "postgres" "test_db")) []).
Proof.
  apply (transaction_before_connect pooled_postgres pg_reliable number). reflexivity.
Defined.

(** When the pool refuses to hand out a handle, [transaction] fails with
    the driver's error before touching the slot or the flag: no transaction
    is begun and the body does not run. *)
Theorem transaction_acquire_fails (k : Pooled) (drv : PooledDriver k) (T : Type)
    (fn : M (PooledSt k) T) (self : PooledFields k) (past : list (PooledCall k))
    (p : Handle) (e : exn) :
  link (class_of (variant_of k)) self = Some p ->
  drv past (acquire_call k p) = Throw e ->
  transaction_of k drv fn (mkSelf self past)
  = (Throw e, mkSelf self (past ++ [acquire_call k p])).
Proof.
  destruct k; cbn in *; intros H A;
    [ unfold PostgresClient.transaction | unfold MySqlClient.transaction
    | unfold MsSqlClient.transaction ];
    run; rewrite H; cbn; rewrite A; reflexivity.
Qed.

Lemma transaction_acquire_fails_witness :
  PostgresClient.transaction (failing_on pg_is_PoolConnect (DriverError 53) pg_reliable)
    (PostgresClient.execute pg_reliable "DELETE FROM users" None)
    pg_connected
  = (Throw (DriverError 53),
     mkSelf (this pg_connected) (history pg_connected ++ [PostgresClient.PoolConnect 0])).
Proof.
  apply (transaction_acquire_fails pooled_postgres
           (failing_on pg_is_PoolConnect (DriverError 53) pg_reliable) number
           (PostgresClient.execute pg_reliable "DELETE FROM users" None)
           (this pg_connected) (history pg_connected) 0 (DriverError 53));
    reflexivity.
Defined.

(** Outside a transaction a statement goes to the pool; inside the body of
    a transaction that was begun on the handle [c], the same [query] goes to
    [c], right after the begin. *)
Theorem statements_routed_to_the_transaction_handle (k : Pooled) (drv : PooledDriver k)
    (self : PooledFields k) (past : list (PooledCall k)) (p c : Handle)
    (sql : string) (params : option (list value)) :
  link (class_of (variant_of k)) self = Some p ->
  idle (class_of (variant_of k)) self = true ->
  history (snd (query (class_of (variant_of k)) drv sql params (mkSelf self past)))
    = past ++ [on_pool k p sql params]
  /\ (acquired k drv past p c ->
      (exists r, drv (past ++ [acquire_call k p]) (begin_call k c) = Ret r) ->
      exists rest,
        history (snd (transaction_of k drv (query (class_of (variant_of k)) drv sql params)
                        (mkSelf self past)))
        = past ++ [acquire_call k p; begin_call k c; on_handle k c sql params] ++ rest).
Proof.
  destruct k; cbn in *; intros Hp Hi.
  - destruct self as [pl cl cfg t]. cbn in *. subst pl. destruct t; [discriminate |].
    split.
    + unfold PostgresClient.query. run. cbn.
      match goal with |- context [drv ?h ?c] => destruct (drv h c) end; reflexivity.
    + intros A [r B]. unfold PostgresClient.transaction. run. cbn. rewrite A. cbn.
      unfold try_finally, try_catch, PostgresClient.client_query,
        PostgresClient.client_release, PostgresClient.query.
      run. cbn. rewrite B.
      outcomes drv idtac; repeat rewrite <- app_assoc; cbn; eexists; reflexivity.
  - destruct self as [pl cl cfg t]. cbn in *. subst pl. destruct t; [discriminate |].
    split.
    + unfold MySqlClient.query, MySqlClient.conn_execute. run. cbn.
      match goal with |- context [drv ?h ?c] => destruct (drv h c) as [[? ?]|] end;
        reflexivity.
    + intros A [r B]. unfold MySqlClient.transaction. run. cbn. rewrite A. cbn.
      unfold try_finally, try_catch, MySqlClient.connection_beginTransaction,
        MySqlClient.connection_commit, MySqlClient.connection_rollback,
        MySqlClient.connection_release, MySqlClient.query, MySqlClient.conn_execute.
      run. cbn. rewrite B. cbn.
      match goal with |- context [drv ?h (MySqlClient.ConnExecute ?a ?b ?d)] =>
        destruct (drv h (MySqlClient.ConnExecute a b d)) as [[? ?]|] end;
        outcomes drv idtac; repeat rewrite <- app_assoc; cbn; eexists; reflexivity.
  - destruct self as [pl cl cfg t]. cbn in *. subst pl. destruct t; [discriminate |].
    split.
    + unfold MsSqlClient.query. run. cbn.
      match goal with |- context [drv ?h ?c] => destruct (drv h c) end; reflexivity.
    + intros A [r B]. unfold MsSqlClient.transaction. run. cbn. rewrite A. cbn.
      unfold try_finally, try_catch, MsSqlClient.currentTransaction_begin,
        MsSqlClient.currentTransaction_commit, MsSqlClient.currentTransaction_rollback,
        MsSqlClient.query.
      run. cbn. rewrite B.
      outcomes drv idtac; repeat rewrite <- app_assoc; cbn; eexists; reflexivity.
Qed.

Lemma statements_routed_witness :
  history (snd (MySqlClient.query mysql_reliable "SELECT 1" None mysql_connected))
    = history mysql_connected ++ [MySqlClient.PoolExecute 0 "SELECT 1" None]
  /\ exists rest,
       history (snd (MySqlClient.transaction mysql_reliable
                       (MySqlClient.query mysql_reliable "SELECT 1" None) mysql_connected))
       = history mysql_connected ++
         [MySqlClient.GetConnection 0; MySqlClient.BeginTransaction 1;
          MySqlClient.ConnExecute 1 "SELECT 1" None] ++ rest.
Proof.
  destruct (statements_routed_to_the_transaction_handle pooled_mysql mysql_reliable
              (this mysql_connected) (history mysql_connected) 0 1 "SELECT 1" None)
    as [Out In]; [reflexivity | reflexivity |].
  split; [exact Out |]. apply In; [reflexivity | exists tt; reflexivity].
Defined.

(** *** Further properties of [disconnect] and [connect] *)

(** With a transaction handle still held, a [disconnect] that the driver
    accepts first releases the handle and then closes the pool (Postgres,
    MySQL); for SQL Server it closes the pool and only forgets the
    transaction object, which is neither committed nor rolled back. *)
Theorem disconnect_releases_then_closes (k : Pooled) (drv : PooledDriver k)
    (self : PooledFields k) (past : list (PooledCall k)) (p c : Handle) :
  link (class_of (variant_of k)) self = Some p ->
  slot_of k self = Some c ->
  accepts drv past (release_calls k c ++ [close_call k p]) ->
  disconnect (class_of (variant_of k)) drv (mkSelf self past)
  = (Ret tt, mkSelf (disconnected k self) (past ++ release_calls k c ++ [close_call k p])).
Proof.
  destruct k; cbn in *; intros Hp Hc.
  - intros ([[] R] & [[] E] & _). destruct self as [pl cl cfg t]. cbn in *. subst.
    unfold PostgresClient.disconnect. run. cbn. rewrite R. cbn. rewrite E. cbn.
    now rewrite <- app_assoc.
  - intros ([[] R] & [[] E] & _). destruct self as [pl cl cfg t]. cbn in *. subst.
    unfold MySqlClient.disconnect. run. cbn. rewrite R. cbn. rewrite E. cbn.
    now rewrite <- app_assoc.
  - intros ([[] E] & _). destruct self as [pl cl cfg t]. cbn in *. subst.
    unfold MsSqlClient.disconnect. run. cbn. rewrite E. reflexivity.
Qed.

Lemma disconnect_releases_then_closes_witness :
  MsSqlClient.disconnect mssql_reliable
    (mkSelf (MsSqlClient.set_isTransaction true
               (MsSqlClient.set_currentTransaction (Some 1) (this mssql_connected)))
       (history mssql_connected ++ [MsSqlClient.NewTransaction 0; MsSqlClient.Begin 1]))
  = (Ret tt,
     mkSelf (MsSqlClient.set_isTransaction true
               (MsSqlClient.new (bare_config "mssql" "test_db")))
       ((history mssql_connected ++ [MsSqlClient.NewTransaction 0; MsSqlClient.Begin 1])
        ++ [] ++ [MsSqlClient.PoolClose 0])).
Proof.
  apply (disconnect_releases_then_closes pooled_mssql mssql_reliable
           (MsSqlClient.set_isTransaction true
              (MsSqlClient.set_currentTransaction (Some 1) (this mssql_connected)))
           (history mssql_connected ++ [MsSqlClient.NewTransaction 0; MsSqlClient.Begin 1])
           0 1).
  - reflexivity.
  - reflexivity.
  - cbn. split; [exists tt; reflexivity | exact I].
Defined.

(** A [disconnect] that returns has dropped the pool (or file handle); one
    that throws, because releasing the handle or closing the pool failed, has
    kept it, so the instance still counts as connected. *)
Theorem disconnect_outcome (v : Variant)
    (drv : Driver (Call (class_of v)) (Reply (class_of v)))
    (s : Self (Fields (class_of v)) (Call (class_of v))) :
  match disconnect (class_of v) drv s with
  | (Ret _, s') => link (class_of v) (this s') = None
  | (Throw _, s') => link (class_of v) (this s') = link (class_of v) (this s)
  end.
Proof.
  destruct s as [f h].
  destruct v; cbn in *.
  - destruct f as [p c cfg t]. unfold PostgresClient.disconnect. run. cbn.
    destruct c, p; cbn; outcomes drv idtac; reflexivity.
  - destruct f as [p c cfg t]. unfold MySqlClient.disconnect. run. cbn.
    destruct c, p; cbn; outcomes drv idtac; reflexivity.
  - destruct f as [p c cfg t]. unfold MsSqlClient.disconnect. run. cbn.
    destruct c, p; cbn; outcomes drv idtac; reflexivity.
  - destruct f as [d cfg]. unfold SqliteClient.disconnect. run. cbn.
    destruct d; cbn; outcomes drv idtac; reflexivity.
Qed.

Example disconnect_release_fails :
  PostgresClient.disconnect (failing_on pg_is_ClientRelease (DriverError 9) pg_reliable)
    (mkSelf (PostgresClient.set_client (Some 1) (this pg_connected)) (history pg_connected))
  = (Throw (DriverError 9),
     mkSelf (PostgresClient.set_client (Some 1) (this pg_connected))
       (history pg_connected ++ [PostgresClient.ClientRelease 1])).
Proof. reflexivity. Qed.

Lemma or_number_nonzero (a : option number) (b : number) :
  nonzero b -> nonzero (or_number a b).
Proof.
  intros Hb. destruct a as [[|z|negative]|]; cbn; try exact Hb.
  - destruct (Z.eqb_spec z 0); [exact Hb |]. split; congruence.
  - split; discriminate.
Qed.

Lemma or_string_nonempty (a : option string) (b : string) :
  b <> "" -> or_string a b <> "".
Proof.
  intros Hb. destruct a as [s|]; cbn; [|exact Hb].
  destruct (String.eqb_spec s ""); [exact Hb | assumption].
Qed.

(** Whatever the configuration holds, the numbers [connect] hands to the
    driver are usable: the port, the pool bounds and the connection limit are
    never [0] nor [NaN] (a missing, zero or unparsable value gives way to the
    class's default), and the SQL-Server host is never empty.  A connection
    string that is passed on is never empty either. *)
Theorem connect_requests_are_well_formed (cfg : DatabaseConfig) :
  (forall drv, exists poolConfig,
     connect_calls postgres drv cfg = [PostgresClient.NewPool poolConfig]
     /\ match poolConfig with
        | PostgresClient.ByConnectionString s => connectionString cfg = Some s /\ s <> ""
        | PostgresClient.ByFields _ port _ _ _ _ min max =>
            nonzero port /\ nonzero min /\ nonzero max
        end)
  /\ (forall drv, exists options,
        connect_calls mysql drv cfg = [MySqlClient.CreatePool options]
        /\ nonzero (MySqlClient.o_port options)
        /\ nonzero (MySqlClient.o_connectionLimit options))
  /\ (forall drv, exists arg,
        connect_calls mssql drv cfg = [MsSqlClient.Connect arg]
        /\ match arg with
           | MsSqlClient.ByConnectionString s => connectionString cfg = Some s /\ s <> ""
           | MsSqlClient.ByConfig c =>
               MsSqlClient.c_server c <> ""
               /\ nonzero (MsSqlClient.c_port c)
               /\ nonzero (MsSqlClient.c_pool_min c)
               /\ nonzero (MsSqlClient.c_pool_max c)
           end)
  /\ (forall drv, exists path,
        connect_calls sqlite drv cfg = [SqliteClient.Open path] /\ path <> "").
Proof.
  assert (N : forall z, z <> 0%Z -> nonzero (Int z))
    by (intros z Hz; split; congruence).
  assert (O : forall a z, z <> 0%Z -> nonzero (or_number a (Int z)))
    by (intros a z Hz; apply or_number_nonzero, N, Hz).
  split; [|split; [|split]]; intros drv.
  - eexists. split; [apply pg_connect_calls |].
    unfold PostgresClient.poolConfig_of, PostgresClient.discrete.
    destruct (connectionString cfg) as [s|] eqn:E.
    + destruct (String.eqb_spec s "").
      * split; [|split]; apply O; discriminate.
      * split; [reflexivity | assumption].
    + split; [|split]; apply O; discriminate.
  - eexists. split; [apply mysql_connect_calls |].
    cbn. split; apply O; discriminate.
  - eexists. split; [apply mssql_connect_calls |].
    unfold MsSqlClient.connectArg_of.
    destruct (connectionString cfg) as [s|] eqn:E.
    + destruct (String.eqb_spec s "").
      * cbn. split; [|split; [|split]]; try (apply O; discriminate).
        apply or_string_nonempty. discriminate.
      * split; [reflexivity | assumption].
    + cbn. split; [|split; [|split]]; try (apply O; discriminate).
      apply or_string_nonempty. discriminate.
  - eexists. split; [apply sqlite_connect_calls |].
    unfold SqliteClient.filePath_of. apply or_string_nonempty, or_string_nonempty.
    discriminate.
Qed.

(** *** Results of [query] and [execute] *)

(** MySQL: a statement answered with a row array is reported by [query]
    with its rows and their number, and by [execute] as [0] affected rows;
    a statement answered with a result header is reported by [query] with no
    rows, and by both with the header's affected-row count. *)
Theorem mysql_result_shapes (drv : Driver MySqlClient.Call MySqlClient.Reply)
    (self : MySqlClient.Fields) (past : list MySqlClient.Call) (p : Handle)
    (sql : string) (params : option (list value))
    (answer : MySqlClient.ExecRows) (columns : option (list FieldDef)) :
  MySqlClient.pool self = Some p ->
  MySqlClient.isTransaction self = false ->
  drv past (MySqlClient.PoolExecute p sql params) = Ret (answer, columns) ->
  let after := mkSelf self (past ++ [MySqlClient.PoolExecute p sql params]) in
  match answer with
  | MySqlClient.RowsArray rs =>
      MySqlClient.query drv sql params (mkSelf self past)
        = (Ret {| rows := Some rs; rowCount := Int (Z.of_nat (length rs));
                  fields := option_map (map name) columns |}, after)
      /\ MySqlClient.execute drv sql params (mkSelf self past) = (Ret (Int 0), after)
  | MySqlClient.ResultSetHeader affectedRows =>
      MySqlClient.query drv sql params (mkSelf self past)
        = (Ret {| rows := Some []; rowCount := or_number (Some affectedRows) (Int 0);
                  fields := option_map (map name) columns |}, after)
      /\ MySqlClient.execute drv sql params (mkSelf self past)
         = (Ret (or_number (Some affectedRows) (Int 0)), after)
  end.
Proof.
  intros Hp Ht A after. subst after.
  unfold MySqlClient.execute, MySqlClient.query, MySqlClient.conn_execute. run.
  rewrite Hp. cbn. rewrite Ht. cbn. rewrite A. destruct answer; split; reflexivity.
Qed.

Lemma mysql_result_shapes_witness :
  MySqlClient.query mysql_reliable "SELECT * FROM users" None mysql_connected
    = (Ret {| rows := Some []; rowCount := Int 0; fields := Some [] |},
       mkSelf (this mysql_connected)
         (history mysql_connected ++ [MySqlClient.PoolExecute 0 "SELECT * FROM users" None]))
  /\ MySqlClient.execute mysql_reliable "SELECT * FROM users" None mysql_connected
     = (Ret (Int 0),
        mkSelf (this mysql_connected)
          (history mysql_connected ++ [MySqlClient.PoolExecute 0 "SELECT * FROM users" None])).
Proof.
  apply (mysql_result_shapes mysql_reliable (this mysql_connected) (history mysql_connected)
           0 "SELECT * FROM users" None (MySqlClient.RowsArray []) (Some []));
    reflexivity.
Defined.

(** The embedded-file client prepares a statement before running it: when
    the driver rejects the text, [query] and [execute] fail with that error
    and the statement is never run. *)
Theorem sqlite_prepare_failure (drv : Driver SqliteClient.Call SqliteClient.Reply)
    (self : SqliteClient.Fields) (past : list SqliteClient.Call) (d : Handle)
    (sql : string) (params : option (list value)) (e : exn) :
  SqliteClient.db self = Some d ->
  drv past (SqliteClient.Prepare d sql) = Throw e ->
  SqliteClient.query drv sql params (mkSelf self past)
    = (Throw e, mkSelf self (past ++ [SqliteClient.Prepare d sql]))
  /\ SqliteClient.execute drv sql params (mkSelf self past)
     = (Throw e, mkSelf self (past ++ [SqliteClient.Prepare d sql])).
Proof.
  intros Hd P. unfold SqliteClient.execute, SqliteClient.query. run.
  rewrite Hd. cbn. rewrite P. split; reflexivity.
Qed.

(** For the embedded-file client the reported row count is the number of
    rows returned, and the field names are the keys of the first row, absent
    exactly when there is no row. *)
Theorem sqlite_query_counts_rows (drv : Driver SqliteClient.Call SqliteClient.Reply)
    (sql : string) (params : option (list value)) (s s' : SqliteClient.St)
    (result : QueryResult) :
  SqliteClient.query drv sql params s = (Ret result, s') ->
  exists rs,
    rows result = Some rs
    /\ rowCount result = Int (Z.of_nat (length rs))
    /\ (fields result = None <-> rs = [])
    /\ (forall row rest, rs = row :: rest -> fields result = Some (map fst row)).
Proof.
  destruct s as [[d cfg] h]. unfold SqliteClient.query. run. cbn.
  destruct d as [d|]; cbn; [|discriminate].
  destruct (drv h (SqliteClient.Prepare d sql)) as [stmt|]; cbn; [|discriminate].
  match goal with |- context [drv ?h ?c] => destruct (drv h c) as [rs|] end;
    cbn; [|discriminate].
  intros H. inversion H; subst. exists rs. cbn. repeat split.
  - destruct rs; [reflexivity | discriminate].
  - intros ->. reflexivity.
  - intros row rest ->. reflexivity.
Qed.


Lemma sqlite_prepare_failure_witness :
  let drv := failing_on sqlite_is_Prepare (Error "near FORM: syntax error") sqlite_reliable in
  SqliteClient.query drv "SELECT * FORM users" None sqlite_connected
    = (Throw (Error "near FORM: syntax error"),
       mkSelf (this sqlite_connected)
         (history sqlite_connected ++ [SqliteClient.Prepare 0 "SELECT * FORM users"]))
  /\ SqliteClient.execute drv "SELECT * FORM users" None sqlite_connected
     = (Throw (Error "near FORM: syntax error"),
        mkSelf (this sqlite_connected)
          (history sqlite_connected ++ [SqliteClient.Prepare 0 "SELECT * FORM users"])).
Proof.
  intros drv.
  apply (sqlite_prepare_failure drv (this sqlite_connected) (history sqlite_connected) 0
           "SELECT * FORM users" None (Error "near FORM: syntax error"));
    reflexivity.
Defined.

Lemma sqlite_query_counts_rows_witness :
  exists rs,
    Some [ada] = Some rs
    /\ Int 1 = Int (Z.of_nat (length rs))
    /\ (Some ["id"; "name"] = None <-> rs = [])
    /\ (forall row rest, rs = row :: rest -> Some ["id"; "name"] = Some (map fst row)).
Proof.
  exact (sqlite_query_counts_rows sqlite_one_row "SELECT * FROM users" None
           sqlite_connected _ _ eq_refl).
Defined.


(** SQL Server: for a statement that yields no recordset, [query] returns
    neither rows nor field names (both are [undefined], although the result
    type promises an array of rows), and the row count is the first
    affected-rows figure, or [0] when there is none. *)
Theorem mssql_statement_without_recordset (drv : Driver MsSqlClient.Call MsSqlClient.Reply)
    (self : MsSqlClient.Fields) (past : list MsSqlClient.Call) (p : Handle)
    (sql : string) (params : option (list value)) (affected : list number) :
  MsSqlClient.pool self = Some p ->
  MsSqlClient.isTransaction self = false ->
  drv past (on_pool pooled_mssql p sql params)
    = Ret {| MsSqlClient.recordset := None; MsSqlClient.rowsAffected := affected |} ->
  let after := mkSelf self (past ++ [on_pool pooled_mssql p sql params]) in
  MsSqlClient.query drv sql params (mkSelf self past)
    = (Ret {| rows := None; rowCount := or_number (head affected) (Int 0); fields := None |},
       after)
  /\ MsSqlClient.execute drv sql params (mkSelf self past)
     = (Ret (or_number (head affected) (Int 0)), after).
Proof.
  intros Hp Ht A after. subst after. cbn in A.
  unfold MsSqlClient.execute, MsSqlClient.query. run.
  rewrite Hp. cbn. rewrite Ht. cbn. rewrite A. split; reflexivity.
Qed.

Lemma mssql_statement_without_recordset_witness :
  MsSqlClient.query mssql_no_recordset "UPDATE users SET name = ?" (Some [VStr "Ada"])
      mssql_connected
    = (Ret {| rows := None; rowCount := Int 3; fields := None |},
       mkSelf (this mssql_connected)
         (history mssql_connected ++
          [on_pool pooled_mssql 0 "UPDATE users SET name = ?" (Some [VStr "Ada"])]))
  /\ MsSqlClient.execute mssql_no_recordset "UPDATE users SET name = ?" (Some [VStr "Ada"])
       mssql_connected
     = (Ret (Int 3),
        mkSelf (this mssql_connected)
          (history mssql_connected ++
           [on_pool pooled_mssql 0 "UPDATE users SET name = ?" (Some [VStr "Ada"])])).
Proof.
  apply (mssql_statement_without_recordset mssql_no_recordset (this mssql_connected)
           (history mssql_connected) 0 "UPDATE users SET name = ?" (Some [VStr "Ada"])
           [Int 3]);
    reflexivity.
Defined.

(** *** Further properties of the placeholder translation *)

Lemma count_char_absent (c : ascii) (s : string) :
  occurs c s = false -> count_char c s = 0.
Proof.
  induction s as [|c' s IH]; cbn [occurs count_char]; [reflexivity |].
  destruct (Ascii.eqb c c'); [discriminate | exact IH].
Qed.

Lemma count_char_app (c : ascii) (a b : string) :
  count_char c (a +:+ b) = count_char c a + count_char c b.
Proof.
  induction a as [|x a IH]; cbn [String.append count_char]; [reflexivity |].
  rewrite IH. lia.
Qed.

Lemma count_number_from (s : string) (index budget : nat) :
  count_char "?" (number_from index budget s) = count_char "?" s - budget.
Proof.
  revert index budget. induction s as [|c s IH]; intros index budget; [reflexivity |].
  cbn [number_from count_char]. destruct (Ascii.eqb "?" c) eqn:E.
  - destruct budget as [|budget].
    + cbn [count_char]. rewrite E. lia.
    + rewrite !count_char_app, IH.
      rewrite (count_char_absent _ (dec index)) by apply occurs_dec.
      change (count_char "?" "@p") with 0. lia.
  - cbn [count_char]. rewrite E, IH. lia.
Qed.

(** Each parameter uses up one placeholder: after the rewrite, the number
    of [?] left in the text is the number there was minus the number of
    parameters (none are left when there are at least as many parameters);
    without a parameter array the text is returned as it is. *)
Theorem convertSql_placeholders_left (sqlQuery : string) (params : list value) :
  count_char "?" (MsSqlClient.convertSql sqlQuery (Some params))
    = count_char "?" sqlQuery - length params
  /\ MsSqlClient.convertSql sqlQuery None = sqlQuery.
Proof.
  split; [|reflexivity]. rewrite convertSql_number. apply count_number_from.
Qed.

Lemma convertParams_parent (params : list value) (index : nat)
    (request : MsSqlClient.Request) :
  MsSqlClient.parent
    (forEach_from index params
       (fun param index request => MsSqlClient.input ("p" +:+ dec index) param request)
       request)
  = MsSqlClient.parent request.
Proof.
  revert index request. induction params as [|x params IH]; intros index request;
    cbn [forEach_from]; [reflexivity |]. now rewrite IH.
Qed.

Lemma convertParams_only (params : list value) (index : nat)
    (request : MsSqlClient.Request) (name : string) (v : value) :
  MsSqlClient.parameters
    (forEach_from index params
       (fun param index request => MsSqlClient.input ("p" +:+ dec index) param request)
       request) !! name = Some v ->
  (exists i, name = "p" +:+ dec (index + i) /\ params !! i = Some v)
  \/ MsSqlClient.parameters request !! name = Some v.
Proof.
  revert index request. induction params as [|x params IH]; intros index request;
    cbn [forEach_from]; [now right |].
  intros H. destruct (IH _ _ H) as [(i & -> & Hi) | H'].
  - left. exists (S i). split; [f_equal; f_equal; lia | exact Hi].
  - cbn [MsSqlClient.input MsSqlClient.parameters] in H'.
    destruct (decide ("p" +:+ dec index = name)) as [<- | Hne].
    + rewrite lookup_insert_eq in H'. left. exists 0.
      split; [now rewrite Nat.add_0_r | exact H'].
    + rewrite lookup_insert_ne in H' by exact Hne. now right.
Qed.

(** On a fresh request, the inputs [convertParams] declares are exactly
    [p0], ..., [p(n-1)] with the arguments in order, nothing else; and the
    request keeps the pool or transaction it was created on. *)
Theorem convertParams_declares_exactly (parent : MsSqlClient.Parent) (params : list value) :
  (forall name v,
     MsSqlClient.parameters
       (MsSqlClient.convertParams (MsSqlClient.new_Request parent) (Some params)) !! name
       = Some v
     <-> exists i, name = "p" +:+ dec i /\ params !! i = Some v)
  /\ (forall params',
        MsSqlClient.parent (MsSqlClient.convertParams (MsSqlClient.new_Request parent) params')
        = parent).
Proof.
  split.
  - intros name v. split.
    + intros H. unfold MsSqlClient.convertParams, forEach in H.
      destruct (convertParams_only _ _ _ _ _ H) as [(i & E & Hi) | H'].
      * exists i. now split.
      * cbn in H'. now rewrite lookup_empty in H'.
    + intros (i & -> & Hi). now rewrite convertParams_binds.
  - intros [params'|]; [|reflexivity].
    unfold MsSqlClient.convertParams, forEach. now rewrite convertParams_parent.
Qed.

(** *** Further properties of the factory *)

Lemma create_unsupported (cfg : DatabaseConfig) :
  (forall v, provider cfg <> tag_of v) ->
  DatabaseFactory.create cfg
  = Throw (Error ("Unsupported database provider: " +:+ provider cfg)).
Proof.
  intros H. unfold DatabaseFactory.create.
  destruct (String.eqb_spec (provider cfg) "postgres") as [E|_];
    [exfalso; exact (H postgres E) |].
  destruct (String.eqb_spec (provider cfg) "mysql") as [E|_];
    [exfalso; exact (H mysql E) |].
  destruct (String.eqb_spec (provider cfg) "mssql") as [E|_];
    [exfalso; exact (H mssql E) |].
  destruct (String.eqb_spec (provider cfg) "sqlite") as [E|_];
    [exfalso; exact (H sqlite E) |].
  reflexivity.
Qed.

Lemma tag_supported_dec (tag : string) :
  (exists v, tag = tag_of v) \/ (forall v, tag <> tag_of v).
Proof.
  destruct (String.eqb_spec tag "postgres") as [->|N1]; [left; now exists postgres |].
  destruct (String.eqb_spec tag "mysql") as [->|N2]; [left; now exists mysql |].
  destruct (String.eqb_spec tag "mssql") as [->|N3]; [left; now exists mssql |].
  destruct (String.eqb_spec tag "sqlite") as [->|N4]; [left; now exists sqlite |].
  right. intros []; assumption.
Qed.

Lemma create_returns_the_tagged_class_aux (cfg : DatabaseConfig)
    (client : DatabaseFactory.DatabaseClient) :
  DatabaseFactory.create cfg = Ret client ->
  client_config client = cfg
  /\ exists v, provider cfg = tag_of v /\ client = instance_of v cfg.
Proof.
  intros H. destruct (tag_supported_dec (provider cfg)) as [[v E] | N].
  - rewrite (create_supported v cfg E) in H. inversion H; subst.
    split; [now destruct v | now exists v].
  - rewrite (create_unsupported cfg N) in H. discriminate.
Qed.

(** [create] returns a client only for the four supported tags; the client
    is a fresh instance of the class named by the tag and holds the
    configuration exactly as it was given. *)
Theorem create_returns_the_tagged_class (cfg : DatabaseConfig)
    (client : DatabaseFactory.DatabaseClient) :
  DatabaseFactory.create cfg = Ret client ->
  client_config client = cfg
  /\ exists v, provider cfg = tag_of v /\ client = instance_of v cfg.
Proof. apply create_returns_the_tagged_class_aux. Qed.

Lemma create_returns_the_tagged_class_witness :
  client_config (DatabaseFactory.MySql (MySqlClient.new (both_config "mysql" "mysql://h/d")))
    = both_config "mysql" "mysql://h/d"
  /\ exists v,
       provider (both_config "mysql" "mysql://h/d") = tag_of v
       /\ DatabaseFactory.MySql (MySqlClient.new (both_config "mysql" "mysql://h/d"))
          = instance_of v (both_config "mysql" "mysql://h/d").
Proof.
  apply (create_returns_the_tagged_class (both_config "mysql" "mysql://h/d")). reflexivity.
Defined.

(** What [fromEnv] builds once the provider variable holds a non-empty
    text. *)
Lemma fromEnv_builds (env : gmap string string) (tag : string) :
  env !! "DB_PROVIDER" = Some tag -> tag <> "" ->
  exists cfg,
    DatabaseFactory.fromEnv env = DatabaseFactory.create cfg
    /\ provider cfg = tag
    /\ host cfg = env !! "DB_HOST"
    /\ port cfg = DatabaseFactory.env_number env "DB_PORT"
    /\ database cfg = or_string (env !! "DB_NAME") (or_string (env !! "DB_DATABASE") "")
    /\ user cfg = env !! "DB_USER"
    /\ password cfg = env !! "DB_PASSWORD"
    /\ filePath cfg = env !! "DB_FILE_PATH"
    /\ connectionString cfg = env !! "DB_CONNECTION_STRING"
    /\ ssl cfg = Some (SslFlag (bool_decide (env !! "DB_SSL" = Some "true")))
    /\ pool_min cfg = DatabaseFactory.env_number env "DB_POOL_MIN"
    /\ pool_max cfg = DatabaseFactory.env_number env "DB_POOL_MAX".
Proof.
  intros Hp Ht. unfold DatabaseFactory.fromEnv. rewrite Hp.
  destruct (String.eqb_spec tag ""); [contradiction |].
  eexists. split; [reflexivity |]. repeat split.
Qed.

(** What a client returned by [fromEnv] was configured with. *)
Lemma fromEnv_returns (env : gmap string string) (client : DatabaseFactory.DatabaseClient) :
  DatabaseFactory.fromEnv env = Ret client ->
  exists tag,
    env !! "DB_PROVIDER" = Some tag /\ tag <> ""
    /\ provider (client_config client) = tag
    /\ port (client_config client) = DatabaseFactory.env_number env "DB_PORT"
    /\ database (client_config client)
       = or_string (env !! "DB_NAME") (or_string (env !! "DB_DATABASE") "")
    /\ ssl (client_config client)
       = Some (SslFlag (bool_decide (env !! "DB_SSL" = Some "true")))
    /\ connectionString (client_config client) = env !! "DB_CONNECTION_STRING".
Proof.
  intros H. destruct (env !! "DB_PROVIDER") as [tag|] eqn:Hp.
  - destruct (String.eqb_spec tag "") as [->|Ht].
    + unfold DatabaseFactory.fromEnv in H. rewrite Hp in H. discriminate.
    + destruct (fromEnv_builds env tag Hp Ht)
        as (cfg & E & P & _ & Po & D & _ & _ & _ & Cs & S & _).
      rewrite E in H. destruct (create_returns_the_tagged_class_aux cfg client H) as [C _].
      exists tag. rewrite C. repeat split; assumption.
  - unfold DatabaseFactory.fromEnv in H. rewrite Hp in H. discriminate.
Qed.

(** The provider variable alone decides whether [fromEnv] succeeds: unset
    or empty, it is the missing-variable error; holding an unsupported tag,
    it is the factory's unsupported-provider error naming that tag; holding a
    supported tag, a fresh client of that class is returned whatever the
    other variables hold, with host, user, password, file path and connection
    string taken over as they are. *)
Theorem fromEnv_outcomes (env : gmap string string) :
  match env !! "DB_PROVIDER" with
  | None =>
      DatabaseFactory.fromEnv env
      = Throw (Error "DB_PROVIDER environment variable is required")
  | Some tag =>
      (tag = "" ->
       DatabaseFactory.fromEnv env
       = Throw (Error "DB_PROVIDER environment variable is required"))
      /\ (tag <> "" -> (forall v, tag <> tag_of v) ->
          DatabaseFactory.fromEnv env
          = Throw (Error ("Unsupported database provider: " +:+ tag)))
      /\ (forall v, tag = tag_of v ->
          exists cfg,
            DatabaseFactory.fromEnv env = Ret (instance_of v cfg)
            /\ provider cfg = tag
            /\ host cfg = env !! "DB_HOST"
            /\ user cfg = env !! "DB_USER"
            /\ password cfg = env !! "DB_PASSWORD"
            /\ filePath cfg = env !! "DB_FILE_PATH"
            /\ connectionString cfg = env !! "DB_CONNECTION_STRING")
  end.
Proof.
  destruct (env !! "DB_PROVIDER") as [tag|] eqn:Hp.
  - split; [|split].
    + intros ->. unfold DatabaseFactory.fromEnv. now rewrite Hp.
    + intros Ht N. destruct (fromEnv_builds env tag Hp Ht) as (cfg & E & P & _).
      rewrite E, <- P. apply create_unsupported. now rewrite P.
    + intros v ->.
      destruct (fromEnv_builds env (tag_of v) Hp) as
        (cfg & E & P & H & _ & _ & U & Pw & F & C & _); [now destruct v |].
      exists cfg. rewrite E. split; [now apply create_supported |].
      repeat split; assumption.
  - unfold DatabaseFactory.fromEnv. now rewrite Hp.
Qed.

(** [DB_NAME] names the database when it is set and not empty; otherwise
    [DB_DATABASE] does; with neither, the name is the empty string. *)
Theorem fromEnv_database_name (env : gmap string string)
    (client : DatabaseFactory.DatabaseClient) :
  DatabaseFactory.fromEnv env = Ret client ->
  (forall n, env !! "DB_NAME" = Some n -> n <> "" ->
             database (client_config client) = n)
  /\ (env !! "DB_NAME" = None \/ env !! "DB_NAME" = Some "" ->
      (forall d, env !! "DB_DATABASE" = Some d -> database (client_config client) = d)
      /\ (env !! "DB_DATABASE" = None -> database (client_config client) = "")).
Proof.
  intros H. destruct (fromEnv_returns env client H) as (tag & _ & _ & _ & _ & D & _ & _).
  rewrite D. split.
  - intros n -> Hn. cbn. destruct (String.eqb_spec n ""); [contradiction | reflexivity].
  - intros [-> | ->]; cbn; split.
    + intros d ->. cbn. destruct (String.eqb_spec d ""); [now subst | reflexivity].
    + now intros ->.
    + intros d ->. cbn. destruct (String.eqb_spec d ""); [now subst | reflexivity].
    + now intros ->.
Qed.

Lemma fromEnv_database_name_witness :
  DatabaseFactory.fromEnv
    (<["DB_PROVIDER" := "postgres"]> (<["DB_NAME" := ""]> (<["DB_DATABASE" := "legacy"]> ∅)))
    = Ret (DatabaseFactory.Postgres (PostgresClient.new legacy_config))
  /\ database (client_config (DatabaseFactory.Postgres (PostgresClient.new legacy_config)))
     = "legacy".
Proof.
  split; [reflexivity |].
  assert (H := fromEnv_database_name
                 (<["DB_PROVIDER" := "postgres"]>
                    (<["DB_NAME" := ""]> (<["DB_DATABASE" := "legacy"]> ∅)))
                 (DatabaseFactory.Postgres (PostgresClient.new legacy_config))).
  destruct H as [_ H]; [reflexivity |].
  apply (proj1 (H (or_intror eq_refl))). reflexivity.
Defined.

(** TLS is requested exactly when [DB_SSL] is the text [true]; any other
    value, and an unset variable, give the flag [false]. *)
Theorem fromEnv_ssl_flag (env : gmap string string)
    (client : DatabaseFactory.DatabaseClient) :
  DatabaseFactory.fromEnv env = Ret client ->
  (env !! "DB_SSL" = Some "true" -> ssl (client_config client) = Some (SslFlag true))
  /\ (env !! "DB_SSL" <> Some "true" -> ssl (client_config client) = Some (SslFlag false)).
Proof.
  intros H. destruct (fromEnv_returns env client H) as (tag & _ & _ & _ & _ & _ & S & _).
  rewrite S. split; intros E.
  - now rewrite bool_decide_eq_true_2.
  - now rewrite bool_decide_eq_false_2.
Qed.

Lemma fromEnv_ssl_flag_witness :
  DatabaseFactory.fromEnv (<["DB_PROVIDER" := "mysql"]> (<["DB_SSL" := "TRUE"]> ∅))
    = Ret (DatabaseFactory.MySql (MySqlClient.new upper_case_ssl))
  /\ ssl (client_config (DatabaseFactory.MySql (MySqlClient.new upper_case_ssl)))
     = Some (SslFlag false).
Proof.
  split; [reflexivity |].
  assert (H := fromEnv_ssl_flag (<["DB_PROVIDER" := "mysql"]> (<["DB_SSL" := "TRUE"]> ∅))
                 (DatabaseFactory.MySql (MySqlClient.new upper_case_ssl))).
  destruct H as [_ H]; [reflexivity |].
  apply H. discriminate.
Defined.

Lemma leading_digits_uint (d : Decimal.uint) (a : nat) :
  DatabaseFactory.leading_digits (NilEmpty.string_of_uint d) (Some (Z.of_nat a))
  = Some (Z.of_nat (Nat.of_uint_acc d a)).
Proof.
  revert a. induction d; intros a; cbn [NilEmpty.string_of_uint Nat.of_uint_acc];
    [reflexivity | ..];
    cbn [DatabaseFactory.leading_digits Ascii.is_nat default];
    rewrite <- IHd; do 2 f_equal; unfold id; rewrite Nat.tail_mul_spec; lia.
Qed.

Lemma skip_space_digit (c : ascii) (d : nat) (s : string) :
  Ascii.is_nat c = Some d -> DatabaseFactory.skip_space (String c s) = String c s.
Proof.
  destruct c as [[] [] [] [] [] [] [] []]; intros H; try discriminate H;
    destruct s as [|b [|c s]]; reflexivity.
Qed.

Lemma parseInt_unsigned (c : ascii) (d : nat) (s : string) :
  Ascii.is_nat c = Some d ->
  DatabaseFactory.parseInt (String c s)
  = match DatabaseFactory.leading_digits s (Some (Z.of_nat d)) with
    | Some z => number_of_integer z
    | None => NaN
    end.
Proof.
  intros H. unfold DatabaseFactory.parseInt. rewrite (skip_space_digit c d s H).
  destruct c as [[] [] [] [] [] [] [] []]; try discriminate H;
    cbn [DatabaseFactory.leading_digits]; rewrite H; reflexivity.
Qed.

Lemma parseInt_dec (n : nat) :
  DatabaseFactory.parseInt (dec n) = number_of_integer (Z.of_nat n).
Proof.
  unfold dec. rewrite <- (Unsigned.of_to n) at 2. unfold Nat.of_uint.
  destruct (Nat.to_uint n) as [| d | d | d | d | d | d | d | d | d | d] eqn:E;
    [ exfalso; pose proof (Unsigned.of_to n) as O; rewrite E in O; cbn in O; subst n;
      discriminate
    | cbn [NilEmpty.string_of_uint Nat.of_uint_acc] .. ].
  - rewrite (parseInt_unsigned _ 0) by reflexivity. now rewrite (leading_digits_uint d 0).
  - rewrite (parseInt_unsigned _ 1) by reflexivity. now rewrite (leading_digits_uint d 1).
  - rewrite (parseInt_unsigned _ 2) by reflexivity. now rewrite (leading_digits_uint d 2).
  - rewrite (parseInt_unsigned _ 3) by reflexivity. now rewrite (leading_digits_uint d 3).
  - rewrite (parseInt_unsigned _ 4) by reflexivity. now rewrite (leading_digits_uint d 4).
  - rewrite (parseInt_unsigned _ 5) by reflexivity. now rewrite (leading_digits_uint d 5).
  - rewrite (parseInt_unsigned _ 6) by reflexivity. now rewrite (leading_digits_uint d 6).
  - rewrite (parseInt_unsigned _ 7) by reflexivity. now rewrite (leading_digits_uint d 7).
  - rewrite (parseInt_unsigned _ 8) by reflexivity. now rewrite (leading_digits_uint d 8).
  - rewrite (parseInt_unsigned _ 9) by reflexivity. now rewrite (leading_digits_uint d 9).
Qed.

Lemma dec_nonempty (n : nat) : dec n <> "".
Proof.
  unfold dec. destruct (Nat.to_uint n) eqn:E; cbn; try discriminate.
  pose proof (Unsigned.of_to n) as O. rewrite E in O. cbn in O. subst n. discriminate.
Qed.

(** Up to [2^53] every integer is a double: [number_of_integer] leaves it
    as it is. *)
Lemma number_of_integer_exact (z : Z) :
  (0 <= z <= 2 ^ 53)%Z -> number_of_integer z = Int z.
Proof.
  intros [L U].
  destruct (Z.eq_dec z 0%Z) as [-> | N0]; [reflexivity |].
  destruct (Z.eq_dec z (2 ^ 53)%Z) as [-> | N53]; [vm_compute; reflexivity |].
  assert (S : (z < 2 ^ 53)%Z) by lia.
  assert (G : (Z.log2 z < 53)%Z) by (apply Z.log2_lt_pow2; lia).
  unfold number_of_integer, round_to_53.
  rewrite (Z.abs_eq z L).
  destruct (Z.leb_spec (Z.log2 z - 52) 0%Z) as [_ | B]; [| lia].
  destruct (Z.leb_spec (2 ^ 1024)%Z z) as [B | _].
  - exfalso. assert (2 ^ 53 < 2 ^ 1024)%Z by (vm_compute; reflexivity). lia.
  - f_equal. rewrite Z.sgn_pos by lia. lia.
Qed.

(** A port written in decimal digits in [DB_PORT] becomes the port of the
    configuration as [parseInt] reads it, that is as the nearest double; up
    to [2^53] that is the number written, and a Postgres client built from an
    environment without connection string then asks for its pool on that
    very port, when it is not [0].  An unset or empty [DB_PORT] leaves the
    port undefined. *)
Theorem fromEnv_port_round_trip (env : gmap string string)
    (client : DatabaseFactory.DatabaseClient) :
  DatabaseFactory.fromEnv env = Ret client ->
  (forall n, env !! "DB_PORT" = Some (dec n) ->
     port (client_config client) = Some (number_of_integer (Z.of_nat n))
     /\ ((Z.of_nat n <= 2 ^ 53)%Z ->
         port (client_config client) = Some (Int (Z.of_nat n))
         /\ forall f drv,
              client = DatabaseFactory.Postgres f ->
              env !! "DB_CONNECTION_STRING" = None -> n <> 0 ->
              exists h d u pw s mn mx,
                connect_calls postgres drv (PostgresClient.config f)
                = [PostgresClient.NewPool
                     (PostgresClient.ByFields h (Int (Z.of_nat n)) d u pw s mn mx)]))
  /\ (env !! "DB_PORT" = None \/ env !! "DB_PORT" = Some "" ->
      port (client_config client) = None).
Proof.
  intros H. destruct (fromEnv_returns env client H) as (tag & _ & _ & _ & P & _ & _ & Cs).
  split.
  - intros n E.
    assert (Pn : port (client_config client) = Some (number_of_integer (Z.of_nat n))).
    { rewrite P. unfold DatabaseFactory.env_number. rewrite E.
      destruct (String.eqb_spec (dec n) "") as [D|_]; [now apply dec_nonempty in D |].
      now rewrite parseInt_dec. }
    split; [exact Pn |].
    intros Hsafe. rewrite number_of_integer_exact in Pn by lia.
    split; [exact Pn |].
    intros f drv -> Hcs Hn. cbn in Pn, Cs. rewrite pg_connect_calls.
    unfold PostgresClient.poolConfig_of, PostgresClient.discrete.
    rewrite Cs, Hcs, Pn. cbn [or_number].
    destruct (Z.eqb_spec (Z.of_nat n) 0); [lia |]. repeat eexists.
  - intros [E | E]; rewrite P; unfold DatabaseFactory.env_number; now rewrite E.
Qed.

Lemma fromEnv_port_round_trip_witness :
  DatabaseFactory.fromEnv
    (<["DB_PROVIDER" := "postgres"]> (<["DB_PORT" := "3307"]> (<["DB_NAME" := "test_db"]> ∅)))
    = Ret (DatabaseFactory.Postgres (PostgresClient.new port_3307))
  /\ port (client_config (DatabaseFactory.Postgres (PostgresClient.new port_3307)))
     = Some (Int 3307)
  /\ exists h d u pw s mn mx,
       connect_calls postgres pg_reliable port_3307
       = [PostgresClient.NewPool (PostgresClient.ByFields h (Int 3307) d u pw s mn mx)].
Proof.
  split; [reflexivity |].
  assert (H := fromEnv_port_round_trip
                 (<["DB_PROVIDER" := "postgres"]>
                    (<["DB_PORT" := "3307"]> (<["DB_NAME" := "test_db"]> ∅)))
                 (DatabaseFactory.Postgres (PostgresClient.new port_3307))).
  destruct H as [H _]; [reflexivity |].
  destruct (H 3307 eq_refl) as [_ S].
  destruct S as [P C]; [vm_compute; discriminate |].
  split; [exact P |].
  apply (C (PostgresClient.new port_3307) pg_reliable eq_refl); [reflexivity | discriminate].
Defined.

(** *** Further properties of the memoised response body *)

Lemma json_cached_again (drv : Driver ApiResponse.Call ApiResponse.Reply)
    (s : ApiResponse.St) (n : nat) :
  ApiResponse._body (this s) <> ApiResponse.JNull ->
  repeat_call n (ApiResponse.json drv) s
  = (replicate n (Ret (ApiResponse._body (this s))), s).
Proof.
  intros H. induction n as [|n IH]; [reflexivity |].
  cbn [repeat_call replicate]. rewrite (json_cached drv s H), IH. reflexivity.
Qed.

(** A body that parses to anything but [null] is parsed exactly once: of
    any number of calls of [json] on a new response wrapper, the first asks
    the response to parse, and all of them return the parsed value. *)
Theorem json_parsed_once (drv : Driver ApiResponse.Call ApiResponse.Reply)
    (response : Handle) (past : list ApiResponse.Call) (parsed : ApiResponse.JsonValue)
    (n : nat) :
  drv past (ApiResponse.ResponseJson response) = Ret parsed ->
  parsed <> ApiResponse.JNull ->
  repeat_call (S n) (ApiResponse.json drv) (mkSelf (ApiResponse.new response) past)
  = (replicate (S n) (Ret parsed),
     mkSelf (ApiResponse.set_body parsed (ApiResponse.new response))
       (past ++ [ApiResponse.ResponseJson response])).
Proof.
  intros P N. cbn [repeat_call replicate].
  rewrite (json_first drv response past parsed P).
  rewrite json_cached_again by exact N. reflexivity.
Qed.

Lemma json_parsed_once_witness :
  repeat_call 3 (ApiResponse.json (parses_to (ApiResponse.JStr "ok")))
    (mkSelf (ApiResponse.new 7) [])
  = ([Ret (ApiResponse.JStr "ok"); Ret (ApiResponse.JStr "ok"); Ret (ApiResponse.JStr "ok")],
     mkSelf (ApiResponse.set_body (ApiResponse.JStr "ok") (ApiResponse.new 7))
       [ApiResponse.ResponseJson 7]).
Proof.
  apply (json_parsed_once (parses_to (ApiResponse.JStr "ok")) 7 [] (ApiResponse.JStr "ok") 2);
    [reflexivity | discriminate].
Defined.

(** When the response cannot be parsed, [json] throws the parser's error
    and caches nothing: the wrapper is as before, and the next call asks the
    response to parse again. *)
Theorem json_failure_not_cached (drv : Driver ApiResponse.Call ApiResponse.Reply)
    (response : Handle) (past : list ApiResponse.Call) (e : exn) :
  drv past (ApiResponse.ResponseJson response) = Throw e ->
  let failed := mkSelf (ApiResponse.new response) (past ++ [ApiResponse.ResponseJson response]) in
  ApiResponse.json drv (mkSelf (ApiResponse.new response) past) = (Throw e, failed)
  /\ history (snd (ApiResponse.json drv failed))
     = past ++ [ApiResponse.ResponseJson response; ApiResponse.ResponseJson response].
Proof.
  intros P failed. subst failed. split.
  - unfold ApiResponse.json. run. cbn. now rewrite P.
  - unfold ApiResponse.json. run. cbn.
    match goal with |- context [drv ?h ?c] => destruct (drv h c) end;
      cbn; now rewrite <- app_assoc.
Qed.

Lemma json_failure_not_cached_witness :
  let drv := failing_on (fun _ => true) (Error "Unexpected token < in JSON") (parses_to ApiResponse.JNull) in
  ApiResponse.json drv (mkSelf (ApiResponse.new 7) [])
    = (Throw (Error "Unexpected token < in JSON"),
       mkSelf (ApiResponse.new 7) [ApiResponse.ResponseJson 7])
  /\ history (snd (ApiResponse.json drv (mkSelf (ApiResponse.new 7) [ApiResponse.ResponseJson 7])))
     = [ApiResponse.ResponseJson 7; ApiResponse.ResponseJson 7].
Proof.
  intros drv.
  apply (json_failure_not_cached drv 7 [] (Error "Unexpected token < in JSON")).
  reflexivity.
Defined.

(** *** The HTTP client *)

Section ApiClientProperties.
Context {URL : Type}.
Context (new_URL : string -> string -> Res URL).
Context (searchParams_append : URL -> string -> string -> URL).
Context (toString : URL -> string).
Context (drv : Driver ApiClient.Call ApiClient.Reply).

(** What each verb does once the URL is built: one request, whose outcome
    is wrapped or thrown. *)
Lemma invoke_sends (method : ApiClient.Method) (endpoint : string)
    (data : option ApiResponse.JsonValue) (options : option ApiClient.RequestOptions.t)
    (self : ApiClient.Fields) (past : list ApiClient.Call) (url : string) :
  ApiClient.buildUrl new_URL searchParams_append toString self endpoint
    (ApiClient.options_params options) (mkSelf self past)
  = (Ret url, mkSelf self past) ->
  let c :=
    ApiClient.Fetch method (ApiClient.request self) url
      {| ApiClient.data := ApiClient.body_of method data;
         ApiClient.headers := ApiClient.mergeHeaders self options;
         ApiClient.timeout :=
           or_number (ApiClient.options_timeout options) (ApiClient.defaultTimeout self) |} in
  ApiClient.invoke new_URL searchParams_append toString drv method endpoint data options
    (mkSelf self past)
  = (match drv past c with
     | Ret response => Ret (ApiResponse.new response)
     | Throw e => Throw e
     end,
     mkSelf self (past ++ [c])).
Proof.
  intros B c. subst c.
  destruct method; cbn [ApiClient.invoke ApiClient.body_of];
    [ unfold ApiClient.get | unfold ApiClient.post | unfold ApiClient.put
    | unfold ApiClient.patch | unfold ApiClient.delete ];
    unfold bind at 1; unfold get_this; unfold bind at 1; cbn [this];
    rewrite B; run;
    match goal with |- context [drv ?h ?c] => destruct (drv h c) end; reflexivity.
Qed.

Lemma buildUrl_pure (self : ApiClient.Fields) (endpoint : string)
    (params : option (list (string * string))) (s : ApiClient.St) :
  match new_URL endpoint (ApiClient.baseURL self) with
  | Ret _ =>
      exists url,
        ApiClient.buildUrl new_URL searchParams_append toString self endpoint params s
        = (Ret url, s)
  | Throw e =>
      ApiClient.buildUrl new_URL searchParams_append toString self endpoint params s
      = (Throw e, s)
  end.
Proof.
  unfold ApiClient.buildUrl. destruct (new_URL endpoint (ApiClient.baseURL self));
    [eexists |]; reflexivity.
Qed.
End ApiClientProperties.

(** A client built by the constructor never sends a request with a
    timeout of [0] or [NaN]: a per-call timeout is used when it is a non-zero
    number, an infinity included; otherwise the configured default; and when
    that is missing or zero, 30000. *)
Theorem request_timeout_is_never_zero {URL : Type}
    (new_URL : string -> string -> Res URL)
    (searchParams_append : URL -> string -> string -> URL) (toString : URL -> string)
    (drv : Driver ApiClient.Call ApiClient.Reply)
    (env : gmap string string) (request : Handle) (config : ApiClient.ApiClientConfig.t)
    (method : ApiClient.Method) (endpoint : string) (data : option ApiResponse.JsonValue)
    (options : option ApiClient.RequestOptions.t) (past : list ApiClient.Call) (url0 : URL) :
  new_URL endpoint (ApiClient.baseURL (ApiClient.new env request config)) = Ret url0 ->
  exists url sent,
    history (snd (ApiClient.invoke new_URL searchParams_append toString drv method endpoint
                    data options (mkSelf (ApiClient.new env request config) past)))
      = past ++ [ApiClient.Fetch method request url sent]
    /\ nonzero (ApiClient.timeout sent)
    /\ (forall z, ApiClient.options_timeout options = Some (Int z) -> z <> 0%Z ->
                  ApiClient.timeout sent = Int z)
    /\ (ApiClient.options_timeout options = None
        \/ ApiClient.options_timeout options = Some (Int 0)
        \/ ApiClient.options_timeout options = Some NaN ->
        ApiClient.timeout sent
        = or_number (ApiClient.ApiClientConfig.timeout config) (Int 30000))
    /\ (forall negative,
          ApiClient.options_timeout options = Some (Infinity negative) ->
          ApiClient.timeout sent = Infinity negative).
Proof.
  intros U.
  pose proof (buildUrl_pure new_URL searchParams_append toString
                (ApiClient.new env request config) endpoint
                (ApiClient.options_params options)
                (mkSelf (ApiClient.new env request config) past)) as B.
  rewrite U in B. destruct B as [url B].
  rewrite (invoke_sends new_URL searchParams_append toString drv method endpoint data
             options _ past url B).
  eexists _, _. split; [reflexivity |]. cbn [ApiClient.timeout ApiClient.new
    ApiClient.defaultTimeout]. split; [|split; [|split]].
  - apply or_number_nonzero, or_number_nonzero. split; discriminate.
  - intros z -> Hz. cbn. destruct (Z.eqb_spec z 0); [contradiction | reflexivity].
  - intros [-> | [-> | ->]]; reflexivity.
  - intros negative ->. reflexivity.
Qed.

Lemma request_timeout_is_never_zero_witness :
  let client :=
    ApiClient.new (<["BASE_URL" := "https://api.test"]> ∅) 1 no_config in
  let zero : option ApiClient.RequestOptions.t :=
    Some {| ApiClient.RequestOptions.headers := None;
            ApiClient.RequestOptions.params := None;
            ApiClient.RequestOptions.timeout := Some (Int 0) |} in
  exists url sent,
    history (snd (ApiClient.invoke toy_new_URL toy_append toy_toString http_reliable
                    ApiClient.GET "/users" None zero (mkSelf client [])))
      = [] ++ [ApiClient.Fetch ApiClient.GET 1 url sent]
    /\ ApiClient.timeout sent = Int 30000.
Proof.
  intros client zero.
  destruct (request_timeout_is_never_zero toy_new_URL toy_append toy_toString http_reliable
              (<["BASE_URL" := "https://api.test"]> ∅) 1 no_config
              ApiClient.GET "/users" None zero [] "https://api.test/users")
    as (url & sent & H & _ & _ & D & _); [reflexivity |].
  exists url, sent. split; [exact H |].
  apply D. right. left. reflexivity.
Defined.

(** The headers of a request are the client's default headers overlaid
    with the per-call ones: a header given for the call replaces the default
    of the same name, and every other default is sent along.  A body is sent
    by [POST], [PUT] and [PATCH] only. *)
Theorem request_headers_and_body {URL : Type}
    (new_URL : string -> string -> Res URL)
    (searchParams_append : URL -> string -> string -> URL) (toString : URL -> string)
    (drv : Driver ApiClient.Call ApiClient.Reply)
    (self : ApiClient.Fields)
    (method : ApiClient.Method) (endpoint : string) (data : option ApiResponse.JsonValue)
    (options : option ApiClient.RequestOptions.t) (past : list ApiClient.Call) (url0 : URL) :
  new_URL endpoint (ApiClient.baseURL self) = Ret url0 ->
  exists url sent,
    history (snd (ApiClient.invoke new_URL searchParams_append toString drv method endpoint
                    data options (mkSelf self past)))
      = past ++ [ApiClient.Fetch method (ApiClient.request self) url sent]
    /\ (forall name,
          ApiClient.headers sent !! name
          = match ApiClient.options_headers options with
            | Some per_call =>
                match per_call !! name with
                | Some v => Some v
                | None => ApiClient.defaultHeaders self !! name
                end
            | None => ApiClient.defaultHeaders self !! name
            end)
    /\ ApiClient.data sent = ApiClient.body_of method data
    /\ (ApiClient.data sent <> None ->
        method = ApiClient.POST \/ method = ApiClient.PUT \/ method = ApiClient.PATCH).
Proof.
  intros U.
  pose proof (buildUrl_pure new_URL searchParams_append toString self endpoint
                (ApiClient.options_params options) (mkSelf self past)) as B.
  rewrite U in B. destruct B as [url B].
  rewrite (invoke_sends new_URL searchParams_append toString drv method endpoint data
             options _ past url B).
  eexists _, _. split; [reflexivity |]. cbn [ApiClient.headers ApiClient.data].
  split; [|split].
  - intros name. unfold ApiClient.mergeHeaders. rewrite lookup_union.
    destruct (ApiClient.options_headers options) as [per_call|]; cbn.
    + destruct (per_call !! name), (ApiClient.defaultHeaders self !! name); reflexivity.
    + rewrite lookup_empty. destruct (ApiClient.defaultHeaders self !! name); reflexivity.
  - reflexivity.
  - destruct method; cbn; intros H; try contradiction; tauto.
Qed.

(** When the endpoint cannot be resolved against the base URL, every verb
    throws the URL error and sends nothing. *)
Theorem invalid_url_sends_nothing {URL : Type}
    (new_URL : string -> string -> Res URL)
    (searchParams_append : URL -> string -> string -> URL) (toString : URL -> string)
    (drv : Driver ApiClient.Call ApiClient.Reply)
    (self : ApiClient.Fields)
    (method : ApiClient.Method) (endpoint : string) (data : option ApiResponse.JsonValue)
    (options : option ApiClient.RequestOptions.t) (past : list ApiClient.Call) (e : exn) :
  new_URL endpoint (ApiClient.baseURL self) = Throw e ->
  ApiClient.invoke new_URL searchParams_append toString drv method endpoint data options
    (mkSelf self past)
  = (Throw e, mkSelf self past).
Proof.
  intros U.
  destruct method; cbn [ApiClient.invoke];
    [ unfold ApiClient.get | unfold ApiClient.post | unfold ApiClient.put
    | unfold ApiClient.patch | unfold ApiClient.delete ];
    unfold bind at 1; unfold get_this; unfold bind at 1; cbn [this];
    unfold ApiClient.buildUrl; rewrite U; reflexivity.
Qed.

Lemma invalid_url_sends_nothing_witness :
  ApiClient.invoke toy_new_URL toy_append toy_toString http_reliable
    ApiClient.POST "/users" (Some (ApiResponse.JStr "Ada")) None
    (mkSelf (ApiClient.new ∅ 1 no_config) [])
  = (Throw (TypeError "Invalid URL"), mkSelf (ApiClient.new ∅ 1 no_config) []).
Proof.
  apply (invalid_url_sends_nothing toy_new_URL toy_append toy_toString http_reliable
           (ApiClient.new ∅ 1 no_config) ApiClient.POST "/users"
           (Some (ApiResponse.JStr "Ada")) None [] (TypeError "Invalid URL")).
  reflexivity.
Defined.

Lemma request_headers_and_body_witness :
  let client :=
    ApiClient.new (<["BASE_URL" := "https://api.test"]> ∅) 1
      {| ApiClient.ApiClientConfig.baseURL := None;
         ApiClient.ApiClientConfig.headers :=
           Some (<["Accept" := "text/html"]> (<["X-Env" := "ci"]> ∅));
         ApiClient.ApiClientConfig.timeout := None |} in
  let options : option ApiClient.RequestOptions.t :=
    Some {| ApiClient.RequestOptions.headers := Some (<["Accept" := "application/json"]> ∅);
            ApiClient.RequestOptions.params := None;
            ApiClient.RequestOptions.timeout := None |} in
  exists url sent,
    history (snd (ApiClient.invoke toy_new_URL toy_append toy_toString http_reliable
                    ApiClient.DELETE "/users/1" (Some (ApiResponse.JStr "ignored")) options
                    (mkSelf client [])))
      = [] ++ [ApiClient.Fetch ApiClient.DELETE 1 url sent]
    /\ ApiClient.headers sent !! "Accept" = Some "application/json"
    /\ ApiClient.headers sent !! "X-Env" = Some "ci"
    /\ ApiClient.data sent = None.
Proof.
  intros client options.
  destruct (request_headers_and_body toy_new_URL toy_append toy_toString http_reliable
              client ApiClient.DELETE "/users/1" (Some (ApiResponse.JStr "ignored")) options
              [] "https://api.test/users/1")
    as (url & sent & H & Hd & B & _); [reflexivity |].
  exists url, sent. split; [exact H |]. split; [|split].
  - rewrite Hd. reflexivity.
  - rewrite Hd. reflexivity.
  - rewrite B. reflexivity.
Defined.

(** *** The fixtures *)

Lemma or_string_twice (a : option string) (b : string) :
  or_string a (or_string a b) = or_string a b.
Proof. destruct a as [s|]; cbn; [|reflexivity]. destruct (String.eqb s ""); reflexivity. Qed.

(** The [api] fixture hands the test a client for the request context it
    was given, with the base URL of the environment (or none), the default
    timeout of 30000, and exactly one default header, [Authorization]: the
    bearer token when [API_TOKEN] is set and not empty, the empty text
    otherwise.  Every request made without a per-call header of that name
    carries it. *)
Theorem api_fixture_client {A : Type} (env : gmap string string) (request : Handle)
    (use : ApiClient.Fields -> A) :
  exists client authorization,
    Fixtures.api env request use = use client
    /\ ApiClient.request client = request
    /\ ApiClient.baseURL client = or_string (env !! "BASE_URL") ""
    /\ ApiClient.defaultTimeout client = Int 30000
    /\ ApiClient.defaultHeaders client = {[ "Authorization" := authorization ]}
    /\ (forall token, env !! "API_TOKEN" = Some token -> token <> "" ->
                      authorization = "Bearer " +:+ token)
    /\ (env !! "API_TOKEN" = None \/ env !! "API_TOKEN" = Some "" -> authorization = "")
    /\ (forall (URL : Type) (new_URL : string -> string -> Res URL)
               (searchParams_append : URL -> string -> string -> URL)
               (toString : URL -> string) (drv : Driver ApiClient.Call ApiClient.Reply)
               method endpoint data past url0,
          new_URL endpoint (ApiClient.baseURL client) = Ret url0 ->
          exists url sent,
            history (snd (ApiClient.invoke new_URL searchParams_append toString drv method
                            endpoint data None (mkSelf client past)))
              = past ++ [ApiClient.Fetch method request url sent]
            /\ ApiClient.headers sent !! "Authorization" = Some authorization).
Proof.
  unfold Fixtures.api. eexists _, _. split; [reflexivity |].
  split; [reflexivity |]. split; [apply or_string_twice |].
  split; [reflexivity |]. split; [reflexivity |]. split; [|split].
  - intros token -> Ht. destruct (String.eqb_spec token ""); [contradiction | reflexivity].
  - intros [-> | ->]; reflexivity.
  - intros URL new_URL searchParams_append toString drv method endpoint data past url0 U.
    match goal with |- context [mkSelf ?c past] => set (client := c) in * end.
    pose proof (buildUrl_pure new_URL searchParams_append toString client endpoint
                  (ApiClient.options_params None) (mkSelf client past)) as B.
    rewrite U in B. destruct B as [url B].
    rewrite (invoke_sends new_URL searchParams_append toString drv method endpoint data
               None client past url B).
    eexists _, _. split; [reflexivity |].
    cbn [ApiClient.headers]. unfold ApiClient.mergeHeaders. cbn [ApiClient.options_headers default].
    rewrite lookup_union, lookup_empty. subst client. cbn [ApiClient.defaultHeaders ApiClient.new
      default ApiClient.ApiClientConfig.headers].
    unfold id. now rewrite lookup_singleton_eq.
Qed.

Lemma class_instance_fresh (v : Variant) (cfg : DatabaseConfig) :
  Fixtures.class_instance (instance_of v cfg) = existT v (new (class_of v) cfg).
Proof. destruct v; reflexivity. Qed.

Lemma fromEnv_fresh (env : gmap string string) (client : DatabaseFactory.DatabaseClient) :
  DatabaseFactory.fromEnv env = Ret client ->
  exists v cfg, client = instance_of v cfg.
Proof.
  intros H. destruct (fromEnv_returns env client H) as (tag & Hp & Ht & _).
  destruct (fromEnv_builds env tag Hp Ht) as (cfg & E & _).
  rewrite E in H. destruct (create_returns_the_tagged_class_aux cfg client H) as (_ & v & _ & C).
  now exists v, cfg.
Qed.

(** The [db] fixture.  Without a usable provider variable it fails with
    the factory's error and builds no client.  Otherwise it works on a fresh
    client of the class the factory chose: a [connect] that throws ends the
    fixture with that error, before the test and without [disconnect]; once
    [connect] has returned, the test runs and [disconnect] is called on the
    instance as the test left it, whether the test returned or threw, and the
    fixture ends with the error of [disconnect] or else with the verdict of
    the test. *)
Theorem db_fixture_lifecycle (drivers : Fixtures.Drivers) (env : gmap string string)
    (test : Fixtures.Test) :
  match DatabaseFactory.fromEnv env with
  | Throw e => Fixtures.db drivers env test = (Throw e, None)
  | Ret client =>
      exists v cfg,
        client = instance_of v cfg
        /\ let fresh := mkSelf (new (class_of v) cfg) [] in
           (forall e s1,
              connect (class_of v) (drivers v) fresh = (Throw e, s1) ->
              Fixtures.db drivers env test = (Throw e, Some (existT v s1)))
           /\ (forall s1 verdict s2,
                 connect (class_of v) (drivers v) fresh = (Ret tt, s1) ->
                 test v s1 = (verdict, s2) ->
                 let closing := disconnect (class_of v) (drivers v) s2 in
                 Fixtures.db drivers env test
                 = (match fst closing with
                    | Ret _ => Ret verdict
                    | Throw e => Throw e
                    end,
                    Some (existT v (snd closing))))
  end.
Proof.
  unfold Fixtures.db. destruct (DatabaseFactory.fromEnv env) as [client|e] eqn:F;
    [|reflexivity].
  destruct (fromEnv_fresh env client F) as (v & cfg & ->).
  exists v, cfg. split; [reflexivity |]. rewrite class_instance_fresh.
  cbv zeta. unfold bind, Fixtures.use, ret. split.
  - intros e s1 C. now rewrite C.
  - intros s1 verdict s2 C U. rewrite C, U.
    destruct (disconnect (class_of v) (drivers v) s2) as [[[]|e] s3]; reflexivity.
Qed.

Lemma db_fixture_lifecycle_witness :
  Fixtures.db reliable_drivers (<["DB_PROVIDER" := "sqlite"]> ∅) select_then_fail
  = (Ret (Throw boom),
     Some (existT sqlite
             (mkSelf (SqliteClient.new (provider_only "sqlite"))
                [SqliteClient.Open ":memory:"; SqliteClient.Prepare 0 "SELECT 1";
                 SqliteClient.All 1 []; SqliteClient.Close 0]))).
Proof.
  pose proof (db_fixture_lifecycle reliable_drivers (<["DB_PROVIDER" := "sqlite"]> ∅)
                select_then_fail) as H.
  assert (F : DatabaseFactory.fromEnv (<["DB_PROVIDER" := "sqlite"]> ∅)
              = Ret (instance_of sqlite (provider_only "sqlite"))) by reflexivity.
  rewrite F in H. destruct H as (v & cfg & E & _ & L).
  destruct v; try discriminate. cbn in E. injection E as <-.
  assert (C : connect (class_of sqlite) (reliable_drivers sqlite)
                (mkSelf (new (class_of sqlite) (provider_only "sqlite")) [])
              = (Ret tt,
                 mkSelf (SqliteClient.set_db (Some 0)
                           (SqliteClient.new (provider_only "sqlite")))
                   [SqliteClient.Open ":memory:"])) by (vm_compute; reflexivity).
  assert (U : select_then_fail sqlite
                (mkSelf (SqliteClient.set_db (Some 0)
                           (SqliteClient.new (provider_only "sqlite")))
                   [SqliteClient.Open ":memory:"])
              = (Throw boom,
                 mkSelf (SqliteClient.set_db (Some 0)
                           (SqliteClient.new (provider_only "sqlite")))
                   [SqliteClient.Open ":memory:"; SqliteClient.Prepare 0 "SELECT 1";
                    SqliteClient.All 1 []])) by (vm_compute; reflexivity).
  rewrite (L _ _ _ C U). cbn. reflexivity.
Defined.

(** *** [generateUUID] *)

Lemma to_int32_draw (x : Q) :
  (0 <= x)%Q -> (x < 1)%Q -> (0 <= TestData.to_int32 (x * 16) <= 15)%Z.
Proof.
  destruct x as [n d]. unfold Qle, Qlt, TestData.to_int32. cbn [Qnum Qden Qmult].
  intros H0 H1.
  assert (Hn : (0 <= n)%Z) by lia. assert (Hd : (n < Z.pos d)%Z) by lia.
  replace (Z.pos (d * 1)) with (Z.pos d) by (now rewrite Pos.mul_1_r).
  rewrite Z.quot_div_nonneg by lia.
  assert (B : (0 <= n * 16 / Z.pos d <= 15)%Z).
  { split; [apply Z.div_pos; lia |].
    apply Z.lt_succ_r. apply Z.div_lt_upper_bound; lia. }
  rewrite Z.mod_small by lia. lia.
Qed.

Lemma small_cases (v : Z) :
  (0 <= v <= 15)%Z ->
  (v = 0 \/ v = 1 \/ v = 2 \/ v = 3 \/ v = 4 \/ v = 5 \/ v = 6 \/ v = 7 \/ v = 8
   \/ v = 9 \/ v = 10 \/ v = 11 \/ v = 12 \/ v = 13 \/ v = 14 \/ v = 15)%Z.
Proof. lia. Qed.

Lemma hex_digit (v : Z) :
  (0 <= v <= 15)%Z ->
  exists h, TestData.toString16 v = String h EmptyString /\ is_hex h = true.
Proof.
  intros H. apply small_cases in H.
  repeat (destruct H as [-> | H]); try subst v; eexists; split; reflexivity.
Qed.

Lemma variant_digit (r : Z) :
  (0 <= r <= 15)%Z ->
  exists h, TestData.toString16 (Z.lor (Z.land r 3) 8) = String h EmptyString
            /\ is_variant h = true.
Proof.
  intros H. apply small_cases in H.
  repeat (destruct H as [-> | H]); try subst r; eexists; split; reflexivity.
Qed.

Lemma replace_xy_laid_out (f : ascii -> nat -> string) (layout : string) (calls : nat) :
  (forall n, exists h, f "x"%char n = String h EmptyString /\ is_hex h = true) ->
  (forall n, exists h, f "y"%char n = String h EmptyString /\ is_variant h = true) ->
  laid_out layout (TestData.replace_xy f calls layout) = true.
Proof.
  intros Hx Hy. revert calls. induction layout as [|l layout IH]; intros calls;
    [reflexivity |].
  cbn [TestData.replace_xy].
  destruct (Ascii.eqb_spec l "x") as [-> | Nx].
  - cbn [orb]. destruct (Hx calls) as (h & -> & Hh).
    cbn [String.append laid_out]. rewrite Ascii.eqb_refl, Hh, IH. reflexivity.
  - destruct (Ascii.eqb_spec l "y") as [-> | Ny].
    + cbn [orb]. destruct (Hy calls) as (h & -> & Hh).
      cbn [String.append laid_out].
      replace (Ascii.eqb "y" "x") with false by reflexivity.
      rewrite Ascii.eqb_refl, Hh, IH. reflexivity.
    + cbn [orb laid_out].
      destruct (Ascii.eqb_spec l "x"); [contradiction |].
      destruct (Ascii.eqb_spec l "y"); [contradiction |].
      rewrite Ascii.eqb_refl, IH. reflexivity.
Qed.

Lemma laid_out_length (layout s : string) :
  laid_out layout s = true -> String.length s = String.length layout.
Proof.
  revert s. induction layout as [|l layout IH]; intros [|c s]; cbn [laid_out String.length];
    try discriminate; [reflexivity |].
  intros H. apply andb_true_iff in H as [_ H]. now rewrite (IH s H).
Qed.

Lemma is_uuid_v4_length (s : string) : is_uuid_v4 s = true -> String.length s = 36.
Proof.
  intros L. exact (laid_out_length "xxxxxxxx-xxxx-4xxx-yxxx-xxxxxxxxxxxx" s L).
Qed.

(** Whatever the random numbers drawn, [generateUUID] returns a
    well-formed version-4 UUID: 36 characters, hyphens after the 8th, 13th,
    18th and 23rd, the version digit [4], a variant digit among [8], [9],
    [a], [b], and lowercase hexadecimal digits everywhere else. *)
Theorem generateUUID_is_well_formed (random : nat -> Q) :
  (forall n, (0 <= random n)%Q /\ (random n < 1)%Q) ->
  is_uuid_v4 (TestData.generateUUID random) = true
  /\ String.length (TestData.generateUUID random) = 36.
Proof.
  intros H.
  assert (L : is_uuid_v4 (TestData.generateUUID random) = true).
  { unfold is_uuid_v4, TestData.generateUUID. apply replace_xy_laid_out.
    - intros n. cbv beta zeta. change (Ascii.eqb "x" "x") with true. cbv iota.
      apply hex_digit. apply to_int32_draw; apply H.
    - intros n. cbv beta zeta. change (Ascii.eqb "y" "x") with false. cbv iota.
      apply variant_digit. apply to_int32_draw; apply H. }
  split; [exact L |]. exact (is_uuid_v4_length _ L).
Qed.

Lemma generateUUID_is_well_formed_witness :
  TestData.generateUUID sixteenths = "01234567-89ab-4cde-b012-3456789abcde"
  /\ is_uuid_v4 (TestData.generateUUID sixteenths) = true
  /\ String.length (TestData.generateUUID sixteenths) = 36.
Proof.
  split; [reflexivity |].
  apply (generateUUID_is_well_formed sixteenths).
  intros n. unfold sixteenths, Qle, Qlt. cbn [Qnum Qden].
  pose proof (Nat.mod_upper_bound n 16). lia.
Defined.

(** *** After a transaction *)

Lemma query_goes_to_pool (k : Pooled) (drv : PooledDriver k) (s : PooledSt k) (p : Handle)
    (sql : string) (params : option (list value)) :
  link (class_of (variant_of k)) (this s) = Some p ->
  idle (class_of (variant_of k)) (this s) = true ->
  history (snd (query (class_of (variant_of k)) drv sql params s))
  = history s ++ [on_pool k p sql params].
Proof.
  destruct s as [f h]. destruct k; cbn in *; intros Hp Hi.
  - destruct f as [pl cl cfg t]. cbn in *. subst pl. destruct t; [discriminate |].
    unfold PostgresClient.query. run. cbn.
    match goal with |- context [drv ?h ?c] => destruct (drv h c) end; reflexivity.
  - destruct f as [pl cl cfg t]. cbn in *. subst pl. destruct t; [discriminate |].
    unfold MySqlClient.query, MySqlClient.conn_execute. run. cbn.
    match goal with |- context [drv ?h ?c] => destruct (drv h c) as [[? ?]|] end;
      reflexivity.
  - destruct f as [pl cl cfg t]. cbn in *. subst pl. destruct t; [discriminate |].
    unfold MsSqlClient.query. run. cbn.
    match goal with |- context [drv ?h ?c] => destruct (drv h c) end; reflexivity.
Qed.

(** Once [transaction] has returned or thrown, whatever happened inside,
    the instance is back to the pool: the next [query] is sent on the pool,
    not on the handle the transaction used.  (The handle was acquired, the
    body left the fields of the instance alone, and releasing does not fail.) *)
Theorem after_transaction_queries_use_the_pool (k : Pooled) (drv : PooledDriver k)
    (T : Type) (fn : M (PooledSt k) T) (self : PooledFields k)
    (past : list (PooledCall k)) (p c : Handle)
    (sql : string) (params : option (list value)) :
  link (class_of (variant_of k)) self = Some p ->
  acquired k drv past p c ->
  (forall h c', accepts drv h (release_calls k c')) ->
  (forall s, this (snd (fn s)) = this s) ->
  let after := snd (transaction_of k drv fn (mkSelf self past)) in
  slot_of k (this after) = None
  /\ idle (class_of (variant_of k)) (this after) = true
  /\ history (snd (query (class_of (variant_of k)) drv sql params after))
     = history after ++ [on_pool k p sql params].
Proof.
  intros Hp A R F after.
  assert (E : link (class_of (variant_of k)) (this after) = Some p
              /\ slot_of k (this after) = None
              /\ idle (class_of (variant_of k)) (this after) = true).
  { subst after. set (out := transaction_of k drv fn (mkSelf self past)).
    destruct k; cbn in Hp, A, R, F.
    - assert (R' : forall h c', drv h (PostgresClient.ClientRelease c') = Ret tt).
      { intros h c'. destruct (R h c') as [[[] E] _]. exact E. }
      pose proof (pg_transaction_contract drv fn self past p c Hp A R' F) as X.
      unfold pg_contract in X. cbv zeta in X. destruct X as [[E _] _].
      enough (G : forall f : PostgresClient.Fields,
                 f = PostgresClient.set_isTransaction false (PostgresClient.set_client None self) ->
                 PostgresClient.pool f = Some p /\ PostgresClient.client f = None
                 /\ negb (PostgresClient.isTransaction f) = true)
        by exact (G _ E).
      intros f ->. destruct self; cbn in *. repeat split; assumption.
    - assert (R' : forall h c', drv h (MySqlClient.Release c') = Ret tt).
      { intros h c'. destruct (R h c') as [[[] E] _]. exact E. }
      pose proof (mysql_transaction_contract drv fn self past p c Hp A R' F) as X.
      unfold mysql_contract in X. cbv zeta in X. destruct X as [[E _] _].
      enough (G : forall f : MySqlClient.Fields,
                 f = MySqlClient.set_isTransaction false (MySqlClient.set_connection None self) ->
                 MySqlClient.pool f = Some p /\ MySqlClient.connection f = None
                 /\ negb (MySqlClient.isTransaction f) = true)
        by exact (G _ E).
      intros f ->. destruct self; cbn in *. repeat split; assumption.
    - pose proof (mssql_transaction_contract drv fn self past p c Hp A F) as X.
      unfold mssql_contract in X. cbv zeta in X. destruct X as [E _].
      enough (G : forall f : MsSqlClient.Fields,
                 f = MsSqlClient.set_isTransaction false (MsSqlClient.set_currentTransaction None self) ->
                 MsSqlClient.pool f = Some p /\ MsSqlClient.currentTransaction f = None
                 /\ negb (MsSqlClient.isTransaction f) = true)
        by exact (G _ E).
      intros f ->. destruct self; cbn in *. repeat split; assumption. }
  destruct E as (L & S & I). split; [exact S |]. split; [exact I |].
  now apply query_goes_to_pool.
Qed.

Lemma after_transaction_witness :
  let after :=
    snd (PostgresClient.transaction pg_reliable
           (PostgresClient.execute pg_reliable "DELETE FROM users" None ;;;
            (throw boom : M PostgresClient.St number))
           pg_connected) in
  PostgresClient.client (this after) = None
  /\ negb (PostgresClient.isTransaction (this after)) = true
  /\ history (snd (PostgresClient.query pg_reliable "SELECT 1" None after))
     = history after ++ [PostgresClient.PoolQuery 0 "SELECT 1" None].
Proof.
  apply (after_transaction_queries_use_the_pool pooled_postgres pg_reliable number
           (PostgresClient.execute pg_reliable "DELETE FROM users" None ;;;
            (throw boom : M PostgresClient.St number))
           (this pg_connected) (history pg_connected) 0 1 "SELECT 1" None).
  - reflexivity.
  - reflexivity.
  - intros h c'. cbn. split; [exists tt; reflexivity | exact I].
  - intros s. unfold bind, throw.
    pose proof (proj2 (pg_query_frame pg_reliable "DELETE FROM users" None s)) as F.
    destruct (PostgresClient.execute pg_reliable "DELETE FROM users" None s) as [[|] ?];
      exact F.
Defined.

(** *** Worked examples of the statements above *)

Lemma fromEnv_outcomes_witness :
  DatabaseFactory.fromEnv (<["DB_PROVIDER" := "oracle"]> (<["DB_HOST" := "db"]> ∅))
    = Throw (Error "Unsupported database provider: oracle")
  /\ exists cfg,
       DatabaseFactory.fromEnv (<["DB_PROVIDER" := "mssql"]> (<["DB_HOST" := "db"]> ∅))
         = Ret (instance_of mssql cfg)
       /\ provider cfg = "mssql" /\ host cfg = Some "db".
Proof.
  split.
  - pose proof (fromEnv_outcomes (<["DB_PROVIDER" := "oracle"]> (<["DB_HOST" := "db"]> ∅)))
      as H.
    replace ((<["DB_PROVIDER" := "oracle"]> (<["DB_HOST" := "db"]> ∅) : gmap string string)
               !! "DB_PROVIDER") with (Some "oracle") in H by reflexivity.
    apply (proj1 (proj2 H)); [discriminate | intros []; discriminate].
  - pose proof (fromEnv_outcomes (<["DB_PROVIDER" := "mssql"]> (<["DB_HOST" := "db"]> ∅)))
      as H.
    replace ((<["DB_PROVIDER" := "mssql"]> (<["DB_HOST" := "db"]> ∅) : gmap string string)
               !! "DB_PROVIDER") with (Some "mssql") in H by reflexivity.
    destruct (proj2 (proj2 H) mssql eq_refl) as (cfg & E & P & Hh & _).
    exists cfg. repeat split; assumption.
Defined.

Lemma convertParams_declares_exactly_witness :
  MsSqlClient.parameters
    (MsSqlClient.convertParams (MsSqlClient.new_Request (MsSqlClient.OnPool 0))
       (Some [VStr "Ada"; VNum 36]))
    !! "p1" = Some (VNum 36)
  /\ forall v,
       MsSqlClient.parameters
         (MsSqlClient.convertParams (MsSqlClient.new_Request (MsSqlClient.OnPool 0))
            (Some [VStr "Ada"; VNum 36]))
         !! "name" = Some v ->
       exists i, "name" = "p" +:+ dec i /\ [VStr "Ada"; VNum 36] !! i = Some v.
Proof.
  destruct (convertParams_declares_exactly (MsSqlClient.OnPool 0) [VStr "Ada"; VNum 36])
    as [H _].
  split.
  - apply (proj2 (H "p1" (VNum 36))). exists 1. split; reflexivity.
  - intros v Hv. exact (proj1 (H "name" v) Hv).
Defined.

Lemma api_fixture_client_witness :
  exists client,
    Fixtures.api (<["API_TOKEN" := "s3cret"]> ∅) 1 (fun c => c) = client
    /\ ApiClient.defaultHeaders client = {[ "Authorization" := "Bearer s3cret" ]}
    /\ ApiClient.baseURL client = "".
Proof.
  destruct (api_fixture_client (<["API_TOKEN" := "s3cret"]> ∅) 1 (fun c => c))
    as (client & authorization & U & _ & B & _ & Hd & Tk & _).
  exists client. split; [exact U |]. split; [|exact B].
  rewrite Hd. f_equal. apply (Tk "s3cret"); [reflexivity | discriminate].
Defined.
